(** * stefutil: pretty-printing and logging helpers

    A shallow embedding of the rendering and logging code of
    [stefutil/prettier.py] and [stefutil/prettier/prettier_log.py], and the
    properties its specification states about them.

    Python [str] values are modelled as [string]; a character outside the
    7-bit range belongs to none of the character classes used below, exactly
    as a non-ASCII code point does in Python. *)

From Stdlib Require Import ZArith Ascii String List Lia Bool.
From Stdlib Require Import DecimalString DecimalNat DecimalFacts.
From Stdlib Require Import Recdef.
From stdpp Require Import base gmap strings list.

Local Open Scope string_scope.

(** ** Strings *)

Module Str.

Definition ESC : ascii := "027"%char.

(** [c in s] for a single character [c]. *)
Fixpoint mem (c : ascii) (s : string) : bool :=
  match s with
  | EmptyString => false
  | String d s' => Ascii.eqb c d || mem c s'
  end.

(** [sep.join(items)] *)
Fixpoint join (sep : string) (items : list string) : string :=
  match items with
  | [] => ""
  | [x] => x
  | x :: rest => x ++ sep ++ join sep rest
  end.

(** [s.startswith(p)] *)
Fixpoint startswith (p s : string) : bool :=
  match p, s with
  | EmptyString, _ => true
  | String a p', String b s' => Ascii.eqb a b && startswith p' s'
  | String _ _, EmptyString => false
  end.

(** [p in s] for a string [p]. *)
Fixpoint contains (p s : string) : bool :=
  startswith p s ||
  match s with
  | EmptyString => false
  | String _ s' => contains p s'
  end.

(** [s.replace(old, new)] for a non-empty [old]: occurrences are replaced
    left to right and do not overlap.  [skip] counts the characters of the
    occurrence just replaced that are still to be passed over. *)
Fixpoint replace_from (old new : string) (skip : nat) (s : string) : string :=
  match s with
  | EmptyString => ""
  | String c s' =>
      match skip with
      | S n => replace_from old new n s'
      | O =>
          if startswith old s
          then new ++ replace_from old new (String.length old - 1) s'
          else String c (replace_from old new 0 s')
      end
  end.

Definition replace (old new s : string) : string := replace_from old new 0 s.

(** [' ' * n] *)
Fixpoint spaces (n : nat) : string :=
  match n with
  | O => ""
  | S n' => String " " (spaces n')
  end.

(** [f'{s:>{pad}}'] for a value whose plain format is [s]. *)
Definition rjust (pad : nat) (s : string) : string :=
  spaces (pad - String.length s) ++ s.

End Str.

(** ** Regular expressions, as far as [_ansi_escape] needs them *)

Module Re.

(** A character class is a list of inclusive ranges. *)
Definition cls := list (ascii * ascii).

Definition in_cls (c : ascii) (rs : cls) : bool :=
  existsb (fun r => (N_of_ascii (fst r) <=? N_of_ascii c)%N
                    && (N_of_ascii c <=? N_of_ascii (snd r))%N) rs.

Inductive re :=
| Chr (c : ascii)
| Cls (rs : cls)
| Star (rs : cls)
| Cat (r1 r2 : re)
| Alt (r1 r2 : re).

(** Backtracking matcher in continuation style: [Star] is greedy, [Alt]
    tries its left branch first, as Python's [re] does.  The result is the
    text left after the match. *)
Fixpoint star_k (rs : cls) (k : string -> option string) (s : string) : option string :=
  match s with
  | String c s' =>
      if in_cls c rs
      then match star_k rs k s' with
           | Some r => Some r
           | None => k s
           end
      else k s
  | EmptyString => k s
  end.

Fixpoint match_k (r : re) (k : string -> option string) (s : string) : option string :=
  match r with
  | Chr c =>
      match s with
      | String d s' => if Ascii.eqb c d then k s' else None
      | EmptyString => None
      end
  | Cls rs =>
      match s with
      | String d s' => if in_cls d rs then k s' else None
      | EmptyString => None
      end
  | Star rs => star_k rs k s
  | Cat r1 r2 => match_k r1 (match_k r2 k) s
  | Alt r1 r2 =>
      match match_k r1 k s with
      | Some x => Some x
      | None => match_k r2 k s
      end
  end.

(** [pattern.match(s)]: the text after the match anchored at the start. *)
Definition match_prefix (r : re) (s : string) : option string := match_k r Some s.

(** [pattern.search(s) is not None] *)
Fixpoint search (r : re) (s : string) : bool :=
  match match_prefix r s with
  | Some _ => true
  | None =>
      match s with
      | EmptyString => false
      | String _ s' => search r s'
      end
  end.

(** [pattern.sub(repl, s)] for a pattern whose matches are never empty.
    After a match of [n+1] characters, [n] more characters are skipped. *)
Fixpoint sub_from (r : re) (repl : string) (skip : nat) (s : string) : string :=
  match s with
  | EmptyString => ""
  | String c s' =>
      match skip with
      | S n => sub_from r repl n s'
      | O =>
          match match_prefix r s with
          | Some rest =>
              match String.length s - String.length rest with
              | S n => repl ++ sub_from r repl n s'
              | O => String c (sub_from r repl 0 s')
              end
          | None => String c (sub_from r repl 0 s')
          end
      end
  end.

Definition sub (r : re) (repl s : string) : string := sub_from r repl 0 s.

End Re.

(** ** ANSI escape sequences *)

(** [_ansi_escape]: ESC followed by a 7-bit C1 code, or by a CSI sequence of
    parameter bytes, intermediate bytes and a final byte. *)
Definition _ansi_escape : Re.re :=
  Re.Cat (Re.Chr Str.ESC)
    (Re.Alt
       (Re.Cls [("@", "Z"); ("\", "_")]%char)
       (Re.Cat (Re.Chr "[")
          (Re.Cat (Re.Star [("0", "?")]%char)
             (Re.Cat (Re.Star [(" ", "/")]%char)
                (Re.Cls [("@", "~")]%char))))).

(** [_filter_ansi] in prettier.py, [filter_ansi] in prettier_log.py. *)
Definition _filter_ansi (txt : string) : string := Re.sub _ansi_escape "" txt.

(** A text contains an ANSI escape sequence when the pattern matches
    somewhere in it. *)
Definition has_ansi (txt : string) : bool := Re.search _ansi_escape txt.

(** ** Exceptions *)

Inductive exn :=
| TypeError
| AssertionError
| ValueError (msg : string)
| KeyError (key : string)
| StopIteration
| FileNotFoundError
| IsADirectoryError.

Inductive result (A : Type) :=
| Ok (a : A)
| Raise (e : exn).
Arguments Ok {A} a.
Arguments Raise {A} e.

Definition bind {A B} (m : result A) (k : A -> result B) : result B :=
  match m with
  | Ok a => k a
  | Raise e => Raise e
  end.

Notation "'let*' x ':=' m 'in' k" := (bind m (fun x => k))
  (at level 10, x pattern, m at level 100, k at level 200).

(** [[f(x) for x in l]]: elements are evaluated in order and the first
    exception ends the loop. *)
Definition mapR {A B} (f : A -> result B) : list A -> result (list B) :=
  fix go (l : list A) : result (list B) :=
    match l with
    | [] => Ok []
    | x :: rest =>
        let* y := f x in
        let* ys := go rest in
        Ok (y :: ys)
    end.

(** ** Values handed to the renderer *)

(** The last branch of [PrettyLogger.i] receives these. *)
Inductive atom :=
| ANone
| ABool (b : bool)
| AInt (n : Z)
| AStr (s : string).

(** A float is represented by its default string form [str(f)], the only
    thing the renderer reads of it.  Dict keys are strings, and a dict keeps
    its items in insertion order. *)
#[warnings="-register-all"]
Inductive value :=
| VAtom (a : atom)
| VFloat (repr : string)
| VList (l : list value)
| VTuple (l : list value)
| VDict (d : list (string * value)).

Definition int_str (n : Z) : string := NilZero.string_of_int (Z.to_int n).

(** [f'{a}'] *)
Definition format_atom (a : atom) : string :=
  match a with
  | ANone => "None"
  | ABool true => "True"
  | ABool false => "False"
  | AInt n => int_str n
  | AStr s => s
  end.

(** [f'{a:>{pad}}']: [None] takes no format spec, and a bool is formatted
    as the integer it is. *)
Definition format_atom_rjust (pad : nat) (a : atom) : result string :=
  match a with
  | ANone => Raise TypeError
  | ABool b => Ok (Str.rjust pad (if b then "1" else "0"))
  | AInt n => Ok (Str.rjust pad (int_str n))
  | AStr s => Ok (Str.rjust pad s)
  end.

(** ** colorama's constants *)

Module colorama.
(** [code_to_chars] *)
Definition code_to_chars (code : string) : string :=
  String Str.ESC ("[" ++ code ++ "m").

Module Fore.
Definition RED := code_to_chars "31".
Definition GREEN := code_to_chars "32".
Definition YELLOW := code_to_chars "33".
Definition BLUE := code_to_chars "34".
Definition MAGENTA := code_to_chars "35".
Definition RESET := code_to_chars "39".
End Fore.
Module Back.
Definition RESET := code_to_chars "49".
End Back.
Module Style.
Definition BRIGHT := code_to_chars "1".
Definition RESET_ALL := code_to_chars "0".
End Style.
End colorama.

(** ** primitive.py *)

(** Modelled from the spec: [float_is_sci] is imported by prettier.py from
    [stefutil.primitive] but is not among the definitions of primitive.py;
    the spec describes it as "the default string form contains an
    exponent". *)
Definition float_is_sci (repr : string) : bool := Str.mem "e" repr.

(** ** Keyword arguments of the renderer *)

(** [for_path] is [False], [True] or the string ['shorter-bool']. *)
Inductive for_path_t :=
| FPBool (b : bool)
| FPShorterBool.

(** [if for_path:] *)
Definition fp_truthy (fp : for_path_t) : bool :=
  match fp with
  | FPBool b => b
  | FPShorterBool => true
  end.

(** [for_path == 'shorter-bool'] *)
Definition fp_is_shorter_bool (fp : for_path_t) : bool :=
  match fp with
  | FPShorterBool => true
  | FPBool _ => false
  end.

(** The [**kwargs] of [PrettyLogger.i]: each field is [None] when the
    keyword is left out.  The keywords modelled are the named parameters of
    [_dict]; with no other keyword the [**kwargs] left over inside [_dict] is
    empty, so that [d or kwargs or dict()] is [d]. *)
Record kwargs := Kwargs {
  with_color : option bool;
  pad_float : option (option nat);
  key_value_sep : option string;
  pairs_sep : option string;
  for_path : option for_path_t;
  omit_none_val : option bool
}.

Definition no_kwargs : kwargs := Kwargs None None None None None None.

Definition is_present {A} (o : option A) : bool :=
  match o with
  | Some _ => true
  | None => false
  end.

(** [if pad:] for an optional width. *)
Definition pad_truthy (pad : option nat) : option nat :=
  match pad with
  | Some (S n) => Some (S n)
  | _ => None
  end.

(** ** prettier.py: PrettyLogger *)

Module PrettyLogger.
Import colorama.

Definition reset : string := Fore.RESET ++ Back.RESET ++ Style.RESET_ALL.

Definition key2c_items : list (string * string) :=
  [ ("log", "");
    ("warn", Fore.YELLOW);
    ("error", Fore.RED);
    ("err", Fore.RED);
    ("success", Fore.GREEN);
    ("suc", Fore.GREEN);
    ("info", Fore.BLUE);
    ("i", Fore.BLUE);
    ("w", Fore.RED);
    ("y", Fore.YELLOW);
    ("yellow", Fore.YELLOW);
    ("red", Fore.RED);
    ("r", Fore.RED);
    ("green", Fore.GREEN);
    ("g", Fore.GREEN);
    ("blue", Fore.BLUE);
    ("b", Fore.BLUE);
    ("m", Fore.MAGENTA) ].

Definition key2c : gmap string string := list_to_map key2c_items.

(** [log(s, c, as_str=True, bold, pad)].  [c] is a string or [None]; the
    branch that prints ([as_str=False]) is not modelled. *)
Definition log (s : atom) (c : option string) (bold : bool) (pad : option nat)
  : result string :=
  let '(c, need_reset) :=
    match c with
    | Some key =>
        match key2c !! key with
        | Some code => (Some code, true)
        | None => (c, false)
        end
    | None => (None, false)
    end in
  let* c :=
    (if bold
     then match c with
          | Some x => Ok (Some (x ++ Style.BRIGHT))
          | None => Raise TypeError
          end
     else Ok c) in
  let need_reset := need_reset || bold in
  let reset := if need_reset then reset else "" in
  let c_text := match c with Some x => x | None => "None" end in
  match pad_truthy pad with
  | Some w => let* t := format_atom_rjust w s in Ok (c_text ++ t ++ reset)
  | None => Ok (c_text ++ format_atom s ++ reset)
  end.

(** [s(s, c, bold, with_color)] *)
Definition s (s : atom) (c : option string) (bold : bool) (with_color : bool)
  : result string :=
  let c := if with_color then c else Some "" in
  log s c bold None.

(** [_float(f, pad)] *)
Definition _float (f : string) (pad : option nat) : string :=
  if float_is_sci f then Str.replace "e+0" "e+" (Str.replace "e-0" "e-" f)
  else match pad_truthy pad with
       | Some w => Str.rjust w f
       | None => f
       end.

(** The last branch of [i]: [s(s, c='i', **kwargs)] once [pad_float] is
    popped; [s] accepts none of the other keywords. *)
Definition i_else (a : atom) (kw : kwargs) : result string :=
  if is_present (key_value_sep kw) || is_present (pairs_sep kw)
     || is_present (for_path kw) || is_present (omit_none_val kw)
  then Raise TypeError
  else s a (Some "i") false (default true (with_color kw)).

Section Recursion.
(** [PrettyLogger.i], which the helpers below call back. *)
Variable i : value -> kwargs -> result string.

(** [_iter(it, with_color, pref, post, for_path)] *)
Definition _iter (it : list value) (with_color : bool) (pref post : string)
    (for_path : for_path_t) : result string :=
  let* pref := (if with_color then s (AStr pref) (Some "m") false true else Ok pref) in
  let* post := (if with_color then s (AStr post) (Some "m") false true else Ok post) in
  let* lst :=
    mapR (fun e => i e (Kwargs (Some with_color) None None None None None)) it in
  let sep := if fp_truthy for_path then "," else ", " in
  Ok (pref ++ Str.join sep lst ++ post).

Definition _list (lst : list value) (with_color : bool) (for_path : for_path_t) :=
  _iter lst with_color "[" "]" for_path.

Definition _tuple (tpl : list value) (with_color : bool) (for_path : for_path_t) :=
  _iter tpl with_color "(" ")" for_path.

(** [_log_val], the closure of [_dict]; it reads [key_value_sep] as
    [_dict] has updated it by the time the pairs are produced. *)
Definition _log_val (with_color : bool) (pad_float : option nat)
    (key_value_sep pairs_sep : string) (for_path : for_path_t)
    (omit_none_val : bool) (v : value) : result string :=
  match v with
  | VDict _ =>
      i v (Kwargs (Some with_color) (Some pad_float) (Some key_value_sep)
             (Some pairs_sep) (Some for_path) (Some omit_none_val))
  | VList _ | VTuple _ =>
      i v (Kwargs (Some with_color) None None None (Some for_path) None)
  | VAtom (ABool b) =>
      if fp_is_shorter_bool for_path
      then Ok (if b then "T" else "F")
      else i v (Kwargs (Some with_color) (Some pad_float) None None None None)
  | VAtom _ | VFloat _ =>
      i v (Kwargs (Some with_color) (Some pad_float) None None None None)
  end.

(** [_dict(d, with_color, pad_float, key_value_sep, pairs_sep, for_path,
    omit_none_val)] *)
Definition _dict (d : list (string * value)) (with_color : bool)
    (pad_float : option nat) (key_value_sep pairs_sep : string)
    (for_path : for_path_t) (omit_none_val : bool) : result string :=
  let* _ := (if fp_truthy for_path && with_color
             then Raise AssertionError else Ok tt) in
  let key_value_sep := if fp_truthy for_path then "=" else key_value_sep in
  let* key_value_sep :=
    (if with_color then s (AStr key_value_sep) (Some "m") false true
     else Ok key_value_sep) in
  let* pref := (if with_color then s (AStr "{") (Some "m") false true else Ok "{") in
  let* post := (if with_color then s (AStr "}") (Some "m") false true else Ok "}") in
  let* pairs :=
    mapR (fun kv : string * value =>
            let (k, v) := kv in
            match omit_none_val, v with
            | true, VAtom ANone => Ok k
            | _, _ =>
                let* t := _log_val with_color pad_float key_value_sep pairs_sep
                            for_path omit_none_val v in
                Ok (k ++ key_value_sep ++ t)
            end) d in
  Ok (pref ++ Str.join pairs_sep pairs ++ post).
End Recursion.

(** [i(s, **kwargs)] *)
Fixpoint i (v : value) (kw : kwargs) {struct v} : result string :=
  match v with
  | VDict d =>
      _dict i d (default true (with_color kw))
        (default None (pad_float kw))
        (default ": " (key_value_sep kw))
        (default ", " (pairs_sep kw))
        (default (FPBool false) (for_path kw))
        (default false (omit_none_val kw))
  | VList l =>
      if is_present (pad_float kw) || is_present (key_value_sep kw)
         || is_present (pairs_sep kw) || is_present (omit_none_val kw)
      then Raise TypeError
      else _list i l (default true (with_color kw)) (default (FPBool false) (for_path kw))
  | VTuple l =>
      if is_present (pad_float kw) || is_present (key_value_sep kw)
         || is_present (pairs_sep kw) || is_present (omit_none_val kw)
      then Raise TypeError
      else _tuple i l (default true (with_color kw)) (default (FPBool false) (for_path kw))
  | VFloat f =>
      let s := _float f (default None (pad_float kw)) in
      i_else (AStr s)
        (Kwargs (with_color kw) None (key_value_sep kw) (pairs_sep kw)
           (for_path kw) (omit_none_val kw))
  | VAtom a => i_else a kw
  end.

(** [pa(s, shorter_bool, **kwargs)]; a keyword that [pa] passes itself
    cannot be given again. *)
Definition pa (s : value) (shorter_bool : bool) (kw : kwargs) : result string :=
  match s with
  | VDict _ =>
      let fp := if shorter_bool then FPShorterBool else FPBool true in
      if is_present (for_path kw) || is_present (with_color kw)
      then Raise TypeError
      else i s (Kwargs (Some false) (pad_float kw) (key_value_sep kw) (Some ",")
                  (Some fp) (omit_none_val kw))
  | _ => Raise AssertionError
  end.

(** [nc(s, **kwargs)] *)
Definition nc (s : value) (kw : kwargs) : result string :=
  if is_present (with_color kw) then Raise TypeError
  else i s (Kwargs (Some false) (pad_float kw) (key_value_sep kw) (pairs_sep kw)
              (for_path kw) (omit_none_val kw)).

End PrettyLogger.

(** ** The standard logging module, as far as the repository uses it *)

Module logging.

Definition NOTSET : Z := 0.
Definition DEBUG : Z := 10.
Definition INFO : Z := 20.
Definition WARNING : Z := 30.
Definition ERROR : Z := 40.
Definition CRITICAL : Z := 50.

(** A record: who logged, at which level, the message, and the [block]
    attribute an [extra] dict may have set ([None] when it has not). *)
Record LogRecord := {
  r_name : string;
  r_levelno : Z;
  r_msg : string;
  r_block : option value
}.

(** The three handler classes the repository instantiates; the stream of
    a [StreamHandler] is always [sys.stdout]. *)
Inductive handler_class :=
| StreamHandler
| FileHandler
| CleanAnsiFileHandler.

(** [isinstance(h, logging.FileHandler)] *)
Definition is_FileHandler (c : handler_class) : bool :=
  match c with
  | StreamHandler => false
  | FileHandler | CleanAnsiFileHandler => true
  end.

(** A [HandlerFilter] object. *)
Record HandlerFilter := { handler_name : option string }.

(** A handler object: [h_id] is its identity, [h_file] the file a file
    handler writes to, [h_formatter] the [with_color] flag of the
    [MyFormatter] set on it. *)
Record Handler := {
  h_id : nat;
  h_class : handler_class;
  h_file : option string;
  h_level : Z;
  h_formatter : option bool;
  h_filters : list HandlerFilter
}.

Record Logger := {
  lg_handlers : list Handler;
  lg_level : Z;
  lg_propagate : bool
}.

(** What a sink receives: the record as the formatter saw it, and whether
    the formatter colours.  The text layout of [MyFormatter] is not
    modelled. *)
Record entry := {
  e_with_color : bool;
  e_record : LogRecord
}.

End logging.
Export logging.

(** ** The process state *)

(** The logger registry of the logging module (a logger object is referred
    to by its key), the directories and files that exist, what has been
    written to each file and to standard output, and the next fresh object
    identity.  Paths are compared as the program spells them. *)
Record world := World {
  loggers : gmap string Logger;
  dirs : gset string;
  files : gmap string (list entry);
  stdout : list entry;
  next_id : nat
}.

(** A stateful call: a value or an exception, and the state reached either
    way. *)
Definition M (A : Type) : Type := world -> result A * world.

Definition ret {A} (a : A) : M A := fun w => (Ok a, w).

Definition bindM {A B} (m : M A) (k : A -> M B) : M B :=
  fun w =>
    match m w with
    | (Ok a, w') => k a w'
    | (Raise e, w') => (Raise e, w')
    end.

Notation "'let!' x ':=' m 'in' k" := (bindM m (fun x => k))
  (at level 10, x pattern, m at level 100, k at level 200).

Definition raise {A} (e : exn) : M A := fun w => (Raise e, w).

Definition lift {A} (r : result A) : M A :=
  match r with
  | Ok a => ret a
  | Raise e => raise e
  end.

(** [assert cond] *)
Definition assert (cond : bool) : M unit :=
  if cond then ret tt else raise AssertionError.

(** [for x in l: body(x)] *)
Definition forM {A} (body : A -> M unit) : list A -> M unit :=
  fix go (l : list A) : M unit :=
    match l with
    | [] => ret tt
    | x :: rest => let! _ := body x in go rest
    end.

(** ** os.path and os, on POSIX paths *)

Module os.

(** [p[:p.rfind('/') + 1]] *)
Fixpoint head_to_last_sep (p : string) : string :=
  match p with
  | EmptyString => ""
  | String c p' =>
      match head_to_last_sep p' with
      | EmptyString => if Ascii.eqb c "/" then "/" else ""
      | h => String c h
      end
  end.

(** [head == '/' * len(head)] *)
Fixpoint all_sep (head : string) : bool :=
  match head with
  | EmptyString => true
  | String c h => Ascii.eqb c "/" && all_sep h
  end.

(** [head.rstrip('/')] *)
Fixpoint rstrip_sep (head : string) : string :=
  match head with
  | EmptyString => ""
  | String c h =>
      match rstrip_sep h with
      | EmptyString => if Ascii.eqb c "/" then "" else String c ""
      | r => String c r
      end
  end.

(** [os.path.dirname] *)
Definition dirname (p : string) : string :=
  let head := head_to_last_sep p in
  if negb (String.eqb head "") && negb (all_sep head) then rstrip_sep head else head.

(** [os.path.exists] *)
Definition exists_ (p : string) : M bool :=
  fun w => (Ok (bool_decide (p ∈ dirs w) || bool_decide (is_Some (files w !! p))), w).

(** The directories above [p]: every non-empty prefix of [p] that ends
    just before a separator. *)
Fixpoint parents_from (pre p : string) : list string :=
  match p with
  | EmptyString => []
  | String c p' =>
      (if Ascii.eqb c "/" && negb (String.eqb pre "") then [pre] else [])
      ++ parents_from (pre ++ String c "") p'
  end.

(** [os.makedirs(name, exist_ok=True)]: [name] and the directories above
    it exist afterwards.  Failures of the operating system (permissions, a
    regular file in the way) are not modelled. *)
Definition makedirs (name : string) : M unit :=
  fun w =>
    (Ok tt,
     World (loggers w) (dirs w ∪ list_to_set (parents_from "" name) ∪ {[name]})
       (files w) (stdout w) (next_id w)).

(** [open(path, mode)] for writing: the directory of [path] must exist
    and [path] must not be a directory; the file is created when missing
    and emptied in mode ['w'] (every other mode is taken to append). *)
Definition open_ (path mode : string) : M unit :=
  fun w =>
    let dnm := dirname path in
    if negb (String.eqb dnm "") && negb (bool_decide (dnm ∈ dirs w))
    then (Raise FileNotFoundError, w)
    else if bool_decide (path ∈ dirs w) then (Raise IsADirectoryError, w)
    else
      let content :=
        if String.eqb mode "w" then [] else default [] (files w !! path) in
      (Ok tt,
       World (loggers w) (dirs w) (<[path := content]> (files w)) (stdout w)
         (next_id w)).

End os.

(** ** Operations of the logging module *)

(** Truth value of a Python object. *)
Definition truthy (v : value) : bool :=
  match v with
  | VAtom ANone => false
  | VAtom (ABool b) => b
  | VAtom (AInt n) => negb (n =? 0)%Z
  | VAtom (AStr s) => negb (String.eqb s "")
  | VFloat r => negb (String.eqb r "0.0" || String.eqb r "-0.0")
  | VList l | VTuple l => negb (bool_decide (l = []))
  | VDict d => negb (bool_decide (d = []))
  end.

(** [name == v] for [name] a string or [None]. *)
Definition name_eq (name : option string) (v : value) : bool :=
  match name, v with
  | Some n, VAtom (AStr s) => String.eqb n s
  | None, VAtom ANone => true
  | _, _ => false
  end.

Module Logger.

(** A logger that [getLogger] creates; the root logger starts at
    [WARNING]. *)
Definition fresh (key : string) : logging.Logger :=
  {| lg_handlers := [];
     lg_level := if String.eqb key "root" then WARNING else NOTSET;
     lg_propagate := true |}.

(** The registry key of a name: the empty name and ['root'] both denote
    the root logger. *)
Definition key_of (name : string) : string :=
  if String.eqb name "" then "root" else name.

(** [logging.getLogger(name)].  The result refers to the logger by its
    registry key. *)
Definition getLogger (name : string) : M string :=
  fun w =>
    let key := key_of name in
    match loggers w !! key with
    | Some _ => (Ok key, w)
    | None =>
        (Ok key,
         World (<[key := fresh key]> (loggers w)) (dirs w) (files w) (stdout w)
           (next_id w))
    end.

(** Reading and updating the logger object behind a reference. *)
Definition read (key : string) : M logging.Logger :=
  fun w => (Ok (default (fresh key) (loggers w !! key)), w).

Definition update (key : string) (f : logging.Logger -> logging.Logger) : M unit :=
  fun w =>
    (Ok tt,
     World (<[key := f (default (fresh key) (loggers w !! key))]> (loggers w))
       (dirs w) (files w) (stdout w) (next_id w)).

(** [logger.handlers = hs] *)
Definition set_handlers (key : string) (hs : list Handler) : M unit :=
  update key (fun lg => {| lg_handlers := hs; lg_level := lg_level lg;
                           lg_propagate := lg_propagate lg |}).

(** [logger.setLevel(level)] *)
Definition setLevel (key : string) (level : Z) : M unit :=
  update key (fun lg => {| lg_handlers := lg_handlers lg; lg_level := level;
                           lg_propagate := lg_propagate lg |}).

(** [logger.propagate = b] *)
Definition set_propagate (key : string) (b : bool) : M unit :=
  update key (fun lg => {| lg_handlers := lg_handlers lg; lg_level := lg_level lg;
                           lg_propagate := b |}).

(** [hdlr in logger.handlers]: handlers are compared by identity. *)
Definition has_handler (hs : list Handler) (h : Handler) : bool :=
  existsb (fun h' => Nat.eqb (h_id h') (h_id h)) hs.

(** [logger.addHandler(hdlr)] *)
Definition addHandler (key : string) (h : Handler) : M unit :=
  update key (fun lg =>
    {| lg_handlers := if has_handler (lg_handlers lg) h then lg_handlers lg
                      else (lg_handlers lg ++ [h])%list;
       lg_level := lg_level lg; lg_propagate := lg_propagate lg |}).

(** [list.remove(h)]: the first occurrence goes. *)
Fixpoint remove_first (h : Handler) (hs : list Handler) : list Handler :=
  match hs with
  | [] => []
  | h' :: rest => if Nat.eqb (h_id h') (h_id h) then rest else h' :: remove_first h rest
  end.

(** [logger.removeHandler(hdlr)] *)
Definition removeHandler (key : string) (h : Handler) : M unit :=
  update key (fun lg =>
    {| lg_handlers := remove_first h (lg_handlers lg);
       lg_level := lg_level lg; lg_propagate := lg_propagate lg |}).

End Logger.

(** [HandlerFilter.filter], the same in prettier.py and prettier_log.py. *)
Definition HandlerFilter_filter (self : HandlerFilter) (record : LogRecord) : bool :=
  let block := default (VAtom ANone) (r_block record) in
  if truthy block && name_eq (handler_name self) block then false else true.

Module Handler.

Definition fresh_id : M nat :=
  fun w => (Ok (next_id w),
            World (loggers w) (dirs w) (files w) (stdout w) (S (next_id w))).

(** [logging.StreamHandler(stream=sys.stdout)] *)
Definition new_stream : M logging.Handler :=
  let! n := fresh_id in
  ret {| h_id := n; h_class := StreamHandler; h_file := None; h_level := NOTSET;
         h_formatter := None; h_filters := [] |}.

(** [cls(file_path, mode=file_mode)] for [cls] a file handler class: the
    file is opened at once. *)
Definition new_file (cls : handler_class) (file_path mode : string)
  : M logging.Handler :=
  let! _ := os.open_ file_path mode in
  let! n := fresh_id in
  ret {| h_id := n; h_class := cls; h_file := Some file_path; h_level := NOTSET;
         h_formatter := None; h_filters := [] |}.

Definition setLevel (h : logging.Handler) (level : Z) : logging.Handler :=
  {| h_id := h_id h; h_class := h_class h; h_file := h_file h; h_level := level;
     h_formatter := h_formatter h; h_filters := h_filters h |}.

(** [handler.setFormatter(MyFormatter(with_color=b))] *)
Definition setFormatter (h : logging.Handler) (with_color : bool) : logging.Handler :=
  {| h_id := h_id h; h_class := h_class h; h_file := h_file h; h_level := h_level h;
     h_formatter := Some with_color; h_filters := h_filters h |}.

Definition addFilter (h : logging.Handler) (f : HandlerFilter) : logging.Handler :=
  {| h_id := h_id h; h_class := h_class h; h_file := h_file h; h_level := h_level h;
     h_formatter := h_formatter h; h_filters := (h_filters h ++ [f])%list |}.

(** [Filterer.filter]: every filter has to let the record through. *)
Definition filter (h : logging.Handler) (record : LogRecord) : bool :=
  forallb (fun f => HandlerFilter_filter f record) (h_filters h).

Definition write_stdout (e : entry) : M unit :=
  fun w => (Ok tt,
            World (loggers w) (dirs w) (files w) (stdout w ++ [e])%list (next_id w)).

Definition write_file (path : string) (e : entry) : M unit :=
  fun w => (Ok tt,
            World (loggers w) (dirs w)
              (<[path := (default [] (files w !! path) ++ [e])%list]> (files w))
              (stdout w) (next_id w)).

(** [StreamHandler.emit]: format the record and write it to the stream. *)
Definition emit_stream (h : logging.Handler) (record : LogRecord) : M unit :=
  let e := {| e_with_color := default false (h_formatter h); e_record := record |} in
  match h_file h with
  | Some path => write_file path e
  | None => write_stdout e
  end.

(** [handler.emit(record)].  [CleanAnsiFileHandler.emit] first overwrites
    [record.msg]; the record object is shared with the handlers that come
    after, so the record as it is left is returned. *)
Definition emit (h : logging.Handler) (record : LogRecord) : M LogRecord :=
  match h_class h with
  | CleanAnsiFileHandler =>
      let record := {| r_name := r_name record; r_levelno := r_levelno record;
                       r_msg := _filter_ansi (r_msg record);
                       r_block := r_block record |} in
      let! _ := emit_stream h record in
      ret record
  | StreamHandler | FileHandler =>
      let! _ := emit_stream h record in
      ret record
  end.

(** [handler.handle(record)] *)
Definition handle (h : logging.Handler) (record : LogRecord) : M LogRecord :=
  if filter h record then emit h record else ret record.

End Handler.

Module LoggerLog.

(** The handlers of one logger in turn, each at its own level. *)
Fixpoint call_each (hs : list logging.Handler) (record : LogRecord) : M LogRecord :=
  match hs with
  | [] => ret record
  | h :: rest =>
      let! record :=
        (if (h_level h <=? r_levelno record)%Z then Handler.handle h record
         else ret record) in
      call_each rest record
  end.

(** [Logger.callHandlers].  The hierarchy of dotted names is not
    modelled: the parent of every other logger is the root logger.  The
    handler of last resort, which writes to standard error when no handler
    is found, is left out. *)
Definition callHandlers (key : string) (record : LogRecord) : M unit :=
  let! lg := Logger.read key in
  let! record := call_each (lg_handlers lg) record in
  if lg_propagate lg && negb (String.eqb key "root")
  then
    let! root := Logger.read "root" in
    let! _ := call_each (lg_handlers root) record in
    ret tt
  else ret tt.

(** [Logger.getEffectiveLevel] *)
Definition getEffectiveLevel (key : string) : M Z :=
  let! lg := Logger.read key in
  if negb (lg_level lg =? NOTSET)%Z || String.eqb key "root" then ret (lg_level lg)
  else
    let! root := Logger.read "root" in
    ret (lg_level root).

(** [logger.log(level, msg, extra=dict(block=...))]; [block] is [None]
    when no [extra] is given. *)
Definition log (key : string) (level : Z) (msg : string) (block : option value)
  : M unit :=
  let! eff := getEffectiveLevel key in
  if (eff <=? level)%Z
  then callHandlers key {| r_name := key; r_levelno := level; r_msg := msg;
                           r_block := block |}
  else ret tt.

Definition info (key msg : string) (block : option value) : M unit :=
  log key INFO msg block.

End LoggerLog.

(** What [get_logging_handler] returns: a handler or a list of handlers. *)
Inductive handler_or_list :=
| One (h : Handler)
| Many (hs : list Handler).

(** [if not isinstance(handlers, list): handlers = [handlers]] *)
Definition as_list (r : handler_or_list) : list Handler :=
  match r with
  | One h => [h]
  | Many hs => hs
  end.

(** [not file_path], for a path that is a string or [None]. *)
Definition path_missing (file_path : option string) : bool :=
  match file_path with
  | None => true
  | Some p => String.eqb p ""
  end.

(** ** prettier.py: handlers, loggers and the argument checker *)

Module prettier.

(** The message of the [ValueError] for a missing path. *)
Definition missing_path_message (file_path : option string) : result string :=
  let v := match file_path with
           | Some p => VAtom (AStr p)
           | None => VAtom ANone
           end in
  let* a := PrettyLogger.i v no_kwargs in
  let* b := PrettyLogger.i (VAtom (AStr "file")) no_kwargs in
  Ok (a ++ " must be specified for " ++ b ++ " logging").

(** [get_logging_handler] for a [kind] other than ['both']. *)
Definition get_logging_handler_one (kind : string) (file_path : option string)
  : M Handler :=
  let! handler :=
    (if String.eqb kind "stdout" then Handler.new_stream
     else if path_missing file_path
     then
       let! msg := lift (missing_path_message file_path) in
       raise (ValueError msg)
     else
       let path := default "" file_path in
       let dnm := os.dirname path in
       let! present := os.exists_ dnm in
       let! _ := (if negb (String.eqb dnm "") && negb present
                  then os.makedirs dnm else ret tt) in
       Handler.new_file CleanAnsiFileHandler path "a") in
  let handler := Handler.setLevel handler DEBUG in
  let handler := Handler.setFormatter handler (String.eqb kind "stdout") in
  let handler := Handler.addFilter handler {| handler_name := Some kind |} in
  ret handler.

(** [get_logging_handler(kind, file_path)]; its two recursive calls are
    for the kinds ['stdout'] and ['file']. *)
Definition get_logging_handler (kind : string) (file_path : option string)
  : M handler_or_list :=
  if String.eqb kind "both"
  then
    let! std := get_logging_handler_one "stdout" None in
    let! fl := get_logging_handler_one "file" file_path in
    ret (Many [std; fl])
  else
    let! h := get_logging_handler_one kind file_path in
    ret (One h).

(** [get_logger(name, kind, file_path)] *)
Definition get_logger (name kind : string) (file_path : option string) : M string :=
  let! _ := assert (bool_decide (kind ∈ ["stdout"; "file-write"; "both"])) in
  let! logger :=
    Logger.getLogger (if String.eqb kind "file" then name ++ " file" else name) in
  let! _ := Logger.set_handlers logger [] in
  let! _ := Logger.setLevel logger DEBUG in
  let! handlers := get_logging_handler kind file_path in
  let! _ := forM (fun handler => Logger.addHandler logger handler) (as_list handlers) in
  let! _ := Logger.set_propagate logger false in
  ret logger.

(** A closure stored by [CheckArg]: the arguments it has captured. *)
Record check_closure := {
  cc_display_name : string;
  cc_accepted_values : list string;
  cc_attr_name : string
}.

(** A [CheckArg] object. *)
Record CheckArg := {
  d_name2func : gmap string check_closure;
  ignore_none : bool;
  verbose : bool
}.

(** [CheckArg(ignore_none, verbose)] *)
Definition CheckArg_init (ignore_none verbose : bool) : CheckArg :=
  {| d_name2func := ∅; ignore_none := ignore_none; verbose := verbose |}.

(** [self.cache_mismatch(display_name, attr_name, accepted_values)]: the
    object as the call leaves it, and the call's outcome. *)
Definition cache_mismatch (self : CheckArg) (display_name attr_name : string)
    (accepted_values : list string) : result unit * CheckArg :=
  (Ok tt,
   {| d_name2func :=
        <[attr_name := {| cc_display_name := display_name;
                          cc_accepted_values := accepted_values;
                          cc_attr_name := attr_name |}]> (d_name2func self);
      ignore_none := ignore_none self;
      verbose := verbose self |}).

End prettier.

(** ** prettier/prettier_log.py *)

(** A level is a name or a number; the [level] argument is one level, a
    dict of levels keyed by handler kind, or [None]. *)
Inductive log_level :=
| LStr (s : string)
| LInt (n : Z).

Inductive level_arg :=
| LvNone
| Lv (l : log_level)
| LvDict (d : list (string * log_level)).

Module prettier_log.

(** [c.lower()] on the letters A to Z. *)
Definition lower_char (c : ascii) : ascii :=
  let n := N_of_ascii c in
  if (65 <=? n)%N && (n <=? 90)%N then ascii_of_N (n + 32) else c.

Fixpoint lower (s : string) : string :=
  match s with
  | EmptyString => ""
  | String c s' => String (lower_char c) (lower s')
  end.

Definition LOG_STR2LOG_LEVEL : gmap string Z :=
  list_to_map
    [ ("detail", DEBUG); ("debug", DEBUG); ("info", INFO); ("warning", WARNING);
      ("error", ERROR); ("critical", CRITICAL) ].

(** [_level2int_level] *)
Definition _level2int_level (level : log_level) : result Z :=
  match level with
  | LStr s =>
      match LOG_STR2LOG_LEVEL !! lower s with
      | Some n => Ok n
      | None => Raise (KeyError (lower s))
      end
  | LInt n => Ok n
  end.

(** The number [set_level] hands to [setLevel]; a [level] that is neither
    a string nor an int fails its assertion. *)
Definition set_level_value (level : level_arg) : result Z :=
  match level with
  | Lv l => _level2int_level l
  | LvNone | LvDict _ => Raise AssertionError
  end.

(** [if level:] *)
Definition level_truthy (level : level_arg) : bool :=
  match level with
  | LvNone => false
  | Lv (LStr s) => negb (String.eqb s "")
  | Lv (LInt n) => negb (n =? 0)%Z
  | LvDict d => negb (bool_decide (d = []))
  end.

(** [level[key]] *)
Fixpoint level_lookup (key : string) (d : list (string * log_level))
  : result log_level :=
  match d with
  | [] => Raise (KeyError key)
  | (k, l) :: rest => if String.eqb k key then Ok l else level_lookup key rest
  end.

Module AnsiFileMap.
Definition append_ext (file_path : string) : string := file_path ++ ".ansi".
End AnsiFileMap.

Section Style.
(** [prettier_debug.style] is not among the sources.  [style_i v]
    stands for [s.i(v)] on a value, [removed_message rmv] for the message
    [f'Handlers {s.i(rmv)} removed'] on a list of handlers. *)
Variable style_i : value -> string.
Variable removed_message : list Handler -> string.

(** The base cases of [get_logging_handler]. *)
Definition get_logging_handler_one (kind : string) (file_path : option string)
    (level : level_arg) (file_mode : string) : M Handler :=
  let! handler :=
    (if String.eqb kind "stdout" then Handler.new_stream
     else
       let! _ := assert (bool_decide (kind ∈ ["file"; "file-w/-ansi"])) in
       if path_missing file_path
       then raise (ValueError
                     (style_i (match file_path with
                               | Some p => VAtom (AStr p)
                               | None => VAtom ANone
                               end)
                      ++ " must be specified for "
                      ++ style_i (VAtom (AStr "file")) ++ " logging"))
       else
         let path := default "" file_path in
         let dnm := os.dirname path in
         let! present := os.exists_ dnm in
         let! _ := (if negb (String.eqb dnm "") && negb present
                    then os.makedirs dnm else ret tt) in
         let cls := if String.eqb kind "file" then CleanAnsiFileHandler
                    else FileHandler in
         Handler.new_file cls path file_mode) in
  let! level :=
    match level with
    | LvDict d =>
        let! l := lift (level_lookup
                          (if String.eqb kind "stdout" then "stdout" else "file") d) in
        ret (Lv l)
    | _ => ret level
    end in
  let! handler :=
    (if level_truthy level
     then let! n := lift (set_level_value level) in
          ret (Handler.setLevel handler n)
     else ret handler) in
  let handler :=
    Handler.setFormatter handler
      (bool_decide (kind ∈ ["stdout"; "file-w/-ansi"])) in
  let handler := Handler.addFilter handler {| handler_name := Some kind |} in
  ret handler.

(** [get_logging_handler(kind, file_path, level, file_mode,
    ansi_file_map)]; the recursive calls are for base kinds. *)
Definition get_logging_handler (kind : string) (file_path : option string)
    (level : level_arg) (file_mode : string)
    (ansi_file_map : option (string -> string)) : M handler_or_list :=
  if bool_decide (kind ∈ ["both"; "both+ansi"; "file+ansi"])
  then
    let! fl := get_logging_handler_one "file" file_path level file_mode in
    let! std :=
      (if bool_decide (kind ∈ ["both"; "both+ansi"])
       then let! h := get_logging_handler_one "stdout" None level "a" in
            ret (Some h)
       else ret None) in
    let! fl_ansi :=
      (if bool_decide (kind ∈ ["both+ansi"; "file+ansi"])
       then
         let map_ := default AnsiFileMap.append_ext ansi_file_map in
         let! h := get_logging_handler_one "file-w/-ansi"
                     (Some (map_ (default "None" file_path))) level file_mode in
         ret (Some h)
       else ret None) in
    if String.eqb kind "both" then ret (Many (option_list std ++ [fl]))
    else if String.eqb kind "both+ansi"
    then ret (Many (option_list std ++ option_list fl_ansi ++ [fl]))
    else ret (Many (option_list fl_ansi ++ [fl]))
  else
    let! h := get_logging_handler_one kind file_path level file_mode in
    ret (One h).

(** The loop of [drop_file_handler]: [for h in logger.handlers] walks
    the list by position while [removeHandler] shortens that same list,
    so the handler which moves into a freed position is passed over.
    [steps] bounds the positions still to visit. *)
Fixpoint drop_loop (logger : string) (steps idx : nat) (rmv : list Handler)
  : M (list Handler) :=
  match steps with
  | O => ret rmv
  | S steps' =>
      let! lg := Logger.read logger in
      match lg_handlers lg !! idx with
      | None => ret rmv
      | Some h =>
          if is_FileHandler (h_class h)
          then
            let! _ := Logger.removeHandler logger h in
            drop_loop logger steps' (S idx) (rmv ++ [h])
          else drop_loop logger steps' (S idx) rmv
      end
  end.

(** [drop_file_handler(logger)] *)
Definition drop_file_handler (logger : string) : M string :=
  let! lg := Logger.read logger in
  let! rmv := drop_loop logger (length (lg_handlers lg)) 0 [] in
  let! _ := (if (0 <? length rmv)%nat
             then LoggerLog.info logger (removed_message rmv) None
             else ret tt) in
  ret logger.

(** [add_log_handler(logger, level, file_path, kind,
    drop_prev_handlers)] *)
Definition add_log_handler (logger : string) (level : level_arg)
    (file_path : option string) (kind : string) (drop_prev_handlers : bool)
  : M string :=
  let! handlers :=
    get_logging_handler kind file_path level "a" (Some AnsiFileMap.append_ext) in
  let! _ := (if drop_prev_handlers
             then let! _ := drop_file_handler logger in ret tt
             else ret tt) in
  let! _ := forM (fun handler => Logger.addHandler logger handler)
              (as_list handlers) in
  ret logger.

(** [add_file_handler(logger, file_path, kind, drop_prev_handlers)] *)
Definition add_file_handler (logger : string) (file_path : option string)
    (kind : string) (drop_prev_handlers : bool) : M string :=
  let! _ := assert (bool_decide (kind ∈ ["file"; "file-w/-ansi"; "file+ansi"])) in
  add_log_handler logger LvNone file_path kind drop_prev_handlers.

(** [min(_level2int_level(lvl) for lvl in level.values())] *)
Definition min_level_of (d : list (string * log_level)) : result Z :=
  let* ns := mapR (fun kv : string * log_level => _level2int_level (snd kv)) d in
  match ns with
  | [] => Raise (ValueError "min() arg is an empty sequence")
  | n :: rest => Ok (fold_left Z.min rest n)
  end.

(** [get_logger(name, kind, level, file_path)] *)
Definition get_logger (name kind : string) (level : level_arg)
    (file_path : option string) : M string :=
  let! _ := assert (bool_decide
                      (kind ∈ ["stdout"; "file-write"; "both"; "both+ansi"])) in
  let! logger :=
    Logger.getLogger
      (if String.eqb kind "file-write" then name ++ " file" else name) in
  let! _ := Logger.set_handlers logger [] in
  let! (level, need_detailed_filtering) :=
    match level with
    | LvDict d =>
        if (1 <? length (remove_dups (map fst d)))%nat then ret (level, true)
        else
          match d with
          | [] => raise StopIteration
          | (k, _) :: _ =>
              let! l := lift (level_lookup k d) in
              ret (Lv l, false)
          end
    | _ => ret (level, false)
    end in
  let! min_level :=
    (if need_detailed_filtering
     then
       match level with
       | LvDict d =>
           let! _ := assert (bool_decide
                               (list_to_set (map fst d)
                                =@{gset string} {["stdout"; "file"]})) in
           let! n := lift (min_level_of d) in
           ret (Lv (LInt n))
       | _ => ret level
       end
     else ret level) in
  let! n := lift (set_level_value min_level) in
  let! _ := Logger.setLevel logger n in
  let! _ := add_log_handler logger
              (if need_detailed_filtering then level else LvNone)
              file_path kind true in
  let! _ := Logger.set_propagate logger false in
  ret logger.

(** A closure stored by [CheckArg]: the arguments it has captured. *)
Record check_closure := {
  cc_display_name : string;
  cc_options : list string;
  cc_attr_name : string
}.

(** A [CheckArg] object; [attrs] holds the attributes that
    [cache_options] sets with [setattr]. *)
Record CheckArg := {
  d_name2func : gmap string check_closure;
  ignore_none : bool;
  verbose : bool;
  attrs : gmap string (list string)
}.

(** [CheckArg(ignore_none, verbose)] *)
Definition CheckArg_init (ignore_none verbose : bool) : CheckArg :=
  {| d_name2func := ∅; ignore_none := ignore_none; verbose := verbose;
     attrs := ∅ |}.

(** [self.cache_options(display_name, attr_name, options)]: the object
    as the call leaves it, and the call's outcome. *)
Definition cache_options (self : CheckArg) (display_name attr_name : string)
    (options : list string) : result unit * CheckArg :=
  if bool_decide (is_Some (d_name2func self !! attr_name))
  then (Raise (ValueError ("Attribute name " ++ style_i (VAtom (AStr attr_name))
                           ++ " already exists")),
        self)
  else
    (Ok tt,
     {| d_name2func :=
          <[attr_name := {| cc_display_name := display_name;
                            cc_options := options;
                            cc_attr_name := attr_name |}]> (d_name2func self);
        ignore_none := ignore_none self;
        verbose := verbose self;
        attrs := <[attr_name := options]> (attrs self) |}).
End Style.

End prettier_log.

(** ** prettier.py: numbers and durations as text *)

(** [ordinal(n)].  The index [min(n % 10, 4)] is always one of the five
    positions of the list. *)
Definition ordinal (n : Z) : string :=
  let suffix :=
    if (11 <=? n mod 100)%Z && (n mod 100 <=? 13)%Z then "th"
    else nth (Z.to_nat (Z.min (n mod 10) 4)) ["th"; "st"; "nd"; "rd"; "th"] "" in
  int_str n ++ suffix.

(** [fmt_delta(secs)] for [secs] an [int]: every operation then stays in
    the integers, and [round] of an [int] is that [int].  The [float] and
    [timedelta] arguments are not modelled. *)
Function fmt_delta (secs : Z) {measure Z.to_nat secs} : string :=
  if (86400 <=? secs)%Z then
    let d := (secs / 86400)%Z in
    int_str d ++ "d" ++ fmt_delta (secs - d * 86400)
  else if (3600 <=? secs)%Z then
    let h := (secs / 3600)%Z in
    int_str h ++ "h" ++ fmt_delta (secs - h * 3600)
  else if (60 <=? secs)%Z then
    let m := (secs / 60)%Z in
    int_str m ++ "m" ++ fmt_delta (secs - m * 60)
  else int_str secs ++ "s".
Proof.
  all: intros;
    repeat match goal with H : (_ <=? _)%Z = true |- _ => apply Z.leb_le in H end;
    apply Z2Nat.inj_lt.
  all: match goal with
       | |- context [(?s / ?k)%Z] =>
           assert (0 < s / k)%Z by (apply Z.div_str_pos; lia);
           pose proof (Z.mul_div_le s k ltac:(lia))
       | _ => idtac
       end; try lia.
Defined.

(** ** Whitespace and printable characters *)

(** Python's [string] module. *)
Module string_.
Definition digits : string := "0123456789".
Definition ascii_lowercase : string := "abcdefghijklmnopqrstuvwxyz".
Definition ascii_uppercase : string := "ABCDEFGHIJKLMNOPQRSTUVWXYZ".
Definition punctuation : string :=
String "!" (String "034" "#$%&'()*+,-./:;<=>?@[\]^_`{|}~").
(** [' \t\n\r\x0b\x0c'] *)
Definition whitespace : string :=
String " " (String "009" (String "010" (String "013" (String "011" (String "012" ""))))).
Definition printable : string :=
digits ++ ascii_lowercase ++ ascii_uppercase ++ punctuation ++ whitespace.
End string_.

(** The characters that [\s] matches and [str.strip()] removes, for a text
    of code points below 256: tab to carriage return, the four separators
    [\x1c] to [\x1f], the space, and the two code points [\x85] and [\xa0]. *)
Definition cls_space : Re.cls :=
  [("009", "013"); ("028", " "); ("133", "133"); ("160", "160")]%char.

Definition isspace (c : ascii) : bool := Re.in_cls c cls_space.

(** [re.compile(r'\s+')] *)
Definition pattern_space : Re.re := Re.Cat (Re.Cls cls_space) (Re.Star cls_space).

Module Str2.

(** [''.join([x for x in s if p(x)])] *)
Fixpoint filter (p : ascii -> bool) (s : string) : string :=
match s with
| EmptyString => ""
| String c s' => if p c then String c (filter p s') else filter p s'
end.

(** [s.lstrip()] *)
Fixpoint lstrip (s : string) : string :=
match s with
| EmptyString => ""
| String c s' => if isspace c then lstrip s' else s
end.

(** [s.rstrip()] *)
Fixpoint rstrip (s : string) : string :=
match s with
| EmptyString => ""
| String c s' =>
    match rstrip s' with
    | EmptyString => if isspace c then "" else String c ""
    | r => String c r
    end
end.

(** [s.strip()] *)
Definition strip (s : string) : string := rstrip (lstrip s).

(** [s.endswith(suffix)] *)
Fixpoint endswith (suffix s : string) : bool :=
String.eqb suffix s
|| match s with
   | EmptyString => false
   | String _ s' => endswith suffix s'
   end.

(** [s[:-n]] for [n > 0] *)
Definition drop_last (n : nat) (s : string) : string :=
String.substring 0 (String.length s - n) s.

End Str2.

(** [str2ascii_str(s)] *)
Definition str2ascii_str (s : string) : string :=
  Str2.filter (fun x => Str.mem x string_.printable) s.

(** [sanitize_str(s)] *)
Definition sanitize_str (s : string) : result string :=
  let ret := Str2.strip (Re.sub pattern_space " " (str2ascii_str s)) in
  if String.eqb ret ""
  then
    let* t := PrettyLogger.i (VAtom (AStr s)) no_kwargs in
    Raise (ValueError ("Empty text after cleaning, was " ++ t))
  else Ok ret.

(** ** primitive.py *)

(** [clean_whitespace(s)] *)
Definition clean_whitespace (s : string) : string :=
  Str2.strip (Re.sub pattern_space " " s).

(** [re.escape(s_sub)] compiled, for a non-empty [s_sub]: the characters of
    [s_sub] one after the other, each standing for itself. *)
Fixpoint literal (c : ascii) (s : string) : Re.re :=
  match s with
  | EmptyString => Re.Chr c
  | String d s' => Re.Cat (Re.Chr c) (literal d s')
  end.

(** [[m.start() for m in pattern.finditer(s)]] for a pattern whose matches
    are never empty: [pos] is the position of the head of [s], and after a
    match of [n+1] characters [n] more characters are passed over. *)
Fixpoint finditer_from (r : Re.re) (pos skip : nat) (s : string) : list nat :=
  match s with
  | EmptyString => []
  | String c s' =>
      match skip with
      | S n => finditer_from r (S pos) n s'
      | O =>
          match Re.match_prefix r s with
          | Some rest =>
              match String.length s - String.length rest with
              | S n => pos :: finditer_from r (S pos) n s'
              | O => finditer_from r (S pos) 0 s'
              end
          | None => finditer_from r (S pos) 0 s'
          end
      end
  end.

(** [get_substr_indices(s, s_sub)].  The empty pattern matches at every
    position, the end of the text included. *)
Definition get_substr_indices (s s_sub : string) : list nat :=
  match s_sub with
  | EmptyString => seq 0 (S (String.length s))
  | String c t => finditer_from (literal c t) 0 0 s
  end.

(** ** prettier.py: colours *)

(** Regular expressions with the empty pattern and [$], as [hex2rgb]
    needs them.  [$] matches at the end of the text and just before a
    newline that ends the text. *)
Module Rx.

Inductive rx :=
| Eps
| Chr (c : ascii)
| Cls (rs : Re.cls)
| Cat (r1 r2 : rx)
| Alt (r1 r2 : rx)
| Dollar.

Fixpoint match_k (r : rx) (k : string -> option string) (s : string) : option string :=
match r with
| Eps => k s
| Chr c =>
    match s with
    | String d s' => if Ascii.eqb c d then k s' else None
    | EmptyString => None
    end
| Cls rs =>
    match s with
    | String d s' => if Re.in_cls d rs then k s' else None
    | EmptyString => None
    end
| Cat r1 r2 => match_k r1 (match_k r2 k) s
| Alt r1 r2 =>
    match match_k r1 k s with
    | Some x => Some x
    | None => match_k r2 k s
    end
| Dollar =>
    if String.eqb s "" || String.eqb s (String "010" "") then k s else None
end.

(** [pattern.match(s) is not None] *)
Definition matches (r : rx) (s : string) : bool :=
match match_k r Some s with
| Some _ => true
| None => false
end.

End Rx.

Module hex2rgb_.

(** [[a-fA-F\d]]; among the code points below 256 the decimal digits are
  [0] to [9]. *)
Definition cls_hex : Re.cls := [("a", "f"); ("A", "F"); ("0", "9")]%char.

Definition hex3 : Rx.rx := Rx.Cat (Rx.Cls cls_hex) (Rx.Cat (Rx.Cls cls_hex) (Rx.Cls cls_hex)).

(** [re.compile(r'#[a-fA-F\d]{3}(?:[a-fA-F\d]{3})?$')] *)
Definition regex : Rx.rx :=
Rx.Cat (Rx.Chr "#") (Rx.Cat hex3 (Rx.Cat (Rx.Alt hex3 Rx.Eps) Rx.Dollar)).

(** The value of a hexadecimal digit. *)
Definition digit16 (c : ascii) : option Z :=
let n := Z.of_N (N_of_ascii c) in
if (48 <=? n)%Z && (n <=? 57)%Z then Some (n - 48)%Z
else if (97 <=? n)%Z && (n <=? 102)%Z then Some (n - 87)%Z
else if (65 <=? n)%Z && (n <=? 70)%Z then Some (n - 55)%Z
else None.

Fixpoint digits16 (acc : Z) (s : string) : option Z :=
match s with
| EmptyString => Some acc
| String c s' =>
    match digit16 c with
    | Some d => digits16 (16 * acc + d)%Z s'
    | None => None
    end
end.

(** What a call raises: [exn] has no [IndexError]. *)
Inductive error :=
| Exn (e : exn)
| IndexError.

Inductive outcome :=
| Rgb (r g b : Z)
| Fails (e : error).

(** The [ValueError] of [int] for a literal it cannot read; the literal is
  quoted as [repr] quotes a text without quotes, backslashes and control
  characters. *)
Definition invalid_literal (literal : string) : error :=
Exn (ValueError ("invalid literal for int() with base 16: '" ++ literal ++ "'")).

(** [int(s, 16)] on a text of hexadecimal digits with whitespace around
  them, which is all that gets past the pattern: whitespace at both ends
  is ignored, and a text without a digit is refused.  A sign, a [0x] prefix
  and underscores are not modelled. *)
Definition int16 (s : string) : error + Z :=
match Str2.strip s with
| EmptyString => inl (invalid_literal s)
| t =>
    match digits16 0 t with
    | Some n => inr n
    | None => inl (invalid_literal s)
    end
end.

(** [int(hx[i]*2, 16)] *)
Definition doubled (hx : string) (i : nat) : error + Z :=
match String.get i hx with
| Some c => int16 (String c (String c ""))
| None => inl IndexError
end.

(** [int(hx[i:i+2], 16)] *)
Definition pair_at (hx : string) (i : nat) : error + Z :=
int16 (String.substring i 2 hx).

(** [tuple(f(i) for i in positions)] for three positions. *)
Definition triple (f : nat -> error + Z) (i j k : nat) : outcome :=
match f i with
| inl e => Fails e
| inr r =>
    match f j with
    | inl e => Fails e
    | inr g =>
        match f k with
        | inl e => Fails e
        | inr b => Rgb r g b
        end
    end
end.

(** [hex2rgb(hx, normalize=False)].  The division by 255 that
  [normalize=True] adds is a floating-point operation and is not
  modelled. *)
Definition hex2rgb (hx : string) : outcome :=
if negb (Rx.matches regex hx) then Fails (Exn AssertionError)
else if (String.length hx <=? 4)%nat
then triple (doubled hx) 1 2 3
else triple (pair_at hx) 1 3 5.

End hex2rgb_.

(** ** prettier_log.py: the file of the handler that keeps the styles *)

Module AnsiFileMap2.

(** [AnsiFileMap.insert_before_log(file_path)] *)
Definition insert_before_log (file_path : string) : string :=
let file_path :=
  if Str2.endswith ".log" file_path then Str2.drop_last 4 file_path else file_path in
file_path ++ ".ansi.log".

End AnsiFileMap2.

(** ** prettier.py: checking arguments *)

Module CheckArg_.

(** An argument to check, a string or [None], as the renderer sees it. *)
Definition value_of (val : option string) : value :=
match val with
| Some s => VAtom (AStr s)
| None => VAtom ANone
end.

Definition list_value (l : list string) : value :=
VList (map (fun s => VAtom (AStr s)) l).

(** [CheckArg.logger]: the logger that [get_logger('Arg Checker')]
  returned when the class was defined. *)
Definition logger : string := "Arg Checker".

(** [val in accepted_values] *)
Definition member (val : option string) (accepted_values : list string) : bool :=
match val with
| Some v => bool_decide (v ∈ accepted_values)
| None => false
end.

(** [pl.i(x)] *)
Definition pl_i (v : value) : M string := lift (PrettyLogger.i v no_kwargs).

(** [self.check_mismatch(display_name, val, accepted_values,
  attribute_name)] *)
Definition check_mismatch (self : prettier.CheckArg) (display_name : string)
  (val : option string) (accepted_values : list string)
  (attribute_name : option string) : M unit :=
if prettier.ignore_none self && negb (is_present val)
then
  if prettier.verbose self
  then
    let! s :=
      (if negb (path_missing attribute_name)
       then
         let! a := pl_i (VAtom (AStr display_name)) in
         let! b := pl_i (value_of attribute_name) in
         ret (a ++ "::" ++ b)
       else pl_i (VAtom (AStr display_name))) in
    let! none := pl_i (VAtom (AStr "None")) in
    LoggerLog.log logger WARNING ("Argument " ++ s ++ " is " ++ none ++ " and ignored")
      None
  else ret tt
else
  let! _ :=
    (if prettier.verbose self
     then
       let d_log := VDict [("val", value_of val);
                           ("accepted_values", list_value accepted_values)] in
       let! a := pl_i (VAtom (AStr display_name)) in
       let! b := pl_i d_log in
       LoggerLog.info logger ("Checking " ++ a ++ " w/ " ++ b ++ "... ") None
     else ret tt) in
  if negb (member val accepted_values)
  then
    let! a := pl_i (VAtom (AStr display_name)) in
    let! b := pl_i (list_value accepted_values) in
    let! c := pl_i (value_of val) in
    raise (ValueError ("Unexpected " ++ a ++ ": expect one of " ++ b ++ ", got " ++ c))
  else ret tt.

(** [self(k=v, ...)]: each keyword is looked up in [d_name2func] and the
  closure found is called, which calls [check_mismatch] on the object as
  it is then. *)
Definition call (self : prettier.CheckArg) (kwargs : list (string * option string))
: M unit :=
forM (fun kv : string * option string =>
        let (k, v) := kv in
        match prettier.d_name2func self !! k with
        | Some c =>
            check_mismatch self (prettier.cc_display_name c) v
              (prettier.cc_accepted_values c) (Some (prettier.cc_attr_name c))
        | None => raise (KeyError k)
        end) kwargs.

End CheckArg_.

(** ** prettier.py: durations and the current time *)

(** [s[n:]] for [n >= 0] *)
Fixpoint slice_from (n : nat) (s : string) : string :=
  match n, s with
  | S n', String _ s' => slice_from n' s'
  | _, _ => s
  end.

(** Python's [datetime.timedelta], as far as [sec2mmss] reaches it: built
    from a whole number of seconds, so with no microseconds. *)
Module timedelta.

Record t := { days : Z; seconds : Z }.

(** A call that returns or raises [OverflowError]. *)
Inductive checked (A : Type) :=
| Val (a : A)
| OverflowError.
Arguments Val {A} a.
Arguments OverflowError {A}.

(** [timedelta(seconds=sec)]: the seconds are carried over into days, and
  the days are limited to 999999999 either way. *)
Definition of_seconds (sec : Z) : checked t :=
let d := (sec / 86400)%Z in
if (Z.abs d <=? 999999999)%Z
then Val {| days := d; seconds := (sec mod 86400)%Z |}
else OverflowError.

(** ['%02d' % n] for [n >= 0] *)
Definition fmt_02d (n : Z) : string :=
let s := int_str n in
if (String.length s <? 2)%nat then "0" ++ s else s.

(** [str(td)] *)
Definition str (td : t) : string :=
let mm := (seconds td / 60)%Z in
let ss := (seconds td mod 60)%Z in
let hh := (mm / 60)%Z in
let mm := (mm mod 60)%Z in
let s := int_str hh ++ ":" ++ fmt_02d mm ++ ":" ++ fmt_02d ss in
if (days td =? 0)%Z then s
else int_str (days td) ++ " day" ++ (if (Z.abs (days td) =? 1)%Z then "" else "s")
     ++ ", " ++ s.

End timedelta.

(** [sec2mmss(sec)] for [sec] an [int] *)
Definition sec2mmss (sec : Z) : timedelta.checked string :=
  match timedelta.of_seconds sec with
  | timedelta.Val td => timedelta.Val (slice_from 2 (timedelta.str td))
  | timedelta.OverflowError => timedelta.OverflowError
  end.

(** [Timer].  The clock is read by the caller: [start] and [end] receive
    the value that [datetime.datetime.now()] returns at that call, and
    [fmt_elapsed t0 t1] stands for [fmt_delta(t1 - t0)]. *)
Module Timer.
Section Clock.
Variable datetime : Type.
Variable fmt_elapsed : datetime -> datetime -> string.

Record t := { time_start : option datetime; time_end : option datetime }.

(** [self.start()] *)
Definition start (now : datetime) (self : t) : t :=
{| time_start := Some now; time_end := time_end self |}.

(** [Timer(start)] *)
Definition init (now : datetime) (start_ : bool) : t :=
let self := {| time_start := None; time_end := None |} in
if start_ then start now self else self.

(** [self.end()]: the outcome and the object as the call leaves it. *)
Definition end_ (now : datetime) (self : t) : result string * t :=
match time_start self with
| None => (Raise (ValueError "Counter not started"), self)
| Some t0 =>
    match time_end self with
    | Some _ => (Raise (ValueError "Counter already ended"), self)
    | None =>
        (Ok (fmt_elapsed t0 now),
         {| time_start := time_start self; time_end := Some now |})
    end
end.
End Clock.
End Timer.

(** [now] of prettier.py. *)
Module now_.

(** The class [[\s\-:._]] *)
Definition cls_punc : Re.cls :=
(cls_space ++ [("-", "-"); (":", ":"); (".", "."); ("_", "_")]%char)%list.

(** [re.split(pattern, s)] for a pattern that is one character class: the
  pieces between the characters of the class, the empty ones too. *)
Fixpoint split (rs : Re.cls) (s : string) : list string :=
match s with
| EmptyString => [""]
| String c s' =>
    if Re.in_cls c rs then "" :: split rs s'
    else
      match split rs s' with
      | p :: ps => String c p :: ps
      | [] => [String c ""]
      end
end.

(** [re.findall(pattern, s)] for such a pattern *)
Fixpoint findall (rs : Re.cls) (s : string) : list string :=
match s with
| EmptyString => []
| String c s' =>
    if Re.in_cls c rs then String c "" :: findall rs s' else findall rs s'
end.

(** The [color] argument: a [bool] or a [str]. *)
Inductive color_arg :=
| ColorBool (b : bool)
| ColorStr (s : string).

(** [if color:] *)
Definition color_truthy (color : color_arg) : bool :=
match color with
| ColorBool b => b
| ColorStr s => negb (String.eqb s "")
end.

(** [[n + p for n, p in zip(nums, puncs)]] *)
Fixpoint zip_add (nums puncs : list string) : list string :=
match nums, puncs with
| n :: nums', p :: puncs' => (n ++ p) :: zip_add nums' puncs'
| _, _ => []
end.

(** The module's [ca]. *)
Definition ca : prettier.CheckArg :=
snd (prettier.cache_mismatch (prettier.CheckArg_init true false)
       "Bar Plot Orientation" "bar_orient" ["v"; "h"; "vertical"; "horizontal"]).

Section Clock.
Variable datetime : Type.
(** [d.strftime(fmt_tm)] *)
Variable strftime : datetime -> string -> string.

(** [now(as_str, for_path, fmt, color)], where [d] is the value that
  [datetime.datetime.now()] returns; [fmt] is a string or [None].  After
  the assertion [nums] is not empty, so [nums[-1]] is its last element. *)
Definition now (d : datetime) (as_str for_path : bool) (fmt : option string)
  (color : color_arg) : M (string + datetime) :=
if as_str
then
  let! _ := CheckArg_.check_mismatch ca "Date Format" fmt
              ["full"; "short-full"; "date"; "short-date"] None in
  match fmt with
  | None => raise TypeError
  | Some fmt =>
      let fmt_tm :=
        if Str.contains "full" fmt
        then if for_path then "%Y-%m-%d_%H-%M-%S" else "%Y-%m-%d %H:%M:%S.%f"
        else "%Y-%m-%d" in
      let ret_ := strftime d fmt_tm in
      let ret_ := if Str.contains "short" fmt then slice_from 2 ret_ else ret_ in
      if color_truthy color
      then
        let c := match color with ColorStr s => s | ColorBool _ => "green" end in
        let! nums :=
          lift (mapR (fun num => PrettyLogger.s (AStr num) (Some c) false true)
                  (split cls_punc ret_)) in
        let puncs := findall cls_punc ret_ in
        let! _ := assert (length nums =? length puncs + 1)%nat in
        ret (inl (Str.join "" (zip_add nums puncs) ++ List.last nums ""))
      else ret (inl ret_)
  end
else ret (inr d).
End Clock.
End now_.

(** ** prettier/prettier_log.py: checking an argument *)

Module CheckArgLog.
Section Style.
(** [s.i], of the module [stefutil.prettier.prettier_debug]. *)
Variable style_i : value -> string.

(** [self.assert_options(display_name, val, options, attribute_name,
  silent)]; [CheckArg.logger] is the logger named ['Arg Checker']. *)
Definition assert_options (self : prettier_log.CheckArg) (display_name : string)
  (val : option string) (options : list string) (attribute_name : option string)
  (silent : bool) : M bool :=
if prettier_log.ignore_none self && negb (is_present val)
then
  let! _ :=
    (if prettier_log.verbose self
     then
       let nm :=
         if negb (path_missing attribute_name)
         then style_i (VAtom (AStr display_name)) ++ "::"
              ++ style_i (CheckArg_.value_of attribute_name)
         else style_i (VAtom (AStr display_name)) in
       LoggerLog.log CheckArg_.logger WARNING
         ("Argument " ++ nm ++ " is " ++ style_i (VAtom (AStr "None"))
          ++ " and ignored") None
     else ret tt) in
  ret true
else
  let! _ :=
    (if prettier_log.verbose self
     then
       let d_log := VDict [("val", CheckArg_.value_of val);
                           ("accepted_values", CheckArg_.list_value options)] in
       LoggerLog.info CheckArg_.logger
         ("Checking " ++ style_i (VAtom (AStr display_name)) ++ " w/ "
          ++ style_i d_log ++ "... ") None
     else ret tt) in
  if negb (CheckArg_.member val options)
  then
    if silent then ret false
    else raise (ValueError ("Unexpected " ++ style_i (VAtom (AStr display_name))
                            ++ ": expect one of "
                            ++ style_i (CheckArg_.list_value options)
                            ++ ", got " ++ style_i (CheckArg_.value_of val)))
  else ret true.
End Style.
End CheckArgLog.

(** ** prettier.py: replacing the file handler *)

Module prettier_handlers.
Section HandlerText.
(** [str(h)] for a handler [h]. *)
Variable handler_text : Handler -> string.

(** The loop of [add_file_handler]: [for h in logger.handlers] walks the
  list by position while [removeHandler] shortens that same list; each
  removal is logged through the logger itself.  [steps] bounds the
  positions still to visit. *)
Fixpoint remove_loop (logger : string) (steps idx : nat) : M unit :=
match steps with
| O => ret tt
| S steps' =>
    let! lg := Logger.read logger in
    match lg_handlers lg !! idx with
    | None => ret tt
    | Some h =>
        let! _ :=
          (if is_FileHandler (h_class h)
           then
             let! _ := Logger.removeHandler logger h in
             let! t := lift (PrettyLogger.i (VAtom (AStr (handler_text h)))
                               no_kwargs) in
             LoggerLog.info logger ("Prior Handler " ++ t ++ " removed") None
           else ret tt) in
        remove_loop logger steps' (S idx)
    end
end.

(** [add_file_handler(logger, file_path)].  For the kind ['file']
  [get_logging_handler] is its last branch, which returns one handler. *)
Definition add_file_handler (logger : string) (file_path : option string)
: M string :=
let! handler := prettier.get_logging_handler_one "file" file_path in
let! lg := Logger.read logger in
let! _ := remove_loop logger (length (lg_handlers lg)) 0 in
let! _ := Logger.addHandler logger handler in
ret logger.
End HandlerText.
End prettier_handlers.

(** ** Definitions used to state the properties *)

(** The classes of [_ansi_escape]. *)
Definition cls_c1 : Re.cls := [("@", "Z"); ("\", "_")]%char.
Definition cls_param : Re.cls := [("0", "?")]%char.
Definition cls_inter : Re.cls := [(" ", "/")]%char.
Definition cls_final : Re.cls := [("@", "~")]%char.

(** The longest run of characters of a class is dropped. *)
Fixpoint drop_cls (rs : Re.cls) (s : string) : string :=
  match s with
  | EmptyString => ""
  | String c s' => if Re.in_cls c rs then drop_cls rs s' else s
  end.

(** A scanner without backtracking for the text after [ESC []. *)
Definition csi_end (t : string) : option string :=
  match drop_cls cls_inter (drop_cls cls_param t) with
  | String f r => if Re.in_cls f cls_final then Some r else None
  | EmptyString => None
  end.

(** A scanner without backtracking for one escape sequence. *)
Definition ansi_end (s : string) : option string :=
  match s with
  | String e (String d t) =>
      if Ascii.eqb Str.ESC e then
        if Re.in_cls d cls_c1 then Some t
        else if Ascii.eqb "[" d then csi_end t else None
      else None
  | _ => None
  end.

(** The escape codes of the style table. *)
Definition style_codes : list string :=
  [ colorama.Fore.RED; colorama.Fore.GREEN; colorama.Fore.YELLOW;
    colorama.Fore.BLUE; colorama.Fore.MAGENTA ].

(** No text of the value (a string, a float's string form, a dict key)
    holds the character [c]. *)
Fixpoint lacks (c : ascii) (v : value) : bool :=
  match v with
  | VAtom (AStr s) => negb (Str.mem c s)
  | VAtom _ => true
  | VFloat r => negb (Str.mem c r)
  | VList l | VTuple l => forallb (lacks c) l
  | VDict d => forallb (fun kv => negb (Str.mem c (fst kv)) && lacks c (snd kv)) d
  end.

(** The keywords a call of [i] may carry for the shape of its argument. *)
Definition accepts (v : value) (kw : kwargs) : bool :=
  match v with
  | VDict _ => true
  | VList _ | VTuple _ =>
      negb (is_present (pad_float kw) || is_present (key_value_sep kw)
            || is_present (pairs_sep kw) || is_present (omit_none_val kw))
  | VAtom _ | VFloat _ =>
      negb (is_present (key_value_sep kw) || is_present (pairs_sep kw)
            || is_present (for_path kw) || is_present (omit_none_val kw))
  end.

(** The separators given by keyword do not hold [c]. *)
Definition seps_lack (c : ascii) (kw : kwargs) : bool :=
  negb (Str.mem c (default "" (key_value_sep kw)))
  && negb (Str.mem c (default "" (pairs_sep kw))).
(** The characters the claims ask about: neither occurs in a literal of
    the renderer or in a number. *)
Definition foreign (c : ascii) : Prop := c = Str.ESC \/ c = "/"%char.

(** The exponent field of a float's string form holds at least two digits:
    [exp_digits n] is the number as Python pads it, [nat_str n] the number
    without padding. *)
Definition nat_str (n : nat) : string := NilZero.string_of_uint (Nat.to_uint n).

Definition exp_digits (n : nat) : string :=
  if (n <? 10)%nat then "0" ++ nat_str n else nat_str n.

(** The string form of a float in scientific notation: the mantissa, [e],
    the sign of the exponent and the exponent's digits. *)
Definition sci_form (mantissa : string) (sign : ascii) (n : nat) : string :=
  mantissa ++ String "e" (String sign (exp_digits n)).

(** The path-safe text of a value, following the words of the spec:
    a mapping is [{k1=v1,k2=v2,...}], a sequence [[e1,e2,...]] or
    [(e1,e2,...)], nested values are rendered the same way, a boolean is [T]
    or [F] in shorter-bool mode, and a scalar is written as it is. *)
Fixpoint spec_path_render (shorter_bool : bool) (v : value) : string :=
  match v with
  | VAtom (ABool b) =>
      if shorter_bool then (if b then "T" else "F") else format_atom (ABool b)
  | VAtom a => format_atom a
  | VFloat f => PrettyLogger._float f None
  | VList l => "[" ++ Str.join "," (map (spec_path_render shorter_bool) l) ++ "]"
  | VTuple l => "(" ++ Str.join "," (map (spec_path_render shorter_bool) l) ++ ")"
  | VDict d =>
      "{" ++ Str.join ","
               (map (fun kv => fst kv ++ "=" ++ spec_path_render shorter_bool (snd kv)) d)
          ++ "}"
  end.

(** An element of a sequence that is a scalar; a boolean counts only
    outside shorter-bool mode. *)
Definition plain_item (shorter_bool : bool) (v : value) : bool :=
  match v with
  | VAtom (ABool _) => negb shorter_bool
  | VAtom _ | VFloat _ => true
  | VList _ | VTuple _ | VDict _ => false
  end.

(** Every sequence inside the value holds scalars only. *)
Fixpoint plain_seqs (shorter_bool : bool) (v : value) : bool :=
  match v with
  | VAtom _ | VFloat _ => true
  | VList l | VTuple l => forallb (plain_item shorter_bool) l
  | VDict d => forallb (fun kv => plain_seqs shorter_bool (snd kv)) d
  end.

(** The keywords [i(v, with_color=False)] passes. *)
Definition kw_plain : kwargs := Kwargs (Some false) None None None None None.

(** The [for_path] value [pa] passes on. *)
Definition path_fp (shorter_bool : bool) : for_path_t :=
  if shorter_bool then FPShorterBool else FPBool true.

(** The braces [_dict] writes, styled when colour is on. *)
Definition dict_open (with_color : bool) : string :=
  if with_color then colorama.Fore.MAGENTA ++ "{" ++ PrettyLogger.reset else "{".

Definition dict_close (with_color : bool) : string :=
  if with_color then colorama.Fore.MAGENTA ++ "}" ++ PrettyLogger.reset else "}".

(** The handlers [get_logging_handler] builds: [n] is the identity, [level]
    the level set on the handler ([DEBUG] in prettier.py, what the [level]
    argument says in prettier_log.py). *)
Definition stdout_handler (n : nat) (level : Z) : Handler :=
  {| h_id := n; h_class := StreamHandler; h_file := None; h_level := level;
     h_formatter := Some true;
     h_filters := [{| handler_name := Some "stdout" |}] |}.

Definition file_handler (n : nat) (level : Z) (path : string) : Handler :=
  {| h_id := n; h_class := CleanAnsiFileHandler; h_file := Some path;
     h_level := level; h_formatter := Some false;
     h_filters := [{| handler_name := Some "file" |}] |}.

(** An [INFO] record of logger [key] that carries the marker [block]. *)
Definition info_record (key msg block : string) : LogRecord :=
  {| r_name := key; r_levelno := INFO; r_msg := msg;
     r_block := Some (VAtom (AStr block)) |}.
(** What the file branch of [get_logging_handler] does to the state when
    it returns: the file exists, and nothing but directories and that file
    has changed. *)
Definition file_opened (path : string) (w w' : world) : Prop :=
  loggers w' = loggers w /\ stdout w' = stdout w /\ next_id w' = S (next_id w)
  /\ files w' = <[path := default [] (files w !! path)]> (files w)
  /\ (os.dirname path = "" \/ os.dirname path ∈ dirs w').

(** The logger that [get_logger] leaves for kind ['both']. *)
Definition both_logger (n_stdout n_file : nat) (level : Z) (path : string) : Logger :=
  {| lg_handlers := [stdout_handler n_stdout level; file_handler n_file level path];
     lg_level := DEBUG; lg_propagate := false |}.

(** What the console receives for a record: the record as logged, coloured. *)
Definition console_entry (record : LogRecord) : entry :=
  {| e_with_color := true; e_record := record |}.

(** What a cleaned file receives: the message stripped, no colour. *)
Definition file_entry (record : LogRecord) : entry :=
  {| e_with_color := false;
     e_record := {| r_name := r_name record; r_levelno := r_levelno record;
                    r_msg := _filter_ansi (r_msg record);
                    r_block := r_block record |} |}.

(** A process that has not logged yet: no logger, no directory, no file. *)
Definition empty_world : world := World ∅ ∅ ∅ [] 0.


(** The English suffix of a number whose last two digits are [r]. *)
Definition english_suffix (r : Z) : string :=
  if bool_decide (r = 11 \/ r = 12 \/ r = 13)%Z then "th"
  else if bool_decide (r mod 10 = 1)%Z then "st"
  else if bool_decide (r mod 10 = 2)%Z then "nd"
  else if bool_decide (r mod 10 = 3)%Z then "rd"
  else "th".

(** One unit of a duration: nothing when the count is zero. *)
Definition unit_text (count : Z) (unit : string) : string :=
  if (count =? 0)%Z then "" else int_str count ++ unit.

(** Runs of whitespace become one space each: [in_run] says that the
    character before was whitespace. *)
Fixpoint squeeze (in_run : bool) (s : string) : string :=
  match s with
  | EmptyString => ""
  | String c s' =>
      if isspace c
      then if in_run then squeeze true s' else String " " (squeeze true s')
      else String c (squeeze false s')
  end.

(** A text in which whitespace occurs only as one space between two
    characters that are not whitespace; [after_word] says that the character
    before was not whitespace. *)
Fixpoint tidy_from (after_word : bool) (s : string) : bool :=
  match s with
  | EmptyString => after_word
  | String c s' =>
      if isspace c then after_word && Ascii.eqb c " " && tidy_from false s'
      else tidy_from true s'
  end.

Definition tidy (s : string) : bool :=
  match s with
  | EmptyString => true
  | _ => tidy_from false s
  end.

(** The characters of a text that are not whitespace, in order. *)
Definition letters (s : string) : string :=
  Str2.filter (fun c => negb (isspace c)) s.

(** Every character of the text is one of [string.printable]. *)
Fixpoint all_printable (s : string) : bool :=
  match s with
  | EmptyString => true
  | String c s' => Str.mem c string_.printable && all_printable s'
  end.

(** [s[n:]] *)
Fixpoint drop_first (n : nat) (s : string) : string :=
  match n, s with
  | O, _ => s
  | S n', String _ s' => drop_first n' s'
  | S _, EmptyString => ""
  end.

(** Each position of the list is at least [n] before the next one. *)
Fixpoint apart (n : nat) (l : list nat) : bool :=
  match l with
  | a :: rest =>
      match rest with
      | b :: _ => (a + n <=? b)%nat && apart n rest
      | [] => true
      end
  | [] => true
  end.

(** A hexadecimal digit, and its value. *)
Definition is_hex (c : ascii) : bool := Re.in_cls c hex2rgb_.cls_hex.

Definition hex_value (c : ascii) : Z := default 0%Z (hex2rgb_.digit16 c).

(** The newline character. *)
Definition LF : ascii := "010"%char.

(** A text of three or six characters after a [#]. *)
Definition hash3 (a b c : ascii) : string :=
  String "#" (String a (String b (String c ""))).

Definition hash6 (a b c d e f : ascii) : string :=
  String "#" (String a (String b (String c (String d (String e (String f "")))))).

(** The two digits of a byte, in lower case. *)
Definition hex_digit (n : Z) : ascii :=
  ascii_of_N (Z.to_N (if (n <? 10)%Z then n + 48 else n + 87)%Z).

Definition hex_byte (n : Z) : string :=
  String (hex_digit (n / 16)) (String (hex_digit (n mod 16)) "").

(** A handler takes a record that is at or above its level and that its
    filters let through. *)
Definition takes (h : Handler) (record : LogRecord) : bool :=
  (h_level h <=? r_levelno record)%Z && Handler.filter h record.

(** The record with its message stripped of escape sequences. *)
Definition stripped (record : LogRecord) : LogRecord :=
  {| r_name := r_name record; r_levelno := r_levelno record;
     r_msg := _filter_ansi (r_msg record); r_block := r_block record |}.

(** The record as a handler leaves it for the handlers after it. *)
Definition passed_on (h : Handler) (record : LogRecord) : LogRecord :=
  match h_class h with
  | CleanAnsiFileHandler => stripped record
  | StreamHandler | FileHandler => record
  end.

(** The state once a handler has written a record to its sink. *)
Definition written (h : Handler) (record : LogRecord) (w : world) : world :=
  let e := {| e_with_color := default false (h_formatter h);
              e_record := passed_on h record |} in
  match h_file h with
  | Some path =>
      World (loggers w) (dirs w)
        (<[path := (default [] (files w !! path) ++ [e])%list]> (files w))
        (stdout w) (next_id w)
  | None => World (loggers w) (dirs w) (files w) (stdout w ++ [e])%list (next_id w)
  end.

(** The state once each handler of a list has been offered a record. *)
Fixpoint offered (hs : list Handler) (record : LogRecord) (w : world) : world :=
  match hs with
  | [] => w
  | h :: rest =>
      if takes h record
      then offered rest (passed_on h record) (written h record w)
      else offered rest record w
  end.

(** The level that [get_logging_handler] of prettier_log.py sets on a
    handler of the given kind. *)
Definition handler_level (kind : string) (level : level_arg) : result Z :=
  let* level :=
    match level with
    | LvDict d =>
        let* l := prettier_log.level_lookup
                    (if String.eqb kind "stdout" then "stdout" else "file") d in
        Ok (Lv l)
    | _ => Ok level
    end in
  if prettier_log.level_truthy level then prettier_log.set_level_value level
  else Ok NOTSET.

(** The handler that writes the styled log file. *)
Definition ansi_file_handler (n : nat) (level : Z) (path : string) : Handler :=
  {| h_id := n; h_class := FileHandler; h_file := Some path; h_level := level;
     h_formatter := Some true;
     h_filters := [{| handler_name := Some "file-w/-ansi" |}] |}.

(** A record without a marker. *)
Definition plain_record (key : string) (level : Z) (msg : string) : LogRecord :=
  {| r_name := key; r_levelno := level; r_msg := msg; r_block := None |}.

(** What the styled log file receives for a record: the record as logged,
    formatted with colour. *)
Definition ansi_entry (record : LogRecord) : entry :=
  {| e_with_color := true; e_record := record |}.

(** The state once [e] is appended to the file [path]. *)
Definition file_appended (path : string) (e : entry) (w : world) : world :=
  World (loggers w) (dirs w)
    (<[path := (default [] (files w !! path) ++ [e])%list]> (files w))
    (stdout w) (next_id w).

(** The state once [e] is written to standard output. *)
Definition console_appended (e : entry) (w : world) : world :=
  World (loggers w) (dirs w) (files w) (stdout w ++ [e])%list (next_id w).

(** [isinstance(h, logging.FileHandler)] *)
Definition is_file (h : Handler) : bool := is_FileHandler (h_class h).

(** What the loop of [drop_file_handler] leaves of a list of handlers: a
    file handler is removed, and the handler that follows a removed one is
    passed over. *)
Fixpoint kept (hs : list Handler) : list Handler :=
  match hs with
  | [] => []
  | h :: rest =>
      if is_file h
      then match rest with
           | [] => []
           | h' :: rest' => h' :: kept rest'
           end
      else h :: kept rest
  end.

(** No file handler is directly followed by a file handler. *)
Fixpoint files_apart (hs : list Handler) : bool :=
  match hs with
  | [] => true
  | h :: rest =>
      match rest with
      | h' :: _ => negb (is_file h && is_file h') && files_apart rest
      | [] => true
      end
  end.

(** The logger with other handlers. *)
Definition with_handlers (lg : Logger) (hs : list Handler) : Logger :=
  {| lg_handlers := hs; lg_level := lg_level lg; lg_propagate := lg_propagate lg |}.

(** A call that raises from every state. *)
Definition never_returns {A} (m : M A) : Prop :=
  forall w, exists e w', m w = (Raise e, w').

(** The handler that prettier.py builds for the kind ['file-write']. *)
Definition file_write_handler (n : nat) (path : string) : Handler :=
  {| h_id := n; h_class := CleanAnsiFileHandler; h_file := Some path;
     h_level := DEBUG; h_formatter := Some false;
     h_filters := [{| handler_name := Some "file-write" |}] |}.

(** [strips_to a b]: the text [a] is the text [b] with style codes and
    reset sequences of the renderer put in. *)
Inductive strips_to : string -> string -> Prop :=
| strips_nil : strips_to "" ""
| strips_text (t a b : string) :
    Str.mem Str.ESC t = false -> strips_to a b -> strips_to (t ++ a) (t ++ b)
| strips_code (c a b : string) :
    c ∈ style_codes \/ c = PrettyLogger.reset -> strips_to a b -> strips_to (c ++ a) b.

(** An optional separator of the coloured call against that of the plain
    call. *)
Definition sep_strips_to (x y : option string) : Prop :=
  match x, y with
  | Some a, Some b => strips_to a b
  | None, None => True
  | _, _ => False
  end.

(** The keywords of a coloured call against those of the call without
    colour that is otherwise the same. *)
Definition plain_of (kwc kwp : kwargs) : Prop :=
  default true (with_color kwc) = true
  /\ with_color kwp = Some false
  /\ pad_float kwp = pad_float kwc
  /\ for_path kwp = for_path kwc
  /\ fp_truthy (default (FPBool false) (for_path kwc)) = false
  /\ omit_none_val kwp = omit_none_val kwc
  /\ sep_strips_to (key_value_sep kwc) (key_value_sep kwp)
  /\ sep_strips_to (pairs_sep kwc) (pairs_sep kwp).

(** The keywords with colour switched off. *)
Definition without_color (kw : kwargs) : kwargs :=
  Kwargs (Some false) (pad_float kw) (key_value_sep kw) (pairs_sep kw)
    (for_path kw) (omit_none_val kw).

(** An escape character followed by a reset sequence and by the text that
    makes a reset sequence of the escape character once the reset sequence
    in between is gone. *)
Definition nested_sequence (t : string) : string :=
  String Str.ESC (colorama.Style.RESET_ALL ++ "[0m" ++ t).

(** A check passes when the value is one of the accepted ones, or is
    [None] while [None] is ignored. *)
Definition passes (self : prettier.CheckArg) (val : option string)
    (accepted_values : list string) : bool :=
  (prettier.ignore_none self && negb (is_present val))
  || CheckArg_.member val accepted_values.

(** The object once a check is registered. *)
Definition registered (self : prettier.CheckArg) (display_name attr_name : string)
    (accepted_values : list string) : prettier.CheckArg :=
  snd (prettier.cache_mismatch self display_name attr_name accepted_values).

(** A colour that [now] can render: [True], or a key of the style table. *)
Definition known_color (color : now_.color_arg) : Prop :=
  match color with
  | now_.ColorBool _ => True
  | now_.ColorStr key => is_Some (PrettyLogger.key2c !! key)
  end.

(** The pieces and the separators put back together. *)
Definition weave (nums puncs : list string) : string :=
  Str.join "" (now_.zip_add nums puncs) ++ List.last nums "".

(** What [pl.s(num, c=c)] puts around a text. *)
Definition wrap (c : string) (num : string) : string :=
  match PrettyLogger.key2c !! c with
  | Some code => code ++ num ++ PrettyLogger.reset
  | None => c ++ num
  end.

(** The decimal digit of a number from 0 to 9. *)
Definition digit_char (n : Z) : ascii := ascii_of_N (48 + Z.to_N n).

(** A number below 100 in two decimal digits. *)
Definition two_digits (n : Z) : string :=
  String (digit_char (n / 10)) (String (digit_char (n mod 10)) "").

(** A call on a [Timer], with the time the clock shows at that call. *)
Inductive timer_call (datetime : Type) :=
| CallStart (now : datetime)
| CallEnd (now : datetime).
Arguments CallStart {datetime} now.
Arguments CallEnd {datetime} now.

(** The [Timer] after a series of calls, whatever each returned or raised. *)
Definition timer_after {datetime : Type} (fmt_elapsed : datetime -> datetime -> string)
    (calls : list (timer_call datetime)) (self : Timer.t datetime) : Timer.t datetime :=
  fold_left
    (fun self call =>
       match call with
       | CallStart now => Timer.start datetime now self
       | CallEnd now => snd (Timer.end_ datetime fmt_elapsed now self)
       end) calls self.

(** A value is let through when it is one of the options, or is [None]
    while [None] is ignored. *)
Definition let_through (self : prettier_log.CheckArg) (val : option string)
    (options : list string) : bool :=
  (prettier_log.ignore_none self && negb (is_present val))
  || CheckArg_.member val options.

(** ** Tactics *)

Ltac cls_arith :=
  unfold Re.in_cls, cls_c1, cls_param, cls_inter, cls_final; cbn [existsb fst snd];
  rewrite ?orb_false_r;
  repeat match goal with
         | |- context [(?a <=? ?b)%N] => destruct (N.leb_spec a b)
         | H : context [(?a <=? ?b)%N] |- _ => destruct (N.leb_spec a b)
         end; cbn in *; try reflexivity; try discriminate; try lia.

Ltac run_unfold :=
  cbv [bindM ret raise lift assert forM as_list
       Logger.getLogger Logger.set_handlers Logger.setLevel Logger.set_propagate
       Logger.addHandler Logger.removeHandler Logger.update Logger.read
       Handler.new_stream Handler.new_file Handler.fresh_id
       Handler.setLevel Handler.setFormatter Handler.addFilter
       os.exists_ os.makedirs os.open_].

Ltac run_simpl :=
  cbn [fst snd loggers dirs files stdout next_id
       lg_handlers lg_level lg_propagate default from_option id
       h_id h_class h_file h_level h_formatter h_filters
       Logger.has_handler existsb app negb andb orb path_missing].

Ltac run_simpl_all :=
  cbn [fst snd loggers dirs files stdout next_id
       lg_handlers lg_level lg_propagate default from_option id
       h_id h_class h_file h_level h_formatter h_filters
       Logger.has_handler existsb app negb andb orb path_missing] in *.

Ltac run :=
  run_unfold; run_simpl;
  repeat (progress (rewrite ?lookup_insert_eq, ?insert_insert_eq); run_simpl).

Ltac invert_run :=
  run_unfold; run_simpl;
  repeat match goal with
         | |- context [if ?c then _ else _] => destruct c eqn:?; run_simpl
         end;
  try discriminate.

Ltac log_unfold :=
  unfold LoggerLog.info, LoggerLog.log, LoggerLog.getEffectiveLevel,
    LoggerLog.callHandlers;
  run_unfold.

Ltac log_steps Hlg Hlevel :=
  repeat (progress
            (rewrite ?Hlg, ?Hlevel; run_simpl;
             cbn [both_logger lg_level lg_handlers lg_propagate
                    LoggerLog.call_each h_level r_levelno];
             change (DEBUG =? NOTSET)%Z with false;
             change (DEBUG <=? INFO)%Z with true;
             cbv iota; run_unfold)).

(** * Properties *)

(** * Facts about strings *)

Section StringFacts.

Lemma append_cons (c : ascii) (a b : string) : String c a ++ b = String c (a ++ b).
Proof. reflexivity. Qed.

Lemma append_nil_l (s : string) : "" ++ s = s.
Proof. reflexivity. Qed.

Lemma append_nil_r (s : string) : s ++ "" = s.
Proof.
  induction s as [|c s IH]; [reflexivity |].
  now rewrite append_cons, IH.
Qed.

Lemma append_assoc (a b c : string) : (a ++ b) ++ c = a ++ b ++ c.
Proof.
  induction a as [|x a IH]; [reflexivity |].
  now rewrite !append_cons, IH.
Qed.

Lemma length_append (a b : string) :
  String.length (a ++ b) = (String.length a + String.length b)%nat.
Proof.
  induction a as [|x a IH]; [reflexivity |].
  rewrite append_cons. simpl. now rewrite IH.
Qed.

Lemma mem_append (c : ascii) (a b : string) :
  Str.mem c (a ++ b) = Str.mem c a || Str.mem c b.
Proof.
  induction a as [|x a IH]; [reflexivity |].
  rewrite append_cons. simpl. rewrite IH. now rewrite orb_assoc.
Qed.

Lemma mem_join (c : ascii) (sep : string) (items : list string) :
  Str.mem c sep = false ->
  Forall (fun x => Str.mem c x = false) items ->
  Str.mem c (Str.join sep items) = false.
Proof.
  intros Hsep Hall. induction Hall as [|x rest Hx Hrest IH]; [reflexivity |].
  destruct rest as [|y rest]; [exact Hx |].
  change (Str.mem c (x ++ sep ++ Str.join sep (y :: rest)) = false).
  rewrite !mem_append, Hx, Hsep, IH. reflexivity.
Qed.

Lemma mem_spaces (c : ascii) (n : nat) :
  c <> " "%char -> Str.mem c (Str.spaces n) = false.
Proof.
  intros Hc. induction n as [|n IH]; simpl; [reflexivity |].
  rewrite IH, orb_false_r. now apply Ascii.eqb_neq.
Qed.

(** A text that lacks the first character of [old] has no occurrence of
    [old]. *)
Lemma startswith_head (c : ascii) (old' s : string) :
  Str.mem c s = false -> Str.startswith (String c old') s = false.
Proof.
  destruct s as [|d s]; simpl; [reflexivity |].
  intros H. apply orb_false_iff in H as [-> _]. reflexivity.
Qed.

Lemma replace_from_hit (old new : string) (c : ascii) (s : string) :
  Str.startswith old (String c s) = true ->
  Str.replace_from old new 0 (String c s)
  = new ++ Str.replace_from old new (String.length old - 1) s.
Proof. intros H. cbn [Str.replace_from]. now rewrite H. Qed.

Lemma replace_from_miss (old new : string) (c : ascii) (s : string) :
  Str.startswith old (String c s) = false ->
  Str.replace_from old new 0 (String c s) = String c (Str.replace_from old new 0 s).
Proof. intros H. cbn [Str.replace_from]. now rewrite H. Qed.

Lemma replace_from_skip (old new : string) (n : nat) (c : ascii) (s : string) :
  Str.replace_from old new (S n) (String c s) = Str.replace_from old new n s.
Proof. reflexivity. Qed.

Lemma replace_from_absent (c : ascii) (old' new s : string) :
  Str.mem c s = false ->
  Str.replace_from (String c old') new 0 s = s.
Proof.
  induction s as [|d s IH]; [reflexivity |].
  intros H. cbn [Str.replace_from].
  rewrite (startswith_head c old' (String d s) H).
  simpl in H. apply orb_false_iff in H as [_ H].
  now rewrite IH.
Qed.

Lemma replace_from_append (c : ascii) (old' new a b : string) :
  Str.mem c a = false ->
  Str.replace_from (String c old') new 0 (a ++ b)
  = a ++ Str.replace_from (String c old') new 0 b.
Proof.
  induction a as [|d a IH]; [reflexivity |].
  intros H. simpl in H. apply orb_false_iff in H as [Hd H].
  rewrite !append_cons.
  cbn [Str.replace_from Str.startswith]. rewrite Hd. cbn [andb].
  now rewrite IH.
Qed.

(** What [replace] writes comes from the text or from [new]. *)
Lemma mem_replace_from (c : ascii) (old new : string) (s : string) :
  Str.mem c s = false -> Str.mem c new = false ->
  forall skip, Str.mem c (Str.replace_from old new skip s) = false.
Proof.
  intros Hs Hnew. induction s as [|d s IH]; intros skip; [reflexivity |].
  simpl in Hs. apply orb_false_iff in Hs as [Hd Hs].
  cbn [Str.replace_from]. destruct skip as [|n]; [| now apply IH].
  destruct (Str.startswith old (String d s)).
  - rewrite mem_append, Hnew. now apply IH.
  - simpl. rewrite Hd. now apply IH.
Qed.

End StringFacts.

(** * Facts about escape sequences *)

Section AnsiFacts.

Lemma param_not_inter c : Re.in_cls c cls_param = true -> Re.in_cls c cls_inter = false.
Proof. cls_arith. Qed.

Lemma param_not_final c : Re.in_cls c cls_param = true -> Re.in_cls c cls_final = false.
Proof. cls_arith. Qed.

Lemma inter_not_final c : Re.in_cls c cls_inter = true -> Re.in_cls c cls_final = false.
Proof. cls_arith. Qed.

(** A greedy star gives nothing back when the continuation refuses every
    character of the class. *)
Lemma star_k_drop (rs : Re.cls) (k : string -> option string) (s : string) :
  (forall c t, Re.in_cls c rs = true -> k (String c t) = None) ->
  Re.star_k rs k s = k (drop_cls rs s).
Proof.
  intros Hk. induction s as [|c s IH]; [reflexivity |].
  cbn [Re.star_k drop_cls]. destruct (Re.in_cls c rs) eqn:Hc; [| reflexivity].
  rewrite IH. destruct (k (drop_cls rs s)); [reflexivity |].
  now apply Hk.
Qed.

Lemma match_prefix_ansi (s : string) :
  Re.match_prefix _ansi_escape s = ansi_end s.
Proof.
  unfold Re.match_prefix, _ansi_escape, ansi_end.
  fold cls_c1 cls_param cls_inter cls_final.
  destruct s as [|e [|d t]]; cbn [Re.match_k].
  - reflexivity.
  - destruct (Ascii.eqb Str.ESC e); reflexivity.
  - destruct (Ascii.eqb Str.ESC e); [| reflexivity].
    destruct (Re.in_cls d cls_c1); [reflexivity |].
    destruct (Ascii.eqb "[" d); [| reflexivity].
    unfold csi_end.
    rewrite star_k_drop.
    + rewrite star_k_drop; [reflexivity |].
      intros c u Hc. now rewrite (inter_not_final c Hc).
    + intros c u Hc. cbn [Re.star_k].
      rewrite (param_not_inter c Hc). now rewrite (param_not_final c Hc).
Qed.

Lemma ansi_end_head (s rest : string) :
  ansi_end s = Some rest -> exists t, s = String Str.ESC t.
Proof.
  unfold ansi_end. destruct s as [|e [|d t]]; try discriminate.
  destruct (Ascii.eqb_spec Str.ESC e) as [<- |]; [| discriminate].
  intros _. now exists (String d t).
Qed.

Lemma drop_cls_length (rs : Re.cls) (s : string) :
  String.length (drop_cls rs s) <= String.length s.
Proof.
  induction s as [|c s IH]; [reflexivity |].
  cbn [drop_cls]. destruct (Re.in_cls c rs); simpl; lia.
Qed.

(** A match is never empty. *)
Lemma ansi_end_shorter (s rest : string) :
  ansi_end s = Some rest -> String.length rest < String.length s.
Proof.
  unfold ansi_end. destruct s as [|e [|d t]]; try discriminate.
  destruct (Ascii.eqb Str.ESC e); [| discriminate].
  destruct (Re.in_cls d cls_c1).
  - intros [= <-]. simpl. lia.
  - destruct (Ascii.eqb "[" d); [| discriminate].
    unfold csi_end.
    pose proof (drop_cls_length cls_inter (drop_cls cls_param t)) as H1.
    pose proof (drop_cls_length cls_param t) as H2.
    destruct (drop_cls cls_inter (drop_cls cls_param t)) as [|f r]; [discriminate |].
    destruct (Re.in_cls f cls_final); [| discriminate].
    intros [= <-]. simpl in *. lia.
Qed.

Lemma has_ansi_cons (c : ascii) (s : string) :
  has_ansi (String c s) = false ->
  ansi_end (String c s) = None /\ has_ansi s = false.
Proof.
  unfold has_ansi. cbn [Re.search]. rewrite match_prefix_ansi.
  destruct (ansi_end (String c s)); [discriminate | now split].
Qed.

(** Text without the ESC character holds no escape sequence. *)
Lemma no_esc_no_ansi (s : string) : Str.mem Str.ESC s = false -> has_ansi s = false.
Proof.
  induction s as [|c s IH]; [reflexivity |].
  intros H. cbn [Str.mem] in H. apply orb_false_iff in H as [Hc H].
  unfold has_ansi. cbn [Re.search]. rewrite match_prefix_ansi.
  destruct (ansi_end (String c s)) as [rest|] eqn:E.
  - apply ansi_end_head in E as [t [= E _]]. subst c.
    now rewrite Ascii.eqb_refl in Hc.
  - now apply IH.
Qed.

(** Stripping leaves a text without escape sequences as it is. *)
Lemma filter_ansi_id (s : string) : has_ansi s = false -> _filter_ansi s = s.
Proof.
  induction s as [|c s IH]; [reflexivity |].
  intros H. apply has_ansi_cons in H as [Hm Hs].
  unfold _filter_ansi, Re.sub. cbn [Re.sub_from].
  rewrite match_prefix_ansi, Hm. f_equal. now apply IH.
Qed.

Lemma sub_from_length (skip : nat) (s : string) :
  String.length (Re.sub_from _ansi_escape "" skip s) <= String.length s.
Proof.
  revert skip. induction s as [|c s IH]; intros skip; [reflexivity |].
  cbn [Re.sub_from]. destruct skip as [|n].
  - destruct (Re.match_prefix _ansi_escape (String c s)).
    + destruct (String.length (String c s) - String.length s0).
      * simpl. specialize (IH 0). lia.
      * rewrite append_nil_l. specialize (IH n). simpl. lia.
    + simpl. specialize (IH 0). lia.
  - specialize (IH n). simpl. lia.
Qed.

(** Stripping changes a text in which an escape sequence occurs. *)
Lemma filter_ansi_changes (s : string) : has_ansi s = true -> _filter_ansi s <> s.
Proof.
  induction s as [|c s IH]; [discriminate |].
  unfold has_ansi, _filter_ansi, Re.sub. cbn [Re.search Re.sub_from].
  rewrite match_prefix_ansi.
  destruct (ansi_end (String c s)) as [rest|] eqn:E.
  - intros _ Heq. apply ansi_end_shorter in E.
    destruct (String.length (String c s) - String.length rest) as [|n] eqn:En.
    + simpl in *. lia.
    + rewrite append_nil_l in Heq.
      pose proof (sub_from_length n s) as Hl. rewrite Heq in Hl. simpl in Hl. lia.
  - intros H Heq. injection Heq as Heq. now apply IH.
Qed.

(** The two readings of "contains no escape sequence" agree. *)
Lemma filter_ansi_fixed_iff (s : string) : _filter_ansi s = s <-> has_ansi s = false.
Proof.
  split; [| apply filter_ansi_id].
  intros H. destruct (has_ansi s) eqn:E; [| reflexivity].
  now apply filter_ansi_changes in E.
Qed.

End AnsiFacts.

Section StyleFacts.

Lemma esc_in_no_cls :
  Re.in_cls Str.ESC cls_c1 = false /\ Re.in_cls Str.ESC cls_param = false
  /\ Re.in_cls Str.ESC cls_inter = false /\ Re.in_cls Str.ESC cls_final = false.
Proof. repeat split; reflexivity. Qed.

Lemma drop_cls_append_esc (rs : Re.cls) (a t : string) :
  Re.in_cls Str.ESC rs = false ->
  drop_cls rs (a ++ String Str.ESC t)
  = match drop_cls rs a with
    | EmptyString => String Str.ESC t
    | r => r ++ String Str.ESC t
    end.
Proof.
  intros Hesc. induction a as [|c a IH].
  - rewrite append_nil_l. cbn [drop_cls]. now rewrite Hesc.
  - rewrite append_cons. cbn [drop_cls].
    destruct (Re.in_cls c rs); [exact IH | reflexivity].
Qed.

(** An escape sequence does not run across an ESC character: what fails
    to match on its own still fails when such text follows. *)
Lemma ansi_end_append_esc (c : ascii) (u t : string) :
  ansi_end (String c u) = None ->
  ansi_end (String c u ++ String Str.ESC t) = None.
Proof.
  destruct esc_in_no_cls as (Hc1 & Hp & Hi & Hf).
  rewrite append_cons. unfold ansi_end.
  destruct (Ascii.eqb Str.ESC c); [| now destruct (u ++ String Str.ESC t)].
  destruct u as [|d u].
  - intros _. rewrite append_nil_l, Hc1. reflexivity.
  - rewrite append_cons. destruct (Re.in_cls d cls_c1); [discriminate |].
    destruct (Ascii.eqb "[" d); [| reflexivity].
    unfold csi_end. rewrite (drop_cls_append_esc cls_param u t Hp).
    destruct (drop_cls cls_param u) as [|x r] eqn:E1.
    + intros _. cbn [drop_cls]. now rewrite Hi, Hf.
    + rewrite (drop_cls_append_esc cls_inter (String x r) t Hi).
      destruct (drop_cls cls_inter (String x r)) as [|y r'] eqn:E2.
      * intros _. now rewrite Hf.
      * rewrite append_cons. now destruct (Re.in_cls y cls_final).
Qed.

(** Text without escape sequences passes the filter untouched, also when
    an escape sequence follows it. *)
Lemma filter_ansi_text_then_esc (text t : string) :
  has_ansi text = false ->
  _filter_ansi (text ++ String Str.ESC t) = text ++ _filter_ansi (String Str.ESC t).
Proof.
  induction text as [|c u IH]; [reflexivity |].
  intros H. apply has_ansi_cons in H as [Hm Hu].
  pose proof (ansi_end_append_esc c u t Hm) as Hm'.
  rewrite !append_cons in *.
  unfold _filter_ansi, Re.sub in *. cbn [Re.sub_from].
  rewrite match_prefix_ansi, Hm'. f_equal. now apply IH.
Qed.

Lemma sub_from_skip (r : Re.re) (repl p s : string) :
  Re.sub_from r repl (String.length p) (p ++ s) = Re.sub_from r repl 0 s.
Proof.
  induction p as [|c p IH]; [reflexivity |].
  rewrite append_cons. cbn [String.length Re.sub_from]. exact IH.
Qed.

(** A match at the very start is cut out and the scan resumes after it. *)
Lemma sub_match_head (r : Re.re) (repl : string) (c : ascii) (p s : string) :
  Re.match_prefix r (String c p ++ s) = Some s ->
  Re.sub r repl (String c p ++ s) = repl ++ Re.sub r repl s.
Proof.
  intros H. unfold Re.sub. rewrite append_cons in *. cbn [Re.sub_from].
  rewrite H.
  replace (String.length (String c (p ++ s)) - String.length s)
    with (S (String.length p))
    by (cbn [String.length]; rewrite length_append; lia).
  now rewrite sub_from_skip.
Qed.

Lemma key2c_codes (key code : string) :
  PrettyLogger.key2c !! key = Some code -> code = "" \/ code ∈ style_codes.
Proof.
  intros H. apply elem_of_list_to_map_2 in H.
  unfold PrettyLogger.key2c_items, style_codes in *.
  repeat (apply elem_of_cons in H as [H | H];
          [injection H as -> ->; first [now left | right; set_solver] |]).
  now apply elem_of_nil in H.
Qed.

Lemma filter_ansi_code (code s : string) :
  code ∈ style_codes -> _filter_ansi (code ++ s) = _filter_ansi s.
Proof.
  intros H. unfold style_codes in H.
  unfold colorama.Fore.RED, colorama.Fore.GREEN, colorama.Fore.YELLOW,
    colorama.Fore.BLUE, colorama.Fore.MAGENTA, colorama.code_to_chars in H.
  repeat (apply elem_of_cons in H as [-> | H];
          [apply (sub_match_head _ansi_escape ""); reflexivity |]).
  now apply elem_of_nil in H.
Qed.

Lemma reset_head : exists t, PrettyLogger.reset = String Str.ESC t.
Proof. eexists. reflexivity. Qed.

Lemma filter_ansi_reset : _filter_ansi PrettyLogger.reset = "".
Proof. reflexivity. Qed.

(** Text wrapped in a style code and the reset sequence is recovered. *)
Lemma filter_ansi_styled (code text : string) :
  code = "" \/ code ∈ style_codes ->
  has_ansi text = false ->
  _filter_ansi (code ++ text ++ PrettyLogger.reset) = text.
Proof.
  intros Hcode Htext.
  assert (_filter_ansi (text ++ PrettyLogger.reset) = text) as Hbody.
  { destruct reset_head as [t Ht]. rewrite Ht.
    rewrite (filter_ansi_text_then_esc text t Htext), <- Ht, filter_ansi_reset.
    apply append_nil_r. }
  destruct Hcode as [-> | Hcode]; [exact Hbody |].
  now rewrite (filter_ansi_code code _ Hcode).
Qed.

End StyleFacts.

(** C2.  For every text holding no ANSI escape sequence and every key of the
    style table [key2c], styling the text with that key succeeds, and
    stripping the styled text gives the text back. *)
Theorem C2_strip_recovers_styled_text (text key : string) :
  has_ansi text = false ->
  is_Some (PrettyLogger.key2c !! key) ->
  exists styled,
    PrettyLogger.s (AStr text) (Some key) false true = Ok styled
    /\ _filter_ansi styled = text.
Proof.
  intros Htext [code Hkey].
  exists (code ++ text ++ PrettyLogger.reset). split.
  - unfold PrettyLogger.s, PrettyLogger.log. rewrite Hkey. reflexivity.
  - apply filter_ansi_styled; [| exact Htext].
    exact (key2c_codes key code Hkey).
Qed.

Lemma C2_witness :
  exists styled,
    PrettyLogger.s (AStr "3 warnings") (Some "warn") false true = Ok styled
    /\ _filter_ansi styled = "3 warnings".
Proof.
  apply (C2_strip_recovers_styled_text "3 warnings" "warn").
  - reflexivity.
  - eexists. reflexivity.
Defined.

Section ValueInduction.
Variable P : value -> Prop.
Hypothesis Hatom : forall a, P (VAtom a).
Hypothesis Hfloat : forall r, P (VFloat r).
Hypothesis Hlist : forall l, Forall P l -> P (VList l).
Hypothesis Htuple : forall l, Forall P l -> P (VTuple l).
Hypothesis Hdict : forall d, Forall (fun kv => P (snd kv)) d -> P (VDict d).

Fixpoint value_rect' (v : value) : P v :=
  match v with
  | VAtom a => Hatom a
  | VFloat r => Hfloat r
  | VList l =>
      Hlist l ((fix go (l : list value) : Forall P l :=
                  match l with
                  | [] => @List.Forall_nil _ P
                  | x :: rest => @List.Forall_cons _ P x _ (value_rect' x) (go rest)
                  end) l)
  | VTuple l =>
      Htuple l ((fix go (l : list value) : Forall P l :=
                   match l with
                   | [] => @List.Forall_nil _ P
                   | x :: rest => @List.Forall_cons _ P x _ (value_rect' x) (go rest)
                   end) l)
  | VDict d =>
      Hdict d ((fix go (d : list (string * value))
                  : Forall (fun kv => P (snd kv)) d :=
                  match d with
                  | [] => @List.Forall_nil _ (fun kv => P (snd kv))
                  | kv :: rest =>
                      @List.Forall_cons _ (fun kv => P (snd kv)) kv _ (value_rect' (snd kv)) (go rest)
                  end) d)
  end.
End ValueInduction.

Section RenderFacts.

Lemma mapR_Forall {A B} (f : A -> result B) (Q : B -> Prop) (l : list A) :
  Forall (fun x => exists y, f x = Ok y /\ Q y) l ->
  exists ys, mapR f l = Ok ys /\ Forall Q ys /\ length ys = length l.
Proof.
  induction 1 as [|x rest (y & Hy & HQ) _ (ys & Hys & HQs & Hlen)].
  - exists []. now repeat split.
  - exists (y :: ys). cbn [mapR] in *. rewrite Hy. cbn [bind]. rewrite Hys.
    repeat split; [now constructor | simpl; now rewrite Hlen].
Qed.

Lemma mem_string_of_uint (c : ascii) (d : Decimal.uint) :
  foreign c -> Str.mem c (NilEmpty.string_of_uint d) = false.
Proof.
  intros Hc. induction d; cbn [NilEmpty.string_of_uint Str.mem];
    try rewrite IHd; destruct Hc as [-> | ->]; reflexivity.
Qed.

Lemma mem_int_str (c : ascii) (n : Z) : foreign c -> Str.mem c (int_str n) = false.
Proof.
  intros Hc. unfold int_str, NilZero.string_of_int.
  assert (forall d, Str.mem c (NilZero.string_of_uint d) = false) as Hu.
  { intros d. unfold NilZero.string_of_uint.
    destruct d; try apply (mem_string_of_uint c _ Hc).
    destruct Hc as [-> | ->]; reflexivity. }
  destruct (Z.to_int n); [apply Hu |].
  cbn [Str.mem]. rewrite Hu. destruct Hc as [-> | ->]; reflexivity.
Qed.

Lemma mem_format_atom (c : ascii) (a : atom) :
  foreign c -> lacks c (VAtom a) = true -> Str.mem c (format_atom a) = false.
Proof.
  intros Hc Ha. destruct a as [| [|] | n | s]; cbn [format_atom].
  1-3: destruct Hc as [-> | ->]; reflexivity.
  - now apply mem_int_str.
  - cbn [lacks] in Ha. now apply negb_true_iff in Ha.
Qed.

Lemma mem_float (c : ascii) (f : string) (pad : option nat) :
  foreign c -> Str.mem c f = false -> Str.mem c (PrettyLogger._float f pad) = false.
Proof.
  intros Hc Hf. unfold PrettyLogger._float.
  destruct (float_is_sci f).
  - unfold Str.replace. apply mem_replace_from.
    + apply mem_replace_from; [exact Hf |].
      destruct Hc as [-> | ->]; reflexivity.
    + destruct Hc as [-> | ->]; reflexivity.
  - destruct (pad_truthy pad); [| exact Hf].
    unfold Str.rjust. rewrite mem_append, Hf, mem_spaces; [reflexivity |].
    destruct Hc as [-> | ->]; discriminate.
Qed.

Lemma key2c_empty : PrettyLogger.key2c !! "" = None.
Proof. vm_compute. reflexivity. Qed.

Lemma key2c_i : PrettyLogger.key2c !! "i" = Some colorama.Fore.BLUE.
Proof. vm_compute. reflexivity. Qed.

Lemma key2c_m : PrettyLogger.key2c !! "m" = Some colorama.Fore.MAGENTA.
Proof. vm_compute. reflexivity. Qed.

Lemma s_plain (a : atom) (c : option string) :
  PrettyLogger.s a c false false = Ok (format_atom a).
Proof.
  unfold PrettyLogger.s, PrettyLogger.log. rewrite key2c_empty.
  cbn [bind orb pad_truthy]. now rewrite append_nil_l, append_nil_r.
Qed.

Lemma s_styled (a : atom) (key code : string) :
  PrettyLogger.key2c !! key = Some code ->
  PrettyLogger.s a (Some key) false true
  = Ok (code ++ format_atom a ++ PrettyLogger.reset).
Proof.
  intros H. unfold PrettyLogger.s, PrettyLogger.log. now rewrite H.
Qed.

(** Without colour the last branch of [i] returns the plain text. *)
Lemma i_else_plain (a : atom) (kw : kwargs) :
  with_color kw = Some false -> accepts (VAtom a) kw = true ->
  PrettyLogger.i_else a kw = Ok (format_atom a).
Proof.
  intros Hwc Hacc. unfold PrettyLogger.i_else.
  cbn [accepts] in Hacc. apply negb_true_iff in Hacc. rewrite Hacc, Hwc.
  change (default true (Some false)) with false. apply s_plain.
Qed.

End RenderFacts.

Section RenderPlain.

Lemma Forall_forallb_impl {A} (P Q : A -> Prop) (b : A -> bool) (l : list A) :
  Forall P l -> forallb b l = true ->
  (forall x, P x -> b x = true -> Q x) -> Forall Q l.
Proof.
  intros HP Hb Himp. induction HP as [|x rest Hx _ IH]; [constructor |].
  cbn [forallb] in Hb. apply andb_true_iff in Hb as [Hbx Hbs].
  constructor; [now apply Himp | now apply IH].
Qed.

Lemma foreign_literal (c : ascii) (lit : string) :
  foreign c ->
  Str.mem Str.ESC lit = false -> Str.mem "/" lit = false ->
  Str.mem c lit = false.
Proof. intros [-> | ->]; auto. Qed.

Lemma keywords_none_accepted (v : value) (wc : option bool) :
  accepts v (Kwargs wc None None None None None) = true.
Proof. destruct v; reflexivity. Qed.

(** Rendering without colour succeeds and writes only characters of the
    value's own texts, the separators and the renderer's literals. *)
Lemma i_plain_lacks (c : ascii) (v : value) :
  foreign c ->
  forall kw,
    with_color kw = Some false -> accepts v kw = true ->
    seps_lack c kw = true -> lacks c v = true ->
    exists out, PrettyLogger.i v kw = Ok out /\ Str.mem c out = false.
Proof.
  intros Hc. induction v as [a | r | l IH | l IH | d IH] using value_rect';
    intros kw Hwc Hacc Hseps Hv.
  - exists (format_atom a). cbn [PrettyLogger.i]. split.
    + now apply i_else_plain.
    + now apply mem_format_atom.
  - exists (PrettyLogger._float r (default None (pad_float kw))).
    cbn [PrettyLogger.i]. split.
    + now apply i_else_plain.
    + apply mem_float; [exact Hc |]. cbn [lacks] in Hv. now apply negb_true_iff in Hv.
  - cbn [PrettyLogger.i]. cbn [accepts] in Hacc. apply negb_true_iff in Hacc.
    rewrite Hacc, Hwc. change (default true (Some false)) with false.
    unfold PrettyLogger._list, PrettyLogger._iter. cbn [bind].
    destruct (mapR_Forall
                (fun e => PrettyLogger.i e (Kwargs (Some false) None None None None None))
                (fun y => Str.mem c y = false) l) as (ys & -> & Hys & _).
    { apply (Forall_forallb_impl _ _ _ _ IH Hv). intros e He Hle.
      apply He; [reflexivity | apply keywords_none_accepted | | exact Hle].
      unfold seps_lack. cbn. reflexivity. }
    cbn [bind]. eexists. split; [reflexivity |].
    rewrite !mem_append, mem_join; [| | exact Hys].
    + destruct Hc as [-> | ->]; reflexivity.
    + destruct (fp_truthy _); apply foreign_literal; auto.
  - cbn [PrettyLogger.i]. cbn [accepts] in Hacc. apply negb_true_iff in Hacc.
    rewrite Hacc, Hwc. change (default true (Some false)) with false.
    unfold PrettyLogger._tuple, PrettyLogger._iter. cbn [bind].
    destruct (mapR_Forall
                (fun e => PrettyLogger.i e (Kwargs (Some false) None None None None None))
                (fun y => Str.mem c y = false) l) as (ys & -> & Hys & _).
    { apply (Forall_forallb_impl _ _ _ _ IH Hv). intros e He Hle.
      apply He; [reflexivity | apply keywords_none_accepted | | exact Hle].
      unfold seps_lack. cbn. reflexivity. }
    cbn [bind]. eexists. split; [reflexivity |].
    rewrite !mem_append, mem_join; [| | exact Hys].
    + destruct Hc as [-> | ->]; reflexivity.
    + destruct (fp_truthy _); apply foreign_literal; auto.
  - cbn [PrettyLogger.i]. rewrite Hwc. change (default true (Some false)) with false.
    unfold PrettyLogger._dict. rewrite andb_false_r. cbn [bind].
    set (pf := default None (pad_float kw)).
    set (fp := default (FPBool false) (for_path kw)).
    set (ps := default ", " (pairs_sep kw)).
    set (omit := default false (omit_none_val kw)).
    set (kvs := if fp_truthy fp then "=" else default ": " (key_value_sep kw)).
    assert (Str.mem c kvs = false /\ Str.mem c ps = false) as [Hkvs Hps].
    { unfold seps_lack in Hseps. apply andb_true_iff in Hseps as [H1 H2].
      apply negb_true_iff in H1, H2. subst kvs ps. split.
      - destruct (fp_truthy fp); [apply foreign_literal; auto |].
        destruct (key_value_sep kw); [exact H1 | apply foreign_literal; auto].
      - destruct (pairs_sep kw); [exact H2 | apply foreign_literal; auto]. }
    match goal with
    | |- context [mapR ?f d] =>
        destruct (mapR_Forall f (fun y => Str.mem c y = false) d)
          as (ys & -> & Hys & _)
    end.
    { cbn [lacks] in Hv.
      apply (Forall_forallb_impl _ _ _ _ IH Hv). intros [k v] Hkv Hb.
      cbn [fst snd] in *. apply andb_true_iff in Hb as [Hk Hlv].
      apply negb_true_iff in Hk.
      assert (exists t,
                 PrettyLogger._log_val PrettyLogger.i false pf kvs ps fp omit v = Ok t
                 /\ Str.mem c t = false) as (t & Ht & Hmt).
      { unfold PrettyLogger._log_val.
        assert (forall kw', with_color kw' = Some false -> accepts v kw' = true ->
                            seps_lack c kw' = true ->
                            exists out, PrettyLogger.i v kw' = Ok out
                                        /\ Str.mem c out = false) as Hi.
        { intros kw' H1 H2 H3. now apply Hkv. }
        destruct v as [a | r | l | l | d'].
        - destruct a as [| b | n | s];
            try (apply Hi; reflexivity).
          destruct (fp_is_shorter_bool fp); [| apply Hi; reflexivity].
          eexists. split; [reflexivity |].
          destruct b; apply foreign_literal; auto.
        - apply Hi; reflexivity.
        - apply Hi; reflexivity.
        - apply Hi; reflexivity.
        - apply Hi; [reflexivity | reflexivity |].
          unfold seps_lack. cbn [key_value_sep pairs_sep default from_option id].
          now rewrite Hkvs, Hps. }
      destruct omit; [destruct v as [[| | |] | | | |] |];
        try (rewrite Ht; cbn [bind]; eexists; split; [reflexivity |];
             now rewrite !mem_append, Hk, Hkvs, Hmt).
      eexists. split; [reflexivity | exact Hk]. }
    cbn [bind]. eexists. split; [reflexivity |].
    rewrite !mem_append, mem_join; [| exact Hps | exact Hys].
    destruct Hc as [-> | ->]; reflexivity.
Qed.

End RenderPlain.

Section FloatFacts.

Lemma nzhead_not_D0 (d u : Decimal.uint) : Decimal.nzhead d <> Decimal.D0 u.
Proof. induction d; cbn [Decimal.nzhead]; try discriminate. exact IHd. Qed.

Lemma unorm_D0_inv (d u : Decimal.uint) :
  Decimal.unorm d = Decimal.D0 u -> u = Decimal.Nil.
Proof.
  unfold Decimal.unorm. destruct (Decimal.nzhead d) eqn:E; try discriminate.
  - intros [= <-]. reflexivity.
  - now apply nzhead_not_D0 in E.
Qed.

Lemma to_uint_normal (n : nat) : Nat.to_uint n = Decimal.unorm (Nat.to_uint n).
Proof. rewrite <- (Unsigned.of_to n) at 1. apply Unsigned.to_of. Qed.

(** The decimal form of a positive number starts with a digit other
    than 0. *)
Lemma nat_str_head (n : nat) :
  n <> 0%nat -> exists d rest, nat_str n = String d rest /\ d <> "0"%char.
Proof.
  intros Hn. unfold nat_str.
  pose proof (to_uint_normal n) as Hnorm.
  destruct (Nat.to_uint n) as [|u|u|u|u|u|u|u|u|u|u] eqn:E;
    [ vm_compute in Hnorm; discriminate
    | | eexists _, _; split; [reflexivity | intros [=]] .. ].
  symmetry in Hnorm. apply unorm_D0_inv in Hnorm as ->.
  exfalso. apply Hn. apply Unsigned.to_uint_inj. now rewrite E.
Qed.

Lemma nat_str_no_e (n : nat) : Str.mem "e" (nat_str n) = false.
Proof.
  unfold nat_str, NilZero.string_of_uint.
  assert (forall d, Str.mem "e" (NilEmpty.string_of_uint d) = false) as H.
  { induction d; cbn [NilEmpty.string_of_uint Str.mem]; try rewrite IHd; reflexivity. }
  destruct (Nat.to_uint n); try apply H. reflexivity.
Qed.

Lemma eqb_e_sign (sign : ascii) :
  sign = "-"%char \/ sign = "+"%char -> Ascii.eqb "e" sign = false.
Proof. intros [-> | ->]; reflexivity. Qed.

(** Replacing [e<sign>0] by [e<sign>] drops the padding zero of the
    exponent. *)
Lemma replace_strips_zero (mantissa : string) (sign : ascii) (n : nat) :
  Str.mem "e" mantissa = false ->
  sign = "-"%char \/ sign = "+"%char ->
  Str.replace (String "e" (String sign "0")) (String "e" (String sign ""))
    (sci_form mantissa sign n)
  = mantissa ++ String "e" (String sign (nat_str n)).
Proof.
  intros Hm Hs. pose proof (eqb_e_sign sign Hs) as He.
  unfold Str.replace, sci_form. rewrite replace_from_append by exact Hm. f_equal.
  unfold exp_digits. destruct (Nat.ltb_spec n 10) as [Hlt | Hge].
  - rewrite append_cons, append_nil_l.
    rewrite replace_from_hit
      by (cbn [Str.startswith]; now rewrite !Ascii.eqb_refl).
    cbn [String.length Nat.sub]. rewrite !replace_from_skip.
    rewrite !append_cons, append_nil_l. do 2 f_equal.
    apply replace_from_absent. apply nat_str_no_e.
  - destruct (nat_str_head n) as (d & rest & Hd & Hd0); [lia |].
    pose proof (nat_str_no_e n) as Hne. rewrite Hd in *.
    rewrite replace_from_miss.
    + f_equal. apply replace_from_absent. cbn [Str.mem] in Hne |- *.
      now rewrite He, Hne.
    + cbn [Str.startswith]. rewrite !Ascii.eqb_refl.
      replace (Ascii.eqb "0" d) with false
        by (symmetry; apply Ascii.eqb_neq; congruence).
      reflexivity.
Qed.

(** Replacing [e<other>0] leaves an exponent of the other sign alone. *)
Lemma replace_other_sign (mantissa tail : string) (sign other : ascii) :
  Str.mem "e" mantissa = false -> Str.mem "e" tail = false ->
  Ascii.eqb "e" sign = false -> Ascii.eqb other sign = false ->
  Str.replace (String "e" (String other "0")) (String "e" (String other ""))
    (mantissa ++ String "e" (String sign tail))
  = mantissa ++ String "e" (String sign tail).
Proof.
  intros Hm Ht He Ho. unfold Str.replace.
  rewrite replace_from_append by exact Hm. f_equal.
  rewrite replace_from_miss.
  - f_equal. apply replace_from_absent. cbn [Str.mem]. now rewrite He, Ht.
  - cbn [Str.startswith]. now rewrite Ascii.eqb_refl, Ho.
Qed.

Lemma exp_digits_no_e (n : nat) : Str.mem "e" (exp_digits n) = false.
Proof.
  unfold exp_digits. destruct (n <? 10)%nat; [| apply nat_str_no_e].
  rewrite mem_append, nat_str_no_e. reflexivity.
Qed.

Lemma float_sci_form (mantissa : string) (sign : ascii) (n : nat) (pad : option nat) :
  Str.mem "e" mantissa = false ->
  sign = "-"%char \/ sign = "+"%char ->
  PrettyLogger._float (sci_form mantissa sign n) pad
  = mantissa ++ String "e" (String sign (nat_str n)).
Proof.
  intros Hm Hs. unfold PrettyLogger._float.
  assert (float_is_sci (sci_form mantissa sign n) = true) as ->.
  { unfold float_is_sci, sci_form. rewrite mem_append. cbn [Str.mem].
    rewrite Ascii.eqb_refl. cbn [orb]. apply orb_true_r. }
  pose proof (eqb_e_sign sign Hs) as He.
  destruct Hs as [-> | ->].
  - change "e-0" with (String "e" (String "-" "0")).
    change "e-" with (String "e" (String "-" "")).
    rewrite replace_strips_zero by auto.
    apply replace_other_sign; auto using nat_str_no_e.
  - change "e+0" with (String "e" (String "+" "0")).
    change "e+" with (String "e" (String "+" "")).
    unfold sci_form.
    rewrite (replace_other_sign mantissa (exp_digits n) "+" "-")
      by auto using exp_digits_no_e.
    apply (replace_strips_zero mantissa "+" n); auto.
Qed.

End FloatFacts.

(** C6.  A float whose string form is in scientific notation (a mantissa,
    [e], a sign and an exponent of at least two digits, as in [3e-05]) is
    rendered with the exponent's padding zero removed ([3e-5]): by [_float]
    for any [pad], by [i] without colour as that very text, and by [i] with
    its default colour as that text between the info colour and the
    reset. *)
Theorem C6_sci_float_drops_exponent_zero
    (mantissa : string) (sign : ascii) (n : nat) (pad : option nat) :
  Str.mem "e" mantissa = false ->
  sign = "-"%char \/ sign = "+"%char ->
  let rendered := mantissa ++ String "e" (String sign (nat_str n)) in
  PrettyLogger._float (sci_form mantissa sign n) pad = rendered
  /\ PrettyLogger.i (VFloat (sci_form mantissa sign n))
       (Kwargs (Some false) None None None None None) = Ok rendered
  /\ PrettyLogger.i (VFloat (sci_form mantissa sign n)) no_kwargs
     = Ok (colorama.Fore.BLUE ++ rendered ++ PrettyLogger.reset).
Proof.
  intros Hm Hs rendered. split; [| split].
  - now apply float_sci_form.
  - cbn [PrettyLogger.i]. rewrite i_else_plain by reflexivity.
    cbn [format_atom pad_float default from_option id]. f_equal.
    now apply float_sci_form.
  - cbn [PrettyLogger.i]. unfold PrettyLogger.i_else.
    cbn [key_value_sep pairs_sep for_path omit_none_val is_present orb with_color
           no_kwargs default from_option id pad_float].
    rewrite (s_styled _ "i" colorama.Fore.BLUE key2c_i).
    cbn [format_atom]. do 2 f_equal. f_equal. now apply float_sci_form.
Qed.

Lemma C6_witness :
  PrettyLogger._float "3e-05" None = "3e-5"
  /\ PrettyLogger.i (VFloat "3e-05") (Kwargs (Some false) None None None None None)
     = Ok "3e-5"
  /\ PrettyLogger.i (VFloat "3e-05") no_kwargs
     = Ok (colorama.Fore.BLUE ++ "3e-5" ++ PrettyLogger.reset).
Proof.
  apply (C6_sci_float_drops_exponent_zero "3" "-" 5 None).
  - reflexivity.
  - left. reflexivity.
Defined.

Section PlainTheorems.

Lemma plain_render (c : ascii) (v : value) (kw : kwargs) :
  foreign c -> with_color kw = Some false -> accepts v kw = true ->
  seps_lack c kw = true -> lacks c v = true ->
  exists out, PrettyLogger.i v kw = Ok out /\ Str.mem c out = false.
Proof. intros. now apply i_plain_lacks. Qed.

Lemma mapR_map {A B} (f : A -> result B) (g : A -> B) (l : list A) :
  Forall (fun x => f x = Ok (g x)) l -> mapR f l = Ok (map g l).
Proof.
  induction 1 as [|x rest Hx _ IH]; [reflexivity |].
  cbn [mapR map] in *. now rewrite Hx, IH.
Qed.

Lemma mapR_app {A B} (f : A -> result B) (l1 l2 : list A) (ys : list B) :
  mapR f (l1 ++ l2)%list = Ok ys ->
  exists ys1 ys2,
    mapR f l1 = Ok ys1 /\ mapR f l2 = Ok ys2 /\ ys = (ys1 ++ ys2)%list.
Proof.
  revert ys. induction l1 as [|x l1 IH]; intros ys H.
  - exists [], ys. now repeat split.
  - cbn [app mapR] in *. destruct (f x) as [y|e]; [| discriminate].
    cbn [bind] in *. destruct (mapR f (l1 ++ l2)%list) as [ys'|e] eqn:E; [| discriminate].
    cbn [bind] in H. injection H as <-.
    destruct (IH ys' eq_refl) as (ys1 & ys2 & -> & H2 & ->).
    exists (y :: ys1), ys2. now repeat split.
Qed.

Lemma mapR_length {A B} (f : A -> result B) (l : list A) (ys : list B) :
  mapR f l = Ok ys -> length ys = length l.
Proof.
  revert ys. induction l as [|x l IH]; intros ys H.
  - injection H as <-. reflexivity.
  - cbn [mapR] in H. destruct (f x) as [y|e]; [| discriminate].
    cbn [bind] in H. destruct (mapR f l) as [ys'|e]; [| discriminate].
    injection H as <-. simpl. now rewrite (IH ys' eq_refl).
Qed.

End PlainTheorems.

(** C1, as the spec states it, fails on a string that itself holds an
    escape sequence: the renderer returns it as it is. *)
Lemma C1_counterexample :
  PrettyLogger.i (VAtom (AStr (String Str.ESC "[31mred"))) kw_plain
  = Ok (String Str.ESC "[31mred")
  /\ PrettyLogger.nc (VAtom (AStr (String Str.ESC "[31mred"))) no_kwargs
     = Ok (String Str.ESC "[31mred")
  /\ has_ansi (String Str.ESC "[31mred") = true
  /\ _filter_ansi (String Str.ESC "[31mred") = "red".
Proof. repeat split; reflexivity. Qed.

(** C1, amended.  For every value (string, int, bool, [None], float, list,
    tuple, nested dict) none of whose texts holds the ESC character,
    rendering with colour disabled, by [i(v, with_color=False)] or by
    [nc(v)], returns a string that holds no ANSI escape sequence, and
    [_filter_ansi] leaves that string unchanged. *)
Theorem C1_plain_render_adds_no_ansi (v : value) :
  lacks Str.ESC v = true ->
  exists out,
    PrettyLogger.i v kw_plain = Ok out
    /\ PrettyLogger.nc v no_kwargs = Ok out
    /\ has_ansi out = false
    /\ _filter_ansi out = out.
Proof.
  intros Hv.
  destruct (plain_render Str.ESC v kw_plain) as (out & Hout & Hmem);
    [now left | reflexivity | apply keywords_none_accepted | reflexivity | exact Hv |].
  exists out. repeat split.
  - exact Hout.
  - exact Hout.
  - now apply no_esc_no_ansi.
  - apply filter_ansi_id. now apply no_esc_no_ansi.
Qed.

Lemma C1_witness :
  exists out,
    PrettyLogger.i
      (VDict [("lr", VFloat "3e-05"); ("ok", VAtom (ABool true));
              ("tags", VList [VAtom (AStr "a"); VAtom (AInt 2)]);
              ("sub", VDict [("n", VTuple [VAtom ANone])])]) kw_plain = Ok out
    /\ PrettyLogger.nc
         (VDict [("lr", VFloat "3e-05"); ("ok", VAtom (ABool true));
                 ("tags", VList [VAtom (AStr "a"); VAtom (AInt 2)]);
                 ("sub", VDict [("n", VTuple [VAtom ANone])])]) no_kwargs = Ok out
    /\ has_ansi out = false
    /\ _filter_ansi out = out.
Proof.
  apply (C1_plain_render_adds_no_ansi
           (VDict [("lr", VFloat "3e-05"); ("ok", VAtom (ABool true));
                   ("tags", VList [VAtom (AStr "a"); VAtom (AInt 2)]);
                   ("sub", VDict [("n", VTuple [VAtom ANone])])])).
  reflexivity.
Defined.

Section PathFacts.
Variable shorter_bool : bool.

Lemma path_fp_truthy : fp_truthy (path_fp shorter_bool) = true.
Proof. now destruct shorter_bool. Qed.

Lemma path_fp_shorter : fp_is_shorter_bool (path_fp shorter_bool) = shorter_bool.
Proof. now destruct shorter_bool. Qed.

Lemma forallb_Forall {A} (b : A -> bool) (l : list A) :
  forallb b l = true -> Forall (fun x => b x = true) l.
Proof.
  induction l as [|x l IH]; [constructor |].
  cbn [forallb]. intros H. apply andb_true_iff in H as [Hx Hl].
  constructor; auto.
Qed.

Lemma item_path_render (e : value) :
  plain_item shorter_bool e = true ->
  PrettyLogger.i e (Kwargs (Some false) None None None None None)
  = Ok (spec_path_render shorter_bool e).
Proof.
  intros He. destruct e as [a | f | l | l | d]; try discriminate.
  - cbn [PrettyLogger.i]. rewrite i_else_plain by reflexivity.
    destruct a as [| b | n | s]; try reflexivity.
    cbn [plain_item] in He. apply negb_true_iff in He. now rewrite He.
  - cbn [PrettyLogger.i]. now rewrite i_else_plain by reflexivity.
Qed.

Lemma iter_path_render (l : list value) (pref post : string) :
  forallb (plain_item shorter_bool) l = true ->
  PrettyLogger._iter PrettyLogger.i l false pref post (path_fp shorter_bool)
  = Ok (pref ++ Str.join "," (map (spec_path_render shorter_bool) l) ++ post).
Proof.
  intros Hl. unfold PrettyLogger._iter. cbn [bind].
  rewrite (mapR_map _ (spec_path_render shorter_bool)).
  - cbn [bind]. now rewrite path_fp_truthy.
  - apply forallb_Forall in Hl. eapply Forall_impl; [exact Hl |].
    intros e He. now apply item_path_render.
Qed.

Lemma dict_path_render (d : list (string * value)) (kvs : string) :
  Forall (fun kv =>
            PrettyLogger._log_val PrettyLogger.i false None "=" ","
              (path_fp shorter_bool) false (snd kv)
            = Ok (spec_path_render shorter_bool (snd kv))) d ->
  PrettyLogger._dict PrettyLogger.i d false None kvs "," (path_fp shorter_bool) false
  = Ok (spec_path_render shorter_bool (VDict d)).
Proof.
  intros Hd. unfold PrettyLogger._dict.
  rewrite path_fp_truthy. cbn [andb bind].
  rewrite (mapR_map _ (fun kv => fst kv ++ "=" ++ spec_path_render shorter_bool (snd kv))).
  - reflexivity.
  - eapply Forall_impl; [exact Hd |]. intros [k v] H. cbn [fst snd] in *.
    now rewrite H.
Qed.

(** On values whose sequences hold scalars only, the code writes what
    the spec describes. *)
Lemma log_val_path_render (v : value) :
  plain_seqs shorter_bool v = true ->
  PrettyLogger._log_val PrettyLogger.i false None "=" "," (path_fp shorter_bool)
    false v
  = Ok (spec_path_render shorter_bool v).
Proof.
  induction v as [a | f | l _ | l _ | d IH] using value_rect'; intros Hv.
  - unfold PrettyLogger._log_val. rewrite path_fp_shorter.
    destruct a as [| b | n | s]; cbn [PrettyLogger.i spec_path_render];
      try (now rewrite i_else_plain by reflexivity).
    destruct shorter_bool; [reflexivity |].
    now rewrite i_else_plain by reflexivity.
  - unfold PrettyLogger._log_val. cbn [PrettyLogger.i spec_path_render].
    now rewrite i_else_plain by reflexivity.
  - unfold PrettyLogger._log_val. cbn [PrettyLogger.i]. cbn.
    unfold PrettyLogger._list. now apply iter_path_render.
  - unfold PrettyLogger._log_val. cbn [PrettyLogger.i]. cbn.
    unfold PrettyLogger._tuple. now apply iter_path_render.
  - unfold PrettyLogger._log_val. cbn [PrettyLogger.i]. cbn [default from_option id
      with_color pad_float key_value_sep pairs_sep for_path omit_none_val].
    apply dict_path_render. cbn [plain_seqs] in Hv.
    apply (Forall_forallb_impl _ _ _ _ IH Hv). auto.
Qed.

Lemma pa_path_render (d : list (string * value)) :
  plain_seqs shorter_bool (VDict d) = true ->
  PrettyLogger.pa (VDict d) shorter_bool no_kwargs
  = Ok (spec_path_render shorter_bool (VDict d)).
Proof.
  intros Hd. unfold PrettyLogger.pa. cbn [no_kwargs for_path with_color is_present orb
    pad_float key_value_sep omit_none_val].
  fold (path_fp shorter_bool). cbn [PrettyLogger.i]. cbn [default from_option id
      with_color pad_float key_value_sep pairs_sep for_path omit_none_val].
  apply dict_path_render. cbn [plain_seqs] in Hd.
  apply forallb_Forall in Hd. eapply Forall_impl; [exact Hd |].
  intros kv Hkv. now apply log_val_path_render.
Qed.

End PathFacts.

(** C9, as the spec states it, fails on a dict that holds a slash: the
    renderer passes the texts of the dict through. *)
Lemma C9_counterexample :
  PrettyLogger.pa (VDict [("dir", VAtom (AStr "runs/a"))]) true no_kwargs
  = Ok "{dir=runs/a}"
  /\ Str.mem "/" "{dir=runs/a}" = true.
Proof. split; reflexivity. Qed.

(** C9, amended.  For every dict none of whose texts (keys, strings, string
    forms of floats) holds a slash or the ESC character, [pa] returns a string
    that holds no slash and no ANSI escape sequence.  For every dict whose
    lists and tuples hold scalars only, [pa] writes the dict, and each dict
    nested in it as a value, as [{k=v,...}] with [=] after each key and [,]
    without a space between the items, and each list or tuple with [,]
    between its elements. *)
Theorem C9_path_safe_render (d : list (string * value)) (shorter_bool : bool) :
  (lacks "/" (VDict d) = true -> lacks Str.ESC (VDict d) = true ->
   exists out,
     PrettyLogger.pa (VDict d) shorter_bool no_kwargs = Ok out
     /\ Str.mem "/" out = false
     /\ has_ansi out = false
     /\ _filter_ansi out = out)
  /\ (plain_seqs shorter_bool (VDict d) = true ->
      PrettyLogger.pa (VDict d) shorter_bool no_kwargs
      = Ok (spec_path_render shorter_bool (VDict d))).
Proof.
  split; [| apply pa_path_render].
  intros Hslash Hesc.
  unfold PrettyLogger.pa. cbn [no_kwargs for_path with_color is_present orb
    pad_float key_value_sep omit_none_val].
  set (kw := Kwargs (Some false) None None (Some ",") _ None).
  destruct (plain_render "/" (VDict d) kw) as (out & Hout & Hmem);
    [now right | reflexivity | reflexivity | reflexivity | exact Hslash |].
  destruct (plain_render Str.ESC (VDict d) kw) as (out' & Hout' & Hmem');
    [now left | reflexivity | reflexivity | reflexivity | exact Hesc |].
  rewrite Hout in Hout'. injection Hout' as <-.
  exists out. repeat split; auto using no_esc_no_ansi, filter_ansi_id.
Qed.

Lemma C9_witness :
  (exists out,
     PrettyLogger.pa
       (VDict [("lr", VFloat "3e-05"); ("fp16", VAtom (ABool true));
               ("opt", VDict [("name", VAtom (AStr "adam")); ("steps", VAtom (AInt 100))]);
               ("dims", VList [VAtom (AInt 2); VAtom (AInt 3)])]) true no_kwargs = Ok out
     /\ Str.mem "/" out = false
     /\ has_ansi out = false
     /\ _filter_ansi out = out)
  /\ PrettyLogger.pa
       (VDict [("lr", VFloat "3e-05"); ("fp16", VAtom (ABool true));
               ("opt", VDict [("name", VAtom (AStr "adam")); ("steps", VAtom (AInt 100))]);
               ("dims", VList [VAtom (AInt 2); VAtom (AInt 3)])]) true no_kwargs
     = Ok "{lr=3e-5,fp16=T,opt={name=adam,steps=100},dims=[2,3]}".
Proof.
  destruct (C9_path_safe_render
              [("lr", VFloat "3e-05"); ("fp16", VAtom (ABool true));
               ("opt", VDict [("name", VAtom (AStr "adam")); ("steps", VAtom (AInt 100))]);
               ("dims", VList [VAtom (AInt 2); VAtom (AInt 3)])] true) as [Ha Hb].
  split.
  - apply Ha; reflexivity.
  - apply Hb. reflexivity.
Defined.

(** C7, as the spec states it, fails: with [omit_none_val] set the key of a
    [None] value stays in the output. *)
Lemma C7_counterexample :
  PrettyLogger.i
    (VDict [("a", VAtom (AInt 1)); ("b", VAtom ANone); ("c", VAtom (AInt 3))])
    (Kwargs (Some false) None None None None (Some true))
  = Ok "{a: 1, b, c: 3}"
  /\ Str.contains "b" "{a: 1, b, c: 3}" = true
  /\ PrettyLogger.pa
       (VDict [("a", VAtom (AInt 1)); ("b", VAtom ANone); ("c", VAtom (AInt 3))])
       true (Kwargs None None None None None (Some true))
     = Ok "{a=1,b,c=3}"
  /\ PrettyLogger.i
       (VDict [("a", VAtom (AInt 1)); ("c", VAtom (AInt 3))])
       (Kwargs (Some false) None None None None (Some true))
     = Ok "{a: 1, c: 3}".
Proof. repeat split; reflexivity. Qed.

(** C7, amended.  For every dict and every key [k] whose value is [None],
    a rendering with [omit_none_val] set writes the item of [k] as the key
    alone: the key is kept, and neither the key-value separator nor a value
    follows it. *)
Theorem C7_omit_none_writes_bare_key
    (kw : kwargs) (d1 d2 : list (string * value)) (k out : string) :
  omit_none_val kw = Some true ->
  PrettyLogger.i (VDict (d1 ++ (k, VAtom ANone) :: d2)) kw = Ok out ->
  exists items1 items2,
    length items1 = length d1
    /\ length items2 = length d2
    /\ out = dict_open (default true (with_color kw))
             ++ Str.join (default ", " (pairs_sep kw)) (items1 ++ k :: items2)
             ++ dict_close (default true (with_color kw)).
Proof.
  intros Homit. cbn [PrettyLogger.i]. rewrite Homit.
  change (default false (Some true)) with true.
  unfold PrettyLogger._dict, dict_open, dict_close.
  destruct (fp_truthy _ && default true (with_color kw)); [discriminate |].
  cbn [bind].
  destruct (default true (with_color kw)).
  - rewrite !(s_styled _ "m" _ key2c_m). cbn [bind format_atom].
    match goal with |- bind (mapR ?f ?l) _ = _ -> _ => destruct (mapR f l) as [ys|e] eqn:E end;
      [| discriminate].
    cbn [bind]. intros [= <-].
    apply mapR_app in E as (ys1 & ys2 & H1 & H2 & ->).
    cbn [mapR bind] in H2.
    match type of H2 with bind (mapR ?f ?l) _ = _ => destruct (mapR f l) as [ys3|e] eqn:E3 end;
      [| discriminate].
    cbn [bind] in H2. injection H2 as <-.
    exists ys1, ys3. repeat split; eauto using mapR_length.
  - cbn [bind].
    match goal with |- bind (mapR ?f ?l) _ = _ -> _ => destruct (mapR f l) as [ys|e] eqn:E end;
      [| discriminate].
    cbn [bind]. intros [= <-].
    apply mapR_app in E as (ys1 & ys2 & H1 & H2 & ->).
    cbn [mapR bind] in H2.
    match type of H2 with bind (mapR ?f ?l) _ = _ => destruct (mapR f l) as [ys3|e] eqn:E3 end;
      [| discriminate].
    cbn [bind] in H2. injection H2 as <-.
    exists ys1, ys3. repeat split; eauto using mapR_length.
Qed.

Lemma C7_witness :
  exists items1 items2,
    length items1 = 1%nat
    /\ length items2 = 1%nat
    /\ "{a=1,b,c=3}" = "{" ++ Str.join "," (items1 ++ "b" :: items2) ++ "}".
Proof.
  apply (C7_omit_none_writes_bare_key
           (Kwargs (Some false) None None (Some ",") (Some FPShorterBool) (Some true))
           [("a", VAtom (AInt 1))] [("c", VAtom (AInt 3))] "b" "{a=1,b,c=3}").
  - reflexivity.
  - reflexivity.
Defined.

(** * Facts about handlers and loggers *)

Section LoggerFacts.

(** prettier.py: [get_logger] with kind ['stdout'] leaves the logger with
    one fresh stdout handler, whatever was attached before. *)
Lemma old_get_logger_stdout (name : string) (w : world) :
  prettier.get_logger name "stdout" None w
  = (Ok (Logger.key_of name),
     World (<[Logger.key_of name :=
                {| lg_handlers := [stdout_handler (next_id w) DEBUG];
                   lg_level := DEBUG; lg_propagate := false |}]> (loggers w))
       (dirs w) (files w) (stdout w) (S (next_id w))).
Proof.
  unfold prettier.get_logger, prettier.get_logging_handler,
    prettier.get_logging_handler_one.
  change (bool_decide ("stdout" ∈ ["stdout"; "file-write"; "both"])) with true.
  change (String.eqb "stdout" "file") with false.
  change (String.eqb "stdout" "both") with false.
  change (String.eqb "stdout" "stdout") with true.
  run_unfold.
  destruct (loggers w !! Logger.key_of name) eqn:E; run_simpl;
    repeat (progress (rewrite ?E, ?lookup_insert_eq, ?insert_insert_eq); run_simpl);
    reflexivity.
Qed.

Lemma eqb_succ_r (n : nat) : (n =? S n)%nat = false.
Proof. apply Nat.eqb_neq. lia. Qed.

Lemma eqb_succ_l (n : nat) : (S n =? n)%nat = false.
Proof. apply Nat.eqb_neq. lia. Qed.

Lemma set_level_debug : prettier_log.set_level_value (Lv (LStr "debug")) = Ok DEBUG.
Proof. vm_compute. reflexivity. Qed.

Variable style_i : value -> string.
Variable removed_message : list Handler -> string.

(** prettier_log.py: the same, at the default level. *)
Lemma new_get_logger_stdout (name : string) (w : world) :
  prettier_log.get_logger style_i removed_message name "stdout"
    (Lv (LStr "debug")) None w
  = (Ok (Logger.key_of name),
     World (<[Logger.key_of name :=
                {| lg_handlers := [stdout_handler (next_id w) NOTSET];
                   lg_level := DEBUG; lg_propagate := false |}]> (loggers w))
       (dirs w) (files w) (stdout w) (S (next_id w))).
Proof.
  unfold prettier_log.get_logger, prettier_log.add_log_handler,
    prettier_log.get_logging_handler, prettier_log.get_logging_handler_one,
    prettier_log.drop_file_handler.
  change (bool_decide ("stdout" ∈ ["stdout"; "file-write"; "both"; "both+ansi"]))
    with true.
  change (bool_decide ("stdout" ∈ ["both"; "both+ansi"; "file+ansi"])) with false.
  change (bool_decide ("stdout" ∈ ["stdout"; "file-w/-ansi"])) with true.
  change (String.eqb "stdout" "file-write") with false.
  change (String.eqb "stdout" "stdout") with true.
  run_unfold.
  destruct (loggers w !! Logger.key_of name) eqn:E; run_simpl;
    repeat (progress (rewrite ?E, ?lookup_insert_eq, ?insert_insert_eq,
                        ?set_level_debug;
                      run_simpl;
                      cbn [prettier_log.level_truthy prettier_log.drop_loop length
                             Nat.ltb Nat.leb];
                      run_unfold));
    reflexivity.
Qed.

Lemma old_file_handler_inv (path : string) (w w' : world) (h : Handler) :
  prettier.get_logging_handler_one "file" (Some path) w = (Ok h, w') ->
  h = file_handler (next_id w) DEBUG path /\ file_opened path w w'.
Proof.
  unfold prettier.get_logging_handler_one, file_opened.
  change (String.eqb "file" "stdout") with false. cbv iota.
  unfold prettier.missing_path_message.
  invert_run; intros [= <- <-]; run_simpl;
    (split; [reflexivity | repeat split; try reflexivity]).
  all: repeat match goal with
         | H : _ && _ = false |- _ => apply andb_false_iff in H as [H | H]
         | H : _ && _ = true |- _ => apply andb_true_iff in H as [? ?]
         | H : negb _ = false |- _ => apply negb_false_iff in H
         | H : negb _ = true |- _ => apply negb_true_iff in H
         | H : String.eqb _ _ = true |- _ => apply String.eqb_eq in H
         | H : bool_decide _ = true |- _ => apply bool_decide_eq_true_1 in H
         end; auto; try discriminate.
  all: try (right; set_solver).
Qed.

Lemma new_file_handler_inv (path : string) (w w' : world) (h : Handler) :
  prettier_log.get_logging_handler_one style_i "file" (Some path) LvNone "a" w
  = (Ok h, w') ->
  h = file_handler (next_id w) NOTSET path /\ file_opened path w w'.
Proof.
  unfold prettier_log.get_logging_handler_one, file_opened.
  change (String.eqb "file" "stdout") with false.
  change (String.eqb "file" "file") with true.
  change (bool_decide ("file" ∈ ["file"; "file-w/-ansi"])) with true.
  change (bool_decide ("file" ∈ ["stdout"; "file-w/-ansi"])) with false.
  cbn [prettier_log.level_truthy]. cbv iota.
  invert_run; intros [= <- <-]; run_simpl;
    (split; [reflexivity | repeat split; try reflexivity]).
  all: repeat match goal with
         | H : _ && _ = false |- _ => apply andb_false_iff in H as [H | H]
         | H : _ && _ = true |- _ => apply andb_true_iff in H as [? ?]
         | H : negb _ = false |- _ => apply negb_false_iff in H
         | H : negb _ = true |- _ => apply negb_true_iff in H
         | H : String.eqb _ _ = true |- _ => apply String.eqb_eq in H
         | H : bool_decide _ = true |- _ => apply bool_decide_eq_true_1 in H
         end; auto; try discriminate.
  all: try (right; set_solver).
Qed.

Lemma old_stdout_handler_eq (file_path : option string) (w : world) :
  prettier.get_logging_handler_one "stdout" file_path w
  = (Ok (stdout_handler (next_id w) DEBUG),
     World (loggers w) (dirs w) (files w) (stdout w) (S (next_id w))).
Proof. reflexivity. Qed.

Lemma new_stdout_handler_eq (file_path : option string) (mode : string) (w : world) :
  prettier_log.get_logging_handler_one style_i "stdout" file_path LvNone mode w
  = (Ok (stdout_handler (next_id w) NOTSET),
     World (loggers w) (dirs w) (files w) (stdout w) (S (next_id w))).
Proof. reflexivity. Qed.

Lemma old_get_logger_both_inv (name path lg : string) (w w1 : world) :
  prettier.get_logger name "both" (Some path) w = (Ok lg, w1) ->
  lg = Logger.key_of name
  /\ loggers w1 !! lg
     = Some (both_logger (next_id w) (S (next_id w)) DEBUG path)
  /\ stdout w1 = stdout w
  /\ files w1 = <[path := default [] (files w !! path)]> (files w).
Proof.
  unfold prettier.get_logger, prettier.get_logging_handler.
  change (bool_decide ("both" ∈ ["stdout"; "file-write"; "both"])) with true.
  change (String.eqb "both" "file") with false.
  change (String.eqb "both" "both") with true. cbv iota.
  run_unfold.
  destruct (loggers w !! Logger.key_of name) eqn:E; run_simpl;
    rewrite old_stdout_handler_eq; run_simpl;
    (match goal with
     | |- context [prettier.get_logging_handler_one "file" (Some path) ?w0] =>
         destruct (prettier.get_logging_handler_one "file" (Some path) w0)
           as [[h|e] w'] eqn:Hfl
     end; [| discriminate]);
    apply old_file_handler_inv in Hfl as (-> & Hl & Hs & Hn & Hf & _);
    run_simpl_all;
    repeat (progress (rewrite ?Hl, ?lookup_insert_eq, ?insert_insert_eq); run_simpl);
    intros [= <- <-]; run_simpl;
    rewrite ?lookup_insert_eq, ?eqb_succ_r; repeat split; auto.
Qed.

Lemma new_get_logger_both_inv (name path lg : string) (w w1 : world) :
  prettier_log.get_logger style_i removed_message name "both"
    (Lv (LStr "debug")) (Some path) w = (Ok lg, w1) ->
  lg = Logger.key_of name
  /\ loggers w1 !! lg
     = Some (both_logger (S (next_id w)) (next_id w) NOTSET path)
  /\ stdout w1 = stdout w
  /\ files w1 = <[path := default [] (files w !! path)]> (files w).
Proof.
  unfold prettier_log.get_logger, prettier_log.add_log_handler,
    prettier_log.get_logging_handler, prettier_log.drop_file_handler.
  change (bool_decide ("both" ∈ ["stdout"; "file-write"; "both"; "both+ansi"]))
    with true.
  change (bool_decide ("both" ∈ ["both"; "both+ansi"; "file+ansi"])) with true.
  change (bool_decide ("both" ∈ ["both"; "both+ansi"])) with true.
  change (bool_decide ("both" ∈ ["both+ansi"; "file+ansi"])) with false.
  change (String.eqb "both" "file-write") with false.
  change (String.eqb "both" "both") with true. cbv iota.
  run_unfold. rewrite set_level_debug.
  destruct (loggers w !! Logger.key_of name) eqn:E; run_simpl;
    (match goal with
     | |- context [prettier_log.get_logging_handler_one style_i "file" (Some path)
                     LvNone "a" ?w0] =>
         destruct (prettier_log.get_logging_handler_one style_i "file" (Some path)
                     LvNone "a" w0) as [[h|e] w'] eqn:Hfl
     end; [| discriminate]);
    apply new_file_handler_inv in Hfl as (-> & Hl & Hs & Hn & Hf & _);
    rewrite new_stdout_handler_eq;
    run_simpl_all; cbn [option_list];
    repeat (progress (rewrite ?Hl, ?lookup_insert_eq, ?insert_insert_eq); run_simpl;
            cbn [prettier_log.drop_loop length Nat.ltb Nat.leb]);
    rewrite ?Hn;
    intros [= <- <-]; run_simpl;
    unfold stdout_handler, file_handler, both_logger;
    repeat (progress (rewrite ?lookup_insert_eq, ?insert_insert_eq, ?eqb_succ_l);
            run_simpl);
    repeat split; auto.
Qed.

End LoggerFacts.

Section RoutingFacts.

Lemma stdout_filter_blocks_stdout n lvl key msg :
  Handler.filter (stdout_handler n lvl) (info_record key msg "stdout") = false.
Proof. reflexivity. Qed.

Lemma file_filter_passes_stdout n lvl path key msg :
  Handler.filter (file_handler n lvl path) (info_record key msg "stdout") = true.
Proof. reflexivity. Qed.

Lemma stdout_filter_passes_file n lvl key msg :
  Handler.filter (stdout_handler n lvl) (info_record key msg "file") = true.
Proof. reflexivity. Qed.

Lemma file_filter_blocks_file n lvl path key msg :
  Handler.filter (file_handler n lvl path) (info_record key msg "file") = false.
Proof. reflexivity. Qed.

(** A record marked for the console reaches the file only. *)
Lemma info_block_stdout (w : world) (key path msg : string) (n1 n2 : nat) (level : Z) :
  loggers w !! key = Some (both_logger n1 n2 level path) ->
  (level <=? INFO)%Z = true ->
  LoggerLog.info key msg (Some (VAtom (AStr "stdout"))) w
  = (Ok tt,
     World (loggers w) (dirs w)
       (<[path := (default [] (files w !! path)
                   ++ [file_entry (info_record key msg "stdout")])%list]> (files w))
       (stdout w) (next_id w)).
Proof.
  intros Hlg Hlevel. log_unfold.
  fold (info_record key msg "stdout").
  log_steps Hlg Hlevel.
  cbn [stdout_handler h_level info_record r_levelno]. rewrite Hlevel.
  unfold Handler.handle at 1. rewrite stdout_filter_blocks_stdout.
  log_steps Hlg Hlevel.
  cbn [file_handler h_level info_record r_levelno]. rewrite Hlevel.
  fold (file_handler n2 level path). fold (info_record key msg "stdout").
  unfold Handler.handle. rewrite file_filter_passes_stdout.
  unfold Handler.emit, Handler.emit_stream, Handler.write_file.
  cbn [file_handler h_class h_file h_formatter]. log_steps Hlg Hlevel.
  reflexivity.
Qed.

(** A record marked for the file reaches the console only. *)
Lemma info_block_file (w : world) (key path msg : string) (n1 n2 : nat) (level : Z) :
  loggers w !! key = Some (both_logger n1 n2 level path) ->
  (level <=? INFO)%Z = true ->
  LoggerLog.info key msg (Some (VAtom (AStr "file"))) w
  = (Ok tt,
     World (loggers w) (dirs w) (files w)
       (stdout w ++ [console_entry (info_record key msg "file")])%list (next_id w)).
Proof.
  intros Hlg Hlevel. log_unfold.
  fold (info_record key msg "file").
  log_steps Hlg Hlevel.
  cbn [stdout_handler h_level info_record r_levelno]. rewrite Hlevel.
  fold (stdout_handler n1 level). fold (info_record key msg "file").
  unfold Handler.handle at 1. rewrite stdout_filter_passes_file.
  unfold Handler.emit, Handler.emit_stream, Handler.write_stdout.
  cbn [stdout_handler h_class h_file h_formatter]. log_steps Hlg Hlevel.
  cbn [file_handler h_level info_record r_levelno]. rewrite Hlevel.
  fold (file_handler n2 level path). fold (info_record key msg "file").
  unfold Handler.handle. rewrite file_filter_blocks_file.
  log_steps Hlg Hlevel.
  reflexivity.
Qed.

End RoutingFacts.

(** C3.  For every logger name and whatever handlers the logger holds,
    two calls of [get_logger(name, kind='stdout')] in a row both return,
    and leave the logger with exactly one handler, a stdout handler, and
    with propagation switched off; in prettier.py and in prettier_log.py. *)
Theorem C3_get_logger_twice_leaves_one_stdout_handler
    (style_i : value -> string) (removed_message : list Handler -> string)
    (name : string) (w : world) :
  (exists w1 w2 h,
      prettier.get_logger name "stdout" None w = (Ok (Logger.key_of name), w1)
      /\ prettier.get_logger name "stdout" None w1 = (Ok (Logger.key_of name), w2)
      /\ loggers w2 !! Logger.key_of name
         = Some {| lg_handlers := [h]; lg_level := DEBUG; lg_propagate := false |}
      /\ h_class h = StreamHandler
      /\ h_filters h = [{| handler_name := Some "stdout" |}])
  /\ (exists w1 w2 h,
         prettier_log.get_logger style_i removed_message name "stdout"
           (Lv (LStr "debug")) None w = (Ok (Logger.key_of name), w1)
         /\ prettier_log.get_logger style_i removed_message name "stdout"
              (Lv (LStr "debug")) None w1 = (Ok (Logger.key_of name), w2)
         /\ loggers w2 !! Logger.key_of name
            = Some {| lg_handlers := [h]; lg_level := DEBUG; lg_propagate := false |}
         /\ h_class h = StreamHandler
         /\ h_filters h = [{| handler_name := Some "stdout" |}]).
Proof.
  split.
  - eexists _, _, _. split; [apply old_get_logger_stdout |].
    split; [apply old_get_logger_stdout |].
    cbn [loggers]. rewrite lookup_insert_eq. repeat split.
  - eexists _, _, _. split; [apply new_get_logger_stdout |].
    split; [apply new_get_logger_stdout |].
    cbn [loggers]. rewrite lookup_insert_eq. repeat split.
Qed.

(** C4.  When [get_logger] has attached a stdout handler and a file handler
    to a logger (kind ['both']), the filter of the stdout handler rejects a
    record logged with [block='stdout'] and the filter of the file handler
    lets it pass: the record is written to the file and not to the console.
    With [block='file'] it is the other way round. *)
Theorem C4_block_marker_routes_record
    (style_i : value -> string) (removed_message : list Handler -> string)
    (name path msg lg : string) (w w1 : world) :
  prettier.get_logger name "both" (Some path) w = (Ok lg, w1)
  \/ prettier_log.get_logger style_i removed_message name "both"
       (Lv (LStr "debug")) (Some path) w = (Ok lg, w1) ->
  exists hs hf,
    (lg_handlers <$> loggers w1 !! lg) = Some [hs; hf]
    /\ h_class hs = StreamHandler
    /\ h_class hf = CleanAnsiFileHandler
    /\ h_file hf = Some path
    /\ Handler.filter hs (info_record lg msg "stdout") = false
    /\ Handler.filter hf (info_record lg msg "stdout") = true
    /\ Handler.filter hs (info_record lg msg "file") = true
    /\ Handler.filter hf (info_record lg msg "file") = false
    /\ LoggerLog.info lg msg (Some (VAtom (AStr "stdout"))) w1
       = (Ok tt,
          World (loggers w1) (dirs w1)
            (<[path := (default [] (files w1 !! path)
                        ++ [file_entry (info_record lg msg "stdout")])%list]> (files w1))
            (stdout w1) (next_id w1))
    /\ LoggerLog.info lg msg (Some (VAtom (AStr "file"))) w1
       = (Ok tt,
          World (loggers w1) (dirs w1) (files w1)
            (stdout w1 ++ [console_entry (info_record lg msg "file")])%list
            (next_id w1)).
Proof.
  intros [H | H].
  - apply old_get_logger_both_inv in H as (-> & Hlg & _ & _).
    eexists _, _. rewrite Hlg. split; [reflexivity |].
    repeat split.
    + eapply info_block_stdout; [exact Hlg | reflexivity].
    + eapply info_block_file; [exact Hlg | reflexivity].
  - apply new_get_logger_both_inv in H as (-> & Hlg & _ & _).
    eexists _, _. rewrite Hlg. split; [reflexivity |].
    repeat split.
    + eapply info_block_stdout; [exact Hlg | reflexivity].
    + eapply info_block_file; [exact Hlg | reflexivity].
Qed.

Lemma C4_witness :
  exists hs hf,
    (lg_handlers
       <$> loggers (snd (prettier.get_logger "run" "both" (Some "logs/run.log")
                           empty_world)) !! "run") = Some [hs; hf]
    /\ h_class hs = StreamHandler
    /\ h_class hf = CleanAnsiFileHandler
    /\ h_file hf = Some "logs/run.log"
    /\ Handler.filter hs (info_record "run" "to file" "stdout") = false
    /\ Handler.filter hf (info_record "run" "to file" "stdout") = true
    /\ Handler.filter hs (info_record "run" "to file" "file") = true
    /\ Handler.filter hf (info_record "run" "to file" "file") = false
    /\ LoggerLog.info "run" "to file" (Some (VAtom (AStr "stdout")))
         (snd (prettier.get_logger "run" "both" (Some "logs/run.log") empty_world))
       = (Ok tt,
          World
            (loggers (snd (prettier.get_logger "run" "both" (Some "logs/run.log")
                             empty_world)))
            (dirs (snd (prettier.get_logger "run" "both" (Some "logs/run.log")
                          empty_world)))
            (<["logs/run.log" :=
                 (default []
                    (files (snd (prettier.get_logger "run" "both"
                                   (Some "logs/run.log") empty_world))
                       !! "logs/run.log")
                  ++ [file_entry (info_record "run" "to file" "stdout")])%list]>
               (files (snd (prettier.get_logger "run" "both" (Some "logs/run.log")
                              empty_world))))
            (stdout (snd (prettier.get_logger "run" "both" (Some "logs/run.log")
                            empty_world)))
            (next_id (snd (prettier.get_logger "run" "both" (Some "logs/run.log")
                             empty_world))))
    /\ LoggerLog.info "run" "to file" (Some (VAtom (AStr "file")))
         (snd (prettier.get_logger "run" "both" (Some "logs/run.log") empty_world))
       = (Ok tt,
          World
            (loggers (snd (prettier.get_logger "run" "both" (Some "logs/run.log")
                             empty_world)))
            (dirs (snd (prettier.get_logger "run" "both" (Some "logs/run.log")
                          empty_world)))
            (files (snd (prettier.get_logger "run" "both" (Some "logs/run.log")
                           empty_world)))
            (stdout (snd (prettier.get_logger "run" "both" (Some "logs/run.log")
                            empty_world))
             ++ [console_entry (info_record "run" "to file" "file")])%list
            (next_id (snd (prettier.get_logger "run" "both" (Some "logs/run.log")
                             empty_world)))).
Proof.
  apply (C4_block_marker_routes_record (fun _ => "") (fun _ => "")
           "run" "logs/run.log" "to file" "run" empty_world).
  left. vm_compute. reflexivity.
Defined.

Section PathLengths.






End PathLengths.

Section FileHandlerFacts.
Variable style_i : value -> string.



Section MissingDirectory.
Variables (path : string) (w : world).
Hypothesis Hpath : path <> "".
Hypothesis Hdnm : os.dirname path <> "".
Hypothesis Hself : os.dirname path <> path.
Hypothesis Hmissing : os.dirname path ∉ dirs w.
Hypothesis Hnofile : files w !! os.dirname path = None.
Hypothesis Hnodir : path ∉ dirs w.




End MissingDirectory.

End FileHandlerFacts.



(** C8 in prettier_log.py: [cache_options] raises a [ValueError] when the
    attribute name is registered already, and leaves the registry as it
    was. *)
Lemma cache_options_duplicate_raises
    (style_i : value -> string) (self : prettier_log.CheckArg)
    (display_name attr_name : string) (options : list string) :
  is_Some (prettier_log.d_name2func self !! attr_name) ->
  exists msg,
    prettier_log.cache_options style_i self display_name attr_name options
    = (Raise (ValueError msg), self).
Proof.
  intros H. unfold prettier_log.cache_options.
  rewrite (bool_decide_eq_true_2 _ H). eexists. reflexivity.
Qed.

(** C8.  A second registration under the same attribute name: in
    prettier_log.py [cache_options] raises a [ValueError] at once; in
    prettier.py [cache_mismatch] returns normally and the closure of the second
    call replaces the first. *)
Theorem C8_second_registration
    (style_i : value -> string)
    (display1 display2 attr_name : string) (values1 values2 : list string) :
  (forall self : prettier_log.CheckArg,
      exists msg,
        prettier_log.cache_options style_i
          (snd (prettier_log.cache_options style_i self display1 attr_name values1))
          display2 attr_name values2
        = (Raise (ValueError msg),
           snd (prettier_log.cache_options style_i self display1 attr_name values1)))
  /\ (forall self : prettier.CheckArg,
         fst (prettier.cache_mismatch
                (snd (prettier.cache_mismatch self display1 attr_name values1))
                display2 attr_name values2) = Ok tt
         /\ prettier.d_name2func
              (snd (prettier.cache_mismatch
                      (snd (prettier.cache_mismatch self display1 attr_name values1))
                      display2 attr_name values2)) !! attr_name
            = Some {| prettier.cc_display_name := display2;
                      prettier.cc_accepted_values := values2;
                      prettier.cc_attr_name := attr_name |}).
Proof.
  split.
  - intros self. apply cache_options_duplicate_raises.
    unfold prettier_log.cache_options.
    destruct (bool_decide _) eqn:E.
    + cbn [snd]. now apply bool_decide_eq_true_1 in E.
    + cbn [snd prettier_log.d_name2func]. rewrite lookup_insert_eq. eauto.
  - intros self. split; [reflexivity |].
    cbn [prettier.cache_mismatch snd prettier.d_name2func].
    apply lookup_insert_eq.
Qed.

Lemma name_eq_true (name : option string) (v : value) :
  name_eq name v = true -> truthy v = true ->
  exists n, name = Some n /\ v = VAtom (AStr n) /\ n <> "".
Proof.
  destruct name as [n|]; destruct v as [[| b | z | s] | f | l | l | d];
    cbn [name_eq truthy]; try discriminate.
  intros Heq Ht. apply String.eqb_eq in Heq as ->.
  exists s. repeat split. intros ->. discriminate.
Qed.

(** C10.  [HandlerFilter.filter] lets a record pass whenever its [block]
    attribute is absent, [None] or otherwise false, whatever the handler's
    name; it rejects a record exactly when the marker is a non-empty string
    equal to the handler's name. *)
Theorem C10_filter_rejects_exactly_own_marker
    (self : HandlerFilter) (record : LogRecord) :
  (truthy (default (VAtom ANone) (r_block record)) = false ->
   HandlerFilter_filter self record = true)
  /\ (HandlerFilter_filter self record = false
      <-> exists name,
            name <> ""
            /\ handler_name self = Some name
            /\ r_block record = Some (VAtom (AStr name))).
Proof.
  unfold HandlerFilter_filter. split.
  - intros ->. reflexivity.
  - split.
    + destruct (truthy _ && name_eq _ _) eqn:E; [intros _ | discriminate].
      apply andb_true_iff in E as [Ht Hn].
      destruct (name_eq_true _ _ Hn Ht) as (name & Hname & Hblock & Hne).
      exists name. repeat split; auto.
      destruct (r_block record) as [v|]; cbn in Hblock; [now subst | discriminate].
    + intros (name & Hne & -> & ->). cbn [default from_option id truthy name_eq].
      rewrite String.eqb_refl.
      destruct (String.eqb_spec name "") as [-> | _]; [contradiction | reflexivity].
Qed.

Lemma C10_witness :
  HandlerFilter_filter {| handler_name := Some "stdout" |}
    {| r_name := "run"; r_levelno := INFO; r_msg := "hello"; r_block := None |} = true
  /\ HandlerFilter_filter {| handler_name := Some "stdout" |}
       {| r_name := "run"; r_levelno := INFO; r_msg := "hello";
          r_block := Some (VAtom (AStr "stdout")) |} = false.
Proof.
  split.
  - apply (C10_filter_rejects_exactly_own_marker {| handler_name := Some "stdout" |}
             {| r_name := "run"; r_levelno := INFO; r_msg := "hello"; r_block := None |}).
    reflexivity.
  - apply (C10_filter_rejects_exactly_own_marker {| handler_name := Some "stdout" |}
             {| r_name := "run"; r_levelno := INFO; r_msg := "hello";
                r_block := Some (VAtom (AStr "stdout")) |}).
    exists "stdout". repeat split. discriminate.
Defined.

(** * Ordinals and durations *)

Lemma append_inj_l (a b c : string) : a ++ b = a ++ c -> b = c.
Proof.
  induction a as [|x a IH]; [trivial |].
  rewrite !append_cons. intros [= H]. now apply IH.
Qed.

(** X1.  [ordinal(n)] is the decimal text of [n] followed by the
    English suffix of the last two digits of [n] (taken as Python's [%]
    gives them, so between 0 and 99 for a negative [n] too): [th] after 11,
    12 and 13, else [st], [nd], [rd] after a last digit 1, 2, 3, and [th]
    otherwise.  The suffix is therefore the same for [n] and [n + 100], and
    it is [st] exactly when [n] ends in 1 but not in 11. *)
Theorem ordinal_english_suffix (n : Z) :
  ordinal n = int_str n ++ english_suffix (n mod 100)
  /\ (exists suffix, ordinal (n + 100) = int_str (n + 100) ++ suffix
                     /\ ordinal n = int_str n ++ suffix)
  /\ (ordinal n = int_str n ++ "st" <-> (n mod 10 = 1 /\ n mod 100 <> 11)%Z).
Proof.
  assert (Hmain : forall m, ordinal m = int_str m ++ english_suffix (m mod 100)).
  { intros m. unfold ordinal, english_suffix. f_equal.
    pose proof (Z.mod_pos_bound m 100 ltac:(lia)) as Hb.
    pose proof (Z.mod_pos_bound m 10 ltac:(lia)) as Hb10.
    assert (Hmm : ((m mod 100) mod 10 = m mod 10)%Z).
    { apply Z.mod_mod_divide. exists 10%Z. reflexivity. }
    rewrite Hmm.
    destruct (Z.leb_spec 11 (m mod 100)), (Z.leb_spec (m mod 100) 13);
      cbn [andb]; repeat case_bool_decide; try lia; try reflexivity.
    all: try (replace (m mod 10)%Z with 1%Z by lia; reflexivity).
    all: try (replace (m mod 10)%Z with 2%Z by lia; reflexivity).
    all: try (replace (m mod 10)%Z with 3%Z by lia; reflexivity).
    all: assert (Hc : (m mod 10 = 0 \/ 4 <= m mod 10)%Z) by lia;
      destruct Hc as [-> | Hc]; [reflexivity |];
      rewrite Z.min_r by lia; reflexivity. }
  assert (Hper : ((n + 100) mod 100 = n mod 100)%Z).
  { replace (n + 100)%Z with (n + 1 * 100)%Z by lia. apply Z_mod_plus_full. }
  split; [apply Hmain |]. split.
  - exists (english_suffix (n mod 100)). split; [| apply Hmain].
    rewrite Hmain, Hper. reflexivity.
  - rewrite Hmain.
    pose proof (Z.mod_pos_bound n 100 ltac:(lia)) as Hb.
    assert (Hmm : ((n mod 100) mod 10 = n mod 10)%Z).
    { apply Z.mod_mod_divide. exists 10%Z. reflexivity. }
    unfold english_suffix. rewrite Hmm. split.
    + intros H. apply append_inj_l in H.
      repeat case_bool_decide; try discriminate. split; [assumption | tauto].
    + intros [H1 H2]. repeat case_bool_decide; try reflexivity; try tauto.
      destruct H as [H | [H | H]]; [tauto | |]; rewrite H in Hmm;
        rewrite <- Hmm in H1; discriminate H1.
Qed.

Lemma fmt_delta_seconds (x : Z) : (x < 60)%Z -> fmt_delta x = int_str x ++ "s".
Proof.
  intros H. rewrite fmt_delta_equation.
  destruct (Z.leb_spec 86400 x); [lia |].
  destruct (Z.leb_spec 3600 x); [lia |].
  destruct (Z.leb_spec 60 x); [lia |]. reflexivity.
Qed.

Lemma fmt_delta_minutes (x : Z) :
  (0 <= x < 3600)%Z ->
  fmt_delta x = unit_text (x / 60) "m" ++ int_str (x mod 60) ++ "s".
Proof.
  intros H. rewrite fmt_delta_equation.
  destruct (Z.leb_spec 86400 x); [lia |].
  destruct (Z.leb_spec 3600 x); [lia |].
  unfold unit_text.
  destruct (Z.leb_spec 60 x) as [H60|H60].
  - assert (0 < x / 60)%Z by (apply Z.div_str_pos; lia).
    destruct (Z.eqb_spec (x / 60) 0); [lia |].
    cbv zeta. rewrite append_assoc. do 2 f_equal.
    replace (x - x / 60 * 60)%Z with (x mod 60)%Z
      by (rewrite Z.mod_eq by lia; lia).
    apply fmt_delta_seconds. apply Z.mod_pos_bound. lia.
  - rewrite Z.div_small, Z.mod_small by lia. reflexivity.
Qed.

Lemma fmt_delta_hours (x : Z) :
  (0 <= x < 86400)%Z ->
  fmt_delta x
  = unit_text (x / 3600) "h" ++ unit_text (x mod 3600 / 60) "m"
    ++ int_str (x mod 60) ++ "s".
Proof.
  intros H.
  assert (Hmm : ((x mod 3600) mod 60 = x mod 60)%Z).
  { apply Z.mod_mod_divide. exists 60%Z. reflexivity. }
  destruct (Z.leb_spec 3600 x) as [H36|H36].
  - rewrite fmt_delta_equation.
    destruct (Z.leb_spec 86400 x); [lia |].
    destruct (Z.leb_spec 3600 x); [| lia].
    assert (0 < x / 3600)%Z by (apply Z.div_str_pos; lia).
    unfold unit_text at 1.
    destruct (Z.eqb_spec (x / 3600) 0); [lia |].
    cbv zeta. rewrite append_assoc. do 2 f_equal.
    replace (x - x / 3600 * 3600)%Z with (x mod 3600)%Z
      by (rewrite Z.mod_eq by lia; lia).
    rewrite fmt_delta_minutes by (apply Z.mod_pos_bound; lia).
    now rewrite Hmm.
  - rewrite fmt_delta_minutes by lia.
    rewrite (Z.div_small x 3600), (Z.mod_small x 3600) by lia. reflexivity.
Qed.

(** X2.  For a whole number of seconds that is not negative,
    [fmt_delta] writes the days, hours and minutes, each followed by its
    letter and each left out when it is zero, and then always the seconds
    below sixty followed by [s]. *)
Theorem fmt_delta_int_units (secs : Z) :
  (0 <= secs)%Z ->
  fmt_delta secs
  = unit_text (secs / 86400) "d"
    ++ unit_text (secs mod 86400 / 3600) "h"
    ++ unit_text (secs mod 3600 / 60) "m"
    ++ int_str (secs mod 60) ++ "s".
Proof.
  intros H.
  assert (Hm1 : ((secs mod 86400) mod 3600 = secs mod 3600)%Z).
  { apply Z.mod_mod_divide. exists 24%Z. reflexivity. }
  assert (Hm2 : ((secs mod 86400) mod 60 = secs mod 60)%Z).
  { apply Z.mod_mod_divide. exists 1440%Z. reflexivity. }
  destruct (Z.leb_spec 86400 secs) as [Hd|Hd].
  - rewrite fmt_delta_equation.
    destruct (Z.leb_spec 86400 secs); [| lia].
    assert (0 < secs / 86400)%Z by (apply Z.div_str_pos; lia).
    unfold unit_text at 1.
    destruct (Z.eqb_spec (secs / 86400) 0); [lia |].
    cbv zeta. rewrite append_assoc. do 2 f_equal.
    replace (secs - secs / 86400 * 86400)%Z with (secs mod 86400)%Z
      by (rewrite Z.mod_eq by lia; lia).
    rewrite fmt_delta_hours by (apply Z.mod_pos_bound; lia).
    now rewrite Hm1, Hm2.
  - rewrite fmt_delta_hours by lia.
    rewrite (Z.div_small secs 86400), (Z.mod_small secs 86400) by lia.
    reflexivity.
Qed.

Lemma fmt_delta_int_units_witness :
  (0 <= 90061)%Z
  /\ fmt_delta 90061
     = unit_text (90061 / 86400) "d"
       ++ unit_text (90061 mod 86400 / 3600) "h"
       ++ unit_text (90061 mod 3600 / 60) "m"
       ++ int_str (90061 mod 60) ++ "s".
Proof. split; [lia | apply (fmt_delta_int_units 90061); lia]. Defined.

(** * Whitespace *)

Lemma star_k_some (rs : Re.cls) (s : string) :
  Re.star_k rs Some s = Some (drop_cls rs s).
Proof.
  induction s as [|c s IH]; [reflexivity |].
  cbn [Re.star_k drop_cls]. destruct (Re.in_cls c rs); [| reflexivity].
  now rewrite IH.
Qed.

Lemma match_prefix_space (c : ascii) (s : string) :
  Re.match_prefix pattern_space (String c s)
  = if isspace c then Some (drop_cls cls_space s) else None.
Proof.
  unfold Re.match_prefix, pattern_space, isspace. cbn [Re.match_k].
  destruct (Re.in_cls c cls_space); [apply star_k_some | reflexivity].
Qed.

(** The number of whitespace characters a text starts with. *)
Lemma lead_cons (c : ascii) (s : string) :
  String.length (String c s) - String.length (drop_cls cls_space (String c s))
  = if isspace c
    then S (String.length s - String.length (drop_cls cls_space s))
    else 0.
Proof.
  cbn [drop_cls]. fold (isspace c). destruct (isspace c).
  - pose proof (drop_cls_length cls_space s). cbn [String.length]. lia.
  - lia.
Qed.

Lemma sub_space_squeeze (s : string) :
  Re.sub_from pattern_space " " 0 s = squeeze false s
  /\ Re.sub_from pattern_space " "
       (String.length s - String.length (drop_cls cls_space s)) s
     = squeeze true s.
Proof.
  induction s as [|c s [IH0 IH1]]; [split; reflexivity |].
  assert (H0 : Re.sub_from pattern_space " " 0 (String c s)
               = squeeze false (String c s)).
  { cbn [Re.sub_from squeeze]. rewrite match_prefix_space.
    destruct (isspace c) eqn:Hc.
    - pose proof (drop_cls_length cls_space s).
      replace (String.length (String c s) - String.length (drop_cls cls_space s))
        with (S (String.length s - String.length (drop_cls cls_space s)))
        by (cbn [String.length]; lia).
      rewrite IH1. reflexivity.
    - now rewrite IH0. }
  split; [exact H0 |].
  rewrite lead_cons. cbn [squeeze]. destruct (isspace c) eqn:Hc.
  - cbn [Re.sub_from]. exact IH1.
  - rewrite H0. cbn [squeeze]. now rewrite Hc.
Qed.

Lemma sub_space (s : string) : Re.sub pattern_space " " s = squeeze false s.
Proof. apply sub_space_squeeze. Qed.

Lemma isspace_space : isspace " " = true.
Proof. reflexivity. Qed.

Lemma squeeze_true_head (s : string) :
  match squeeze true s with
  | String c _ => isspace c = false
  | EmptyString => True
  end.
Proof.
  induction s as [|c s IH]; [exact I |].
  cbn [squeeze]. destruct (isspace c) eqn:Hc; [exact IH | exact Hc].
Qed.

Lemma lstrip_no_lead (s : string) :
  match s with String c _ => isspace c = false | EmptyString => True end ->
  Str2.lstrip s = s.
Proof. destruct s as [|c s]; [reflexivity |]. cbn [Str2.lstrip]. now intros ->. Qed.

Lemma lstrip_squeeze (s : string) : Str2.lstrip (squeeze false s) = squeeze true s.
Proof.
  destruct s as [|c s]; [reflexivity |].
  cbn [squeeze]. destruct (isspace c) eqn:Hc.
  - cbn [Str2.lstrip]. rewrite isspace_space.
    apply lstrip_no_lead, squeeze_true_head.
  - cbn [Str2.lstrip]. now rewrite Hc.
Qed.

Lemma clean_whitespace_squeeze (s : string) :
  clean_whitespace s = Str2.rstrip (squeeze true s).
Proof.
  unfold clean_whitespace, Str2.strip. now rewrite sub_space, lstrip_squeeze.
Qed.

Lemma rstrip_squeeze_tidy (s : string) :
  (Str2.rstrip (squeeze false s) = ""
   \/ tidy_from true (Str2.rstrip (squeeze false s)) = true)
  /\ (Str2.rstrip (squeeze true s) = ""
      \/ tidy_from false (Str2.rstrip (squeeze true s)) = true).
Proof.
  induction s as [|c s [IH0 IH1]]; [split; left; reflexivity |].
  assert (Hword : isspace c = false ->
                  forall b, tidy_from b (Str2.rstrip (String c (squeeze false s))) = true).
  { intros Hc b. cbn [Str2.rstrip].
    destruct IH0 as [-> | IH0].
    - rewrite Hc. cbn [tidy_from]. now rewrite Hc.
    - destruct (Str2.rstrip (squeeze false s)) as [|d r] eqn:Hr.
      + rewrite Hc. cbn [tidy_from]. now rewrite Hc.
      + cbn [tidy_from]. rewrite Hc. exact IH0. }
  cbn [squeeze]. destruct (isspace c) eqn:Hc.
  - split; [| exact IH1].
    cbn [Str2.rstrip]. destruct IH1 as [-> | IH1].
    + rewrite isspace_space. now left.
    + destruct (Str2.rstrip (squeeze true s)) as [|d r] eqn:Hr.
      * rewrite isspace_space. now left.
      * right. cbn [tidy_from]. rewrite isspace_space.
        cbn [andb]. rewrite Ascii.eqb_refl. exact IH1.
  - split; right; now apply Hword.
Qed.

Lemma clean_whitespace_tidy (s : string) : tidy (clean_whitespace s) = true.
Proof.
  rewrite clean_whitespace_squeeze.
  destruct (proj2 (rstrip_squeeze_tidy s)) as [-> | H]; [reflexivity |].
  unfold tidy. now destruct (Str2.rstrip (squeeze true s)).
Qed.

Lemma tidy_from_squeeze (t : string) :
  (tidy_from true t = true -> squeeze false t = t)
  /\ (tidy_from false t = true -> forall b, squeeze b t = t).
Proof.
  induction t as [|c t [IH1 IH0]]; [split; reflexivity |].
  cbn [tidy_from squeeze]. destruct (isspace c) eqn:Hc.
  - split; [| discriminate].
    cbn [andb]. intros H. apply andb_true_iff in H as [Hsp H].
    apply Ascii.eqb_eq in Hsp as ->. f_equal. now apply IH0.
  - split; [intros H | intros H b]; f_equal; now apply IH1.
Qed.

Lemma tidy_from_rstrip (t : string) (b : bool) :
  t <> "" -> tidy_from b t = true -> Str2.rstrip t = t.
Proof.
  revert b. induction t as [|c t IH]; [congruence |].
  intros b _ H. cbn [Str2.rstrip tidy_from] in *.
  destruct t as [|d t].
  - cbn [Str2.rstrip]. destruct (isspace c); [| reflexivity].
    cbn [tidy_from] in H. rewrite andb_false_r in H. discriminate.
  - assert (Hr : Str2.rstrip (String d t) = String d t).
    { destruct (isspace c).
      - apply andb_true_iff in H as [_ H]. now apply (IH false).
      - now apply (IH true). }
    now rewrite Hr.
Qed.

Lemma tidy_fixed (t : string) : tidy t = true -> clean_whitespace t = t.
Proof.
  destruct t as [|c t]; [reflexivity |].
  unfold tidy. intros H.
  rewrite clean_whitespace_squeeze.
  rewrite (proj2 (tidy_from_squeeze _) H true).
  now apply (tidy_from_rstrip _ false).
Qed.

Lemma letters_squeeze (b : bool) (s : string) : letters (squeeze b s) = letters s.
Proof.
  unfold letters. revert b. induction s as [|c s IH]; [reflexivity |].
  intros b. cbn [squeeze Str2.filter]. destruct (isspace c) eqn:Hc; cbn [negb].
  - destruct b; [apply IH |].
    cbn [Str2.filter]. rewrite isspace_space. cbn [negb]. apply IH.
  - cbn [Str2.filter]. rewrite Hc. cbn [negb]. f_equal. apply IH.
Qed.

Lemma letters_rstrip (s : string) : letters (Str2.rstrip s) = letters s.
Proof.
  unfold letters. induction s as [|c s IH]; [reflexivity |].
  cbn [Str2.rstrip Str2.filter].
  destruct (Str2.rstrip s) as [|d r] eqn:Hr.
  - cbn [Str2.filter] in IH. destruct (isspace c) eqn:Hc; cbn [negb].
    + exact IH.
    + cbn [Str2.filter]. rewrite Hc. cbn [negb]. f_equal. exact IH.
  - cbn [Str2.filter] in *. destruct (isspace c); cbn [negb]; [| f_equal]; exact IH.
Qed.

Lemma letters_clean (s : string) : letters (clean_whitespace s) = letters s.
Proof. now rewrite clean_whitespace_squeeze, letters_rstrip, letters_squeeze. Qed.

(** X3.  [clean_whitespace] returns a text in which
    whitespace occurs only as single spaces between other characters, with
    none at either end; the characters that are not whitespace are those of
    the argument, in order.  A text is returned unchanged exactly when it
    already has that form, so cleaning twice is cleaning once. *)
Theorem clean_whitespace_normal_form (s : string) :
  tidy (clean_whitespace s) = true
  /\ letters (clean_whitespace s) = letters s
  /\ (clean_whitespace s = s <-> tidy s = true)
  /\ clean_whitespace (clean_whitespace s) = clean_whitespace s.
Proof.
  split; [apply clean_whitespace_tidy |].
  split; [apply letters_clean |].
  split.
  - split; [intros <-; apply clean_whitespace_tidy | apply tidy_fixed].
  - apply tidy_fixed, clean_whitespace_tidy.
Qed.

(** ** Printable characters *)

Lemma all_printable_filter (s : string) : all_printable (str2ascii_str s) = true.
Proof.
  unfold str2ascii_str. induction s as [|c s IH]; [reflexivity |].
  cbn [Str2.filter]. destruct (Str.mem c string_.printable) eqn:Hc; [| exact IH].
  cbn [all_printable]. now rewrite Hc.
Qed.

Lemma all_printable_fixed (s : string) :
  all_printable s = true -> str2ascii_str s = s.
Proof.
  unfold str2ascii_str. induction s as [|c s IH]; [reflexivity |].
  cbn [all_printable Str2.filter]. intros H. apply andb_true_iff in H as [-> H].
  f_equal. now apply IH.
Qed.

Lemma all_printable_no_esc (s : string) :
  all_printable s = true -> Str.mem Str.ESC s = false.
Proof.
  induction s as [|c s IH]; [reflexivity |].
  cbn [all_printable Str.mem]. intros H. apply andb_true_iff in H as [Hc H].
  rewrite (IH H), orb_false_r.
  destruct (Ascii.eqb_spec Str.ESC c) as [<- |]; [| reflexivity].
  vm_compute in Hc. discriminate.
Qed.

(** X4.  [str2ascii_str] keeps exactly the printable
    characters: its result holds printable characters only, a text of
    printable characters is returned unchanged (so filtering twice is
    filtering once), and since the escape character is not printable the
    result holds no ANSI escape sequence: [_filter_ansi] leaves it as it
    is. *)
Theorem str2ascii_str_printable_only (s : string) :
  all_printable (str2ascii_str s) = true
  /\ (str2ascii_str s = s <-> all_printable s = true)
  /\ str2ascii_str (str2ascii_str s) = str2ascii_str s
  /\ has_ansi (str2ascii_str s) = false
  /\ _filter_ansi (str2ascii_str s) = str2ascii_str s.
Proof.
  pose proof (all_printable_filter s) as H.
  split; [exact H |]. split.
  - split; [intros <-; exact H | apply all_printable_fixed].
  - split; [now apply all_printable_fixed |].
    assert (Ha : has_ansi (str2ascii_str s) = false)
      by now apply no_esc_no_ansi, all_printable_no_esc.
    split; [exact Ha | now apply filter_ansi_id].
Qed.

(** ** [sanitize_str] *)

Lemma all_printable_squeeze (b : bool) (s : string) :
  all_printable s = true -> all_printable (squeeze b s) = true.
Proof.
  revert b. induction s as [|c s IH]; [reflexivity |].
  intros b. cbn [all_printable squeeze]. intros H.
  apply andb_true_iff in H as [Hc H].
  destruct (isspace c).
  - destruct b; [now apply IH |].
    cbn [all_printable]. rewrite (IH true H). reflexivity.
  - cbn [all_printable]. now rewrite Hc, (IH false H).
Qed.

Lemma all_printable_rstrip (s : string) :
  all_printable s = true -> all_printable (Str2.rstrip s) = true.
Proof.
  induction s as [|c s IH]; [reflexivity |].
  cbn [all_printable Str2.rstrip]. intros H.
  apply andb_true_iff in H as [Hc H]. specialize (IH H).
  destruct (Str2.rstrip s) as [|d r].
  - destruct (isspace c); [reflexivity |]. cbn [all_printable]. now rewrite Hc.
  - cbn [all_printable] in *. now rewrite Hc, IH.
Qed.

Lemma all_printable_clean (s : string) :
  all_printable s = true -> all_printable (clean_whitespace s) = true.
Proof.
  intros H. rewrite clean_whitespace_squeeze.
  now apply all_printable_rstrip, all_printable_squeeze.
Qed.

Lemma tidy_empty_letters (t : string) : tidy t = true -> letters t = "" -> t = "".
Proof.
  destruct t as [|c t]; [reflexivity |].
  unfold tidy, letters. cbn [tidy_from Str2.filter].
  destruct (isspace c); cbn [negb andb]; discriminate.
Qed.

Lemma clean_empty_iff (s : string) : clean_whitespace s = "" <-> letters s = "".
Proof.
  split.
  - intros H. rewrite <- letters_clean, H. reflexivity.
  - intros H. apply tidy_empty_letters; [apply clean_whitespace_tidy |].
    now rewrite letters_clean.
Qed.

Lemma sanitize_str_unfold (s : string) :
  sanitize_str s
  = if String.eqb (clean_whitespace (str2ascii_str s)) ""
    then Raise (ValueError ("Empty text after cleaning, was "
                            ++ colorama.Fore.BLUE ++ s ++ PrettyLogger.reset))
    else Ok (clean_whitespace (str2ascii_str s)).
Proof.
  unfold sanitize_str. fold (clean_whitespace (str2ascii_str s)).
  destruct (String.eqb (clean_whitespace (str2ascii_str s)) ""); [| reflexivity].
  cbn [PrettyLogger.i]. unfold PrettyLogger.i_else. cbn [is_present no_kwargs
    key_value_sep pairs_sep for_path omit_none_val with_color orb default].
  change (default true None) with true.
  rewrite (s_styled _ _ _ key2c_i). reflexivity.
Qed.

(** X5.  [sanitize_str] raises a [ValueError] exactly when
    the argument holds no printable character other than whitespace.
    Otherwise it returns a text that is not empty, holds printable characters
    only, has whitespace only as single spaces between other characters, and
    keeps the printable characters of the argument that are not whitespace, in
    order; sanitising that text again returns it unchanged. *)
Theorem sanitize_str_result (s : string) :
  ((exists msg, sanitize_str s = Raise (ValueError msg))
   <-> letters (str2ascii_str s) = "")
  /\ (forall r, sanitize_str s = Ok r ->
        r <> "" /\ all_printable r = true /\ tidy r = true
        /\ letters r = letters (str2ascii_str s)
        /\ sanitize_str r = Ok r)
  /\ (letters (str2ascii_str s) <> "" -> exists r, sanitize_str s = Ok r).
Proof.
  rewrite sanitize_str_unfold.
  destruct (String.eqb_spec (clean_whitespace (str2ascii_str s)) "") as [He | Hne].
  - split; [| split].
    + split; [intros _; now apply clean_empty_iff | intros _; eauto].
    + intros r [=].
    + intros H. exfalso. apply H. now apply clean_empty_iff.
  - split; [| split].
    + split; [intros [msg [=]] | intros H; exfalso; apply Hne; now apply clean_empty_iff].
    + intros r [= <-].
      pose proof (all_printable_clean _ (all_printable_filter s)) as Hp.
      pose proof (clean_whitespace_tidy (str2ascii_str s)) as Ht.
      split; [exact Hne |]. split; [exact Hp |]. split; [exact Ht |].
      split; [apply letters_clean |].
      rewrite sanitize_str_unfold.
      rewrite (all_printable_fixed _ Hp), (tidy_fixed _ Ht).
      destruct (String.eqb_spec (clean_whitespace (str2ascii_str s)) ""); [contradiction |].
      reflexivity.
    + intros _. eauto.
Qed.

(** * Occurrences of a text *)

Lemma match_k_literal (c : ascii) (t : string) (k : string -> option string) (s : string) :
  Re.match_k (literal c t) k s
  = if Str.startswith (String c t) s
    then k (drop_first (String.length (String c t)) s)
    else None.
Proof.
  revert c k s. induction t as [|d t IH]; intros c k s.
  - cbn [literal Re.match_k Str.startswith String.length].
    destruct s as [|e s]; [reflexivity |].
    destruct (Ascii.eqb c e); cbn [andb]; [| reflexivity].
    cbn [drop_first]. now destruct s.
  - cbn [literal Re.match_k]. destruct s as [|e s]; [reflexivity |].
    cbn [Str.startswith String.length drop_first].
    cbn [Str.startswith String.length drop_first] in IH.
    destruct (Ascii.eqb c e); cbn [andb]; [| reflexivity].
    rewrite IH. reflexivity.
Qed.

Lemma startswith_length (p s : string) :
  Str.startswith p s = true ->
  String.length (drop_first (String.length p) s) + String.length p = String.length s.
Proof.
  revert s. induction p as [|a p IH]; intros s; [cbn; lia |].
  destruct s as [|b s]; [discriminate |].
  cbn [Str.startswith String.length drop_first]. intros H.
  apply andb_true_iff in H as [_ H]. specialize (IH _ H). lia.
Qed.

(** The scan that [finditer] makes for a literal pattern. *)
Lemma finditer_literal_cons (c : ascii) (t : string) (pos : nat) (e : ascii) (s : string) :
  finditer_from (literal c t) pos 0 (String e s)
  = if Str.startswith (String c t) (String e s)
    then pos :: finditer_from (literal c t) (S pos) (String.length t) s
    else finditer_from (literal c t) (S pos) 0 s.
Proof.
  cbn [finditer_from]. unfold Re.match_prefix. rewrite match_k_literal.
  destruct (Str.startswith (String c t) (String e s)) eqn:Hs; [| reflexivity].
  pose proof (startswith_length _ _ Hs) as Hl.
  replace (String.length (String e s)
           - String.length (drop_first (String.length (String c t)) (String e s)))
    with (S (String.length t)) by (cbn [String.length] in *; lia).
  reflexivity.
Qed.

Lemma startswith_substring (p s : string) :
  Str.startswith p s = true -> String.substring 0 (String.length p) s = p.
Proof.
  revert s. induction p as [|a p IH]; intros s.
  - intros _. now destruct s.
  - destruct s as [|b s]; [discriminate |].
    cbn [Str.startswith String.length String.substring]. intros H.
    apply andb_true_iff in H as [Hab H]. apply Ascii.eqb_eq in Hab as ->.
    f_equal. now apply IH.
Qed.

Lemma substring_drop_first (i n : nat) (s : string) :
  String.substring i n s = String.substring 0 n (drop_first i s).
Proof.
  revert s. induction i as [|i IH]; intros s; [reflexivity |].
  destruct s as [|b s]; cbn [String.substring drop_first].
  - now destruct n.
  - apply IH.
Qed.

Section Scan.
Variables (c : ascii) (t : string).
Let sub := String c t.
Let r := literal c t.

(** Every position found starts an occurrence, and lies at or after the
  first position that is not skipped. *)
Lemma finditer_sound (s : string) :
forall pos skip i,
  i ∈ finditer_from r pos skip s ->
  (pos + skip <= i)%nat
  /\ Str.startswith sub (drop_first (i - pos) s) = true.
Proof.
induction s as [|e s IH]; intros pos skip i Hi.
- cbn [finditer_from] in Hi. now apply elem_of_nil in Hi.
- destruct skip as [|k].
  + unfold r in Hi. rewrite finditer_literal_cons in Hi. fold r sub in Hi.
    destruct (Str.startswith sub (String e s)) eqn:Hs.
    * apply elem_of_cons in Hi as [-> | Hi].
      -- split; [lia |]. now rewrite Nat.sub_diag.
      -- apply IH in Hi as [Hle Hocc]. split; [lia |].
         replace (i - pos)%nat with (S (i - S pos)) by lia. exact Hocc.
    * apply IH in Hi as [Hle Hocc]. split; [lia |].
      replace (i - pos)%nat with (S (i - S pos)) by lia. exact Hocc.
  + cbn [finditer_from] in Hi. apply IH in Hi as [Hle Hocc]. split; [lia |].
    replace (i - pos)%nat with (S (i - S pos)) by lia. exact Hocc.
Qed.

Lemma finditer_apart (s : string) :
forall pos skip, apart (String.length sub) (finditer_from r pos skip s) = true.
Proof.
induction s as [|e s IH]; intros pos skip; [reflexivity |].
destruct skip as [|k]; [| apply IH].
unfold r. rewrite finditer_literal_cons. fold r sub.
destruct (Str.startswith sub (String e s)); [| apply IH].
cbn [apart].
destruct (finditer_from r (S pos) (String.length t) s) as [|b rest] eqn:Hrest;
  [reflexivity |].
rewrite <- Hrest, IH, andb_true_r.
assert (Hb : b ∈ finditer_from r (S pos) (String.length t) s)
  by (rewrite Hrest; left).
apply finditer_sound in Hb as [Hb _].
apply Nat.leb_le. unfold sub. cbn [String.length]. lia.
Qed.

(** No occurrence is missed: each one overlaps a position found. *)
Lemma finditer_complete (s : string) :
forall pos skip j,
  (skip <= j)%nat ->
  Str.startswith sub (drop_first j s) = true ->
  exists i, i ∈ finditer_from r pos skip s
            /\ (i <= pos + j < i + String.length sub)%nat.
Proof.
induction s as [|e s IH]; intros pos skip j Hj Hocc.
- destruct j; discriminate Hocc.
- destruct skip as [|k].
  + unfold r. rewrite finditer_literal_cons. fold r sub.
    destruct (Str.startswith sub (String e s)) eqn:Hs.
    * destruct (Nat.lt_ge_cases j (String.length sub)) as [Hlt | Hge].
      -- exists pos. split; [left | lia].
      -- destruct j as [|j]; [unfold sub in Hge; cbn [String.length] in Hge; lia |].
         cbn [drop_first] in Hocc.
         destruct (IH (S pos) (String.length t) j) as (i & Hi & Hb);
           [unfold sub in Hge; cbn [String.length] in Hge; lia | exact Hocc |].
         exists i. split; [now right | lia].
    * destruct j as [|j]; [cbn [drop_first] in Hocc; congruence |].
      cbn [drop_first] in Hocc.
      destruct (IH (S pos) 0 j) as (i & Hi & Hb); [lia | exact Hocc |].
      exists i. split; [exact Hi | lia].
  + destruct j as [|j]; [lia |]. cbn [drop_first] in Hocc.
    cbn [finditer_from].
    destruct (IH (S pos) k j) as (i & Hi & Hb); [lia | exact Hocc |].
    exists i. split; [exact Hi | lia].
Qed.

End Scan.

(** X6.  For a text [s_sub] that is not empty (a first
    character [c] and the rest [t]), [get_substr_indices(s, s_sub)] returns
    positions at each of which [s_sub] occurs in [s]; consecutive positions
    are at least the length of [s_sub] apart, so the occurrences found do not
    overlap; and every occurrence of [s_sub] in [s] overlaps one that is
    found, so the result is empty only when [s_sub] does not occur.  For the
    empty text the result is every position from 0 to the length of [s]. *)
Theorem get_substr_indices_occurrences (s : string) (c : ascii) (t : string) :
  (forall i, i ∈ get_substr_indices s (String c t) ->
     String.substring i (String.length (String c t)) s = String c t)
  /\ apart (String.length (String c t)) (get_substr_indices s (String c t)) = true
  /\ (forall j, String.substring j (String.length (String c t)) s = String c t ->
        exists i, i ∈ get_substr_indices s (String c t)
                  /\ (i <= j < i + String.length (String c t))%nat)
  /\ get_substr_indices s "" = seq 0 (S (String.length s)).
Proof.
  unfold get_substr_indices. split; [| split; [| split; [| reflexivity]]].
  - intros i Hi. apply finditer_sound in Hi as [_ Hocc].
    rewrite Nat.sub_0_r in Hocc.
    rewrite substring_drop_first. now apply startswith_substring.
  - apply finditer_apart.
  - intros j Hj.
    assert (Hocc : Str.startswith (String c t) (drop_first j s) = true).
    { rewrite substring_drop_first in Hj. revert Hj.
      generalize (drop_first j s) (String c t). clear.
      intros u p. revert u. induction p as [|a p IH]; intros u; [reflexivity |].
      destruct u as [|b u]; [discriminate |].
      cbn [String.length String.substring Str.startswith].
      intros [= -> H]. rewrite Ascii.eqb_refl. cbn [andb]. now apply IH. }
    destruct (finditer_complete c t s 0 0 j (Nat.le_0_l _) Hocc) as (i & Hi & Hb).
    exists i. split; [exact Hi | lia].
Qed.

(** * Colours *)

Lemma hex_digit_facts (c : ascii) :
  is_hex c = true ->
  hex2rgb_.digit16 c = Some (hex_value c)
  /\ (0 <= hex_value c < 16)%Z
  /\ isspace c = false.
Proof.
  destruct c as [[] [] [] [] [] [] [] []]; vm_compute; intros H;
    first [discriminate H | repeat split; congruence].
Qed.

Lemma int16_pair (a b : ascii) :
  is_hex a = true -> is_hex b = true ->
  hex2rgb_.int16 (String a (String b "")) = inr (16 * hex_value a + hex_value b)%Z.
Proof.
  intros Ha Hb.
  destruct (hex_digit_facts a Ha) as (Da & _ & Sa).
  destruct (hex_digit_facts b Hb) as (Db & _ & Sb).
  unfold hex2rgb_.int16, Str2.strip.
  cbn [Str2.lstrip]. rewrite Sa. cbn [Str2.rstrip]. rewrite Sb.
  cbn [hex2rgb_.digits16]. rewrite Da. cbn [hex2rgb_.digits16]. rewrite Db. f_equal; lia.
Qed.

Lemma int16_digit_newline (a : ascii) :
  is_hex a = true ->
  hex2rgb_.int16 (String a (String LF "")) = inr (hex_value a).
Proof.
  intros Ha. destruct (hex_digit_facts a Ha) as (Da & _ & Sa).
  unfold hex2rgb_.int16, Str2.strip.
  cbn [Str2.lstrip]. rewrite Sa. cbn [Str2.rstrip].
  change (isspace LF) with true. cbv iota. rewrite Sa.
  cbn [hex2rgb_.digits16]. rewrite Da. f_equal; lia.
Qed.

Ltac hex_match :=
  unfold Rx.matches, hex2rgb_.regex, hex2rgb_.hex3;
  cbn [Rx.match_k Ascii.eqb Bool.eqb];
  repeat match goal with
         | H : is_hex ?c = true |- context [Re.in_cls ?c hex2rgb_.cls_hex] =>
             change (Re.in_cls c hex2rgb_.cls_hex) with (is_hex c); rewrite H
         end.

Lemma matches_hash3 (a b c : ascii) :
  is_hex a = true -> is_hex b = true -> is_hex c = true ->
  Rx.matches hex2rgb_.regex (hash3 a b c) = true.
Proof. intros Ha Hb Hc. unfold hash3. hex_match. reflexivity. Qed.

Lemma matches_hash6 (a b c d e f : ascii) (tail : string) :
  is_hex a = true -> is_hex b = true -> is_hex c = true ->
  is_hex d = true -> is_hex e = true -> is_hex f = true ->
  tail = "" \/ tail = String LF "" ->
  Rx.matches hex2rgb_.regex (hash6 a b c d e f ++ tail) = true.
Proof.
  intros Ha Hb Hc Hd He Hf [-> | ->]; unfold hash6; rewrite ?append_cons, ?append_nil_l;
    hex_match; reflexivity.
Qed.

Lemma hex2rgb_hash3 (a b c : ascii) :
  is_hex a = true -> is_hex b = true -> is_hex c = true ->
  hex2rgb_.hex2rgb (hash3 a b c)
  = hex2rgb_.Rgb (17 * hex_value a) (17 * hex_value b) (17 * hex_value c).
Proof.
  intros Ha Hb Hc. unfold hex2rgb_.hex2rgb.
  rewrite matches_hash3 by assumption. cbn [negb].
  unfold hash3, hex2rgb_.triple, hex2rgb_.doubled.
  cbn [String.length Nat.leb String.get].
  rewrite !int16_pair by assumption. f_equal; lia.
Qed.

Lemma hex2rgb_hash6 (a b c d e f : ascii) (tail : string) :
  is_hex a = true -> is_hex b = true -> is_hex c = true ->
  is_hex d = true -> is_hex e = true -> is_hex f = true ->
  tail = "" \/ tail = String LF "" ->
  hex2rgb_.hex2rgb (hash6 a b c d e f ++ tail)
  = hex2rgb_.Rgb (16 * hex_value a + hex_value b) (16 * hex_value c + hex_value d)
      (16 * hex_value e + hex_value f).
Proof.
  intros Ha Hb Hc Hd He Hf Ht. unfold hex2rgb_.hex2rgb.
  rewrite matches_hash6 by assumption. cbn [negb].
  destruct Ht as [-> | ->]; unfold hash6, hex2rgb_.triple, hex2rgb_.pair_at;
    rewrite ?append_cons, ?append_nil_l;
    cbn [String.length Nat.leb String.substring];
    rewrite !int16_pair by assumption; reflexivity.
Qed.

(** X7.  For hexadecimal digits, [hex2rgb('#abc')] is
    [hex2rgb('#aabbcc')]: each digit of the short form is doubled, which is
    seventeen times its value.  [hex2rgb('#abcdef')] is the three bytes
    [ab], [cd] and [ef], and a newline after the six digits changes
    nothing. *)
Theorem hex2rgb_short_and_long_form (a b c d e f : ascii) :
  is_hex a = true -> is_hex b = true -> is_hex c = true ->
  is_hex d = true -> is_hex e = true -> is_hex f = true ->
  hex2rgb_.hex2rgb (hash3 a b c)
  = hex2rgb_.Rgb (17 * hex_value a) (17 * hex_value b) (17 * hex_value c)
  /\ hex2rgb_.hex2rgb (hash3 a b c) = hex2rgb_.hex2rgb (hash6 a a b b c c)
  /\ hex2rgb_.hex2rgb (hash6 a b c d e f)
     = hex2rgb_.Rgb (16 * hex_value a + hex_value b) (16 * hex_value c + hex_value d)
         (16 * hex_value e + hex_value f)
  /\ hex2rgb_.hex2rgb (hash6 a b c d e f ++ String LF "")
     = hex2rgb_.hex2rgb (hash6 a b c d e f).
Proof.
  intros Ha Hb Hc Hd He Hf.
  pose proof (hex2rgb_hash6 a b c d e f "") as H6. rewrite append_nil_r in H6.
  pose proof (hex2rgb_hash6 a a b b c c "") as H3. rewrite append_nil_r in H3.
  split; [now apply hex2rgb_hash3 |]. split.
  - rewrite hex2rgb_hash3, H3 by (assumption || now left). f_equal; lia.
  - split; [apply H6; assumption || now left |].
    rewrite H6 by (assumption || now left).
    apply hex2rgb_hash6; assumption || now right.
Qed.

Lemma hex2rgb_short_and_long_form_witness :
  hex2rgb_.hex2rgb (hash3 "E" "5" "c")
  = hex2rgb_.Rgb (17 * hex_value "E") (17 * hex_value "5") (17 * hex_value "c")
  /\ hex2rgb_.hex2rgb (hash3 "E" "5" "c") = hex2rgb_.hex2rgb (hash6 "E" "E" "5" "5" "c" "c")
  /\ hex2rgb_.hex2rgb (hash6 "E" "5" "c" "0" "7" "B")
     = hex2rgb_.Rgb (16 * hex_value "E" + hex_value "5") (16 * hex_value "c" + hex_value "0")
         (16 * hex_value "7" + hex_value "B")
  /\ hex2rgb_.hex2rgb (hash6 "E" "5" "c" "0" "7" "B" ++ String LF "")
     = hex2rgb_.hex2rgb (hash6 "E" "5" "c" "0" "7" "B").
Proof.
  apply (hex2rgb_short_and_long_form "E" "5" "c" "0" "7" "B"); reflexivity.
Defined.

(** The texts the pattern lets through. *)
Lemma regex_shape (hx : string) :
  Rx.matches hex2rgb_.regex hx = true ->
  exists a b c,
    is_hex a = true /\ is_hex b = true /\ is_hex c = true
    /\ (hx = hash3 a b c
        \/ hx = hash3 a b c ++ String LF ""
        \/ exists d e f tail,
             is_hex d = true /\ is_hex e = true /\ is_hex f = true
             /\ (tail = "" \/ tail = String LF "")
             /\ hx = hash6 a b c d e f ++ tail).
Proof.
  unfold Rx.matches, hex2rgb_.regex, hex2rgb_.hex3.
  destruct hx as [|h hx]; [discriminate |]. cbn [Rx.match_k].
  destruct (Ascii.eqb_spec "#" h) as [<- |]; [| discriminate].
  destruct hx as [|a hx]; [discriminate |]. fold (is_hex a).
  destruct (is_hex a) eqn:Ha; [| discriminate].
  destruct hx as [|b hx]; [discriminate |]. fold (is_hex b).
  destruct (is_hex b) eqn:Hb; [| discriminate].
  destruct hx as [|c hx]; [discriminate |]. fold (is_hex c).
  destruct (is_hex c) eqn:Hc; [| discriminate].
  intros H. exists a, b, c. do 3 (split; [assumption |]).
  destruct hx as [|d hx]; [now left |].
  fold (is_hex d) in H.
  assert (Hlf : forall t, (if (String.eqb t "" || String.eqb t (String "010" ""))%bool
                           then Some t else None) <> None ->
                          t = "" \/ t = String LF "").
  { intros t Ht. destruct (String.eqb_spec t ""); [now left |].
    destruct (String.eqb_spec t (String "010" "")); [now right |].
    cbn [orb] in Ht. congruence. }
  destruct (is_hex d) eqn:Hd.
  - destruct hx as [|e hx].
    + (* one digit after the three: only the newline reading is left *)
      cbn [String.eqb] in H. exfalso.
      destruct d as [[] [] [] [] [] [] [] []]; vm_compute in Hd, H; congruence.
    + fold (is_hex e) in H. destruct (is_hex e) eqn:He.
      * destruct hx as [|f hx].
        -- exfalso. cbn [String.eqb] in H.
           destruct d as [[] [] [] [] [] [] [] []]; vm_compute in Hd, H; congruence.
        -- fold (is_hex f) in H. destruct (is_hex f) eqn:Hf.
           ++ right. right. exists d, e, f, hx. do 3 (split; [assumption |]).
              destruct (String.eqb hx "" || String.eqb hx (String "010" ""))%bool eqn:Ht.
              ** split; [| reflexivity]. apply Hlf. now rewrite Ht.
              ** exfalso.
                 cbn [String.eqb] in H.
                 destruct d as [[] [] [] [] [] [] [] []]; vm_compute in Hd, H; congruence.
           ++ exfalso. cbn [String.eqb] in H.
              destruct d as [[] [] [] [] [] [] [] []]; vm_compute in Hd, H; congruence.
      * exfalso. cbn [String.eqb] in H.
        destruct d as [[] [] [] [] [] [] [] []]; vm_compute in Hd, H; congruence.
  - right. left.
    assert (Ht : String d hx = "" \/ String d hx = String LF "").
    { apply Hlf. destruct ((String.eqb (String d hx) "" || String.eqb (String d hx) (String "010" ""))%bool); congruence. }
    destruct Ht as [Ht | Ht]; [discriminate |]. now rewrite Ht.
Qed.

Lemma hex2rgb_hash3_newline (a b c : ascii) :
  is_hex a = true -> is_hex b = true -> is_hex c = true ->
  hex2rgb_.hex2rgb (hash3 a b c ++ String LF "")
  = hex2rgb_.Fails (hex2rgb_.invalid_literal "").
Proof.
  intros Ha Hb Hc. unfold hex2rgb_.hex2rgb.
  assert (Hm : Rx.matches hex2rgb_.regex (hash3 a b c ++ String LF "") = true).
  { unfold hash3. rewrite ?append_cons, ?append_nil_l. hex_match.
    change (Re.in_cls LF hex2rgb_.cls_hex) with false. reflexivity. }
  rewrite Hm. cbn [negb].
  unfold hash3, hex2rgb_.triple, hex2rgb_.pair_at.
  rewrite ?append_cons, ?append_nil_l.
  cbn [String.length Nat.leb String.substring].
  rewrite int16_pair, int16_digit_newline by assumption. reflexivity.
Qed.

Lemma hex_value_byte (a b : ascii) :
  is_hex a = true -> is_hex b = true ->
  (0 <= 16 * hex_value a + hex_value b <= 255)%Z.
Proof.
  intros Ha Hb.
  destruct (hex_digit_facts a Ha) as (_ & Ra & _).
  destruct (hex_digit_facts b Hb) as (_ & Rb & _). lia.
Qed.

(** X8.  [hex2rgb] returns three numbers from 0 to 255,
    and only for a text of 4, 7 or 8 characters.  It fails its assertion
    exactly when the pattern does not match.  The pattern lets through three
    digits followed by a newline, and for such a text the call ends in the
    [ValueError] of [int] for an empty literal.  No other exception is
    raised, no [IndexError] in particular. *)
Theorem hex2rgb_outcomes (hx : string) :
  match hex2rgb_.hex2rgb hx with
  | hex2rgb_.Rgb r g b =>
      (0 <= r <= 255 /\ 0 <= g <= 255 /\ 0 <= b <= 255)%Z
      /\ (String.length hx = 4 \/ String.length hx = 7 \/ String.length hx = 8)
  | hex2rgb_.Fails (hex2rgb_.Exn AssertionError) =>
      Rx.matches hex2rgb_.regex hx = false
  | hex2rgb_.Fails (hex2rgb_.Exn (ValueError msg)) =>
      msg = "invalid literal for int() with base 16: ''"
      /\ exists a b c,
           is_hex a = true /\ is_hex b = true /\ is_hex c = true
           /\ hx = hash3 a b c ++ String LF ""
  | hex2rgb_.Fails _ => False
  end.
Proof.
  destruct (Rx.matches hex2rgb_.regex hx) eqn:Hm.
  - destruct (regex_shape hx Hm) as (a & b & c & Ha & Hb & Hc & Hs).
    destruct Hs as [-> | [-> | (d & e & f & tail & Hd & He & Hf & Ht & ->)]].
    + rewrite hex2rgb_hash3 by assumption.
      destruct (hex_digit_facts a Ha) as (_ & Ra & _).
      destruct (hex_digit_facts b Hb) as (_ & Rb & _).
      destruct (hex_digit_facts c Hc) as (_ & Rc & _).
      split; [lia | now left].
    + rewrite hex2rgb_hash3_newline by assumption.
      split; [reflexivity |]. now exists a, b, c.
    + rewrite hex2rgb_hash6 by assumption.
      pose proof (hex_value_byte a b Ha Hb). pose proof (hex_value_byte c d Hc Hd).
      pose proof (hex_value_byte e f He Hf).
      split; [lia |]. destruct Ht as [-> | ->]; [right; left | right; right]; reflexivity.
  - unfold hex2rgb_.hex2rgb. rewrite Hm. reflexivity.
Qed.

Lemma hex_digit_value (n : Z) :
  (0 <= n < 16)%Z -> is_hex (hex_digit n) = true /\ hex_value (hex_digit n) = n.
Proof.
  intros H.
  assert (Hn : In n (map Z.of_nat (List.seq 0 16))).
  { apply in_map_iff. exists (Z.to_nat n). split; [lia |]. apply in_seq. lia. }
  cbn in Hn.
  repeat (destruct Hn as [<- | Hn]; [split; reflexivity |]). contradiction.
Qed.

(** X9.  Every triple of bytes is the colour of a text:
    writing each of three numbers from 0 to 255 as two hexadecimal digits
    after a [#] gives a text from which [hex2rgb] reads the three numbers
    back. *)
Theorem hex2rgb_reads_back_bytes (r g b : Z) :
  (0 <= r <= 255)%Z -> (0 <= g <= 255)%Z -> (0 <= b <= 255)%Z ->
  hex2rgb_.hex2rgb (String "#" (hex_byte r ++ hex_byte g ++ hex_byte b))
  = hex2rgb_.Rgb r g b.
Proof.
  intros Hr Hg Hb.
  assert (Hd : forall n, (0 <= n <= 255)%Z ->
                         (0 <= n / 16 < 16)%Z /\ (0 <= n mod 16 < 16)%Z
                         /\ (16 * (n / 16) + n mod 16 = n)%Z).
  { intros n Hn. pose proof (Z.mod_pos_bound n 16 ltac:(lia)).
    pose proof (Z.div_mod n 16 ltac:(lia)).
    assert (0 <= n / 16)%Z by (apply Z.div_pos; lia).
    assert (n / 16 < 16)%Z by (apply Z.div_lt_upper_bound; lia). lia. }
  destruct (Hd r Hr) as (R1 & R2 & R3), (Hd g Hg) as (G1 & G2 & G3),
    (Hd b Hb) as (B1 & B2 & B3).
  destruct (hex_digit_value _ R1) as [Xr1 Vr1], (hex_digit_value _ R2) as [Xr2 Vr2].
  destruct (hex_digit_value _ G1) as [Xg1 Vg1], (hex_digit_value _ G2) as [Xg2 Vg2].
  destruct (hex_digit_value _ B1) as [Xb1 Vb1], (hex_digit_value _ B2) as [Xb2 Vb2].
  unfold hex_byte. rewrite !append_cons, !append_nil_l.
  pose proof (hex2rgb_hash6 _ _ _ _ _ _ "" Xr1 Xr2 Xg1 Xg2 Xb1 Xb2 (or_introl eq_refl)) as H.
  unfold hash6 in H. rewrite !append_cons, append_nil_l in H.
  rewrite H, Vr1, Vr2, Vg1, Vg2, Vb1, Vb2, R3, G3, B3. reflexivity.
Qed.

Lemma hex2rgb_reads_back_bytes_witness :
  hex2rgb_.hex2rgb (String "#" (hex_byte 229 ++ hex_byte 192 ++ hex_byte 123))
  = hex2rgb_.Rgb 229 192 123.
Proof. apply (hex2rgb_reads_back_bytes 229 192 123); lia. Defined.

(** * The file of the styled log *)

Lemma endswith_append (stem suffix : string) : Str2.endswith suffix (stem ++ suffix) = true.
Proof.
  induction stem as [|c stem IH].
  - rewrite append_nil_l. destruct suffix; cbn [Str2.endswith];
      now rewrite String.eqb_refl.
  - rewrite append_cons. cbn [Str2.endswith]. rewrite IH. apply orb_true_r.
Qed.

Lemma endswith_split (suffix s : string) :
  Str2.endswith suffix s = true -> exists stem, s = stem ++ suffix.
Proof.
  induction s as [|c s IH]; cbn [Str2.endswith].
  - rewrite orb_false_r. intros H. apply String.eqb_eq in H as ->. now exists "".
  - intros H. apply orb_true_iff in H as [H | H].
    + apply String.eqb_eq in H as ->. now exists "".
    + destruct (IH H) as [stem ->]. now exists (String c stem).
Qed.

Lemma substring_prefix (a b : string) :
  String.substring 0 (String.length a) (a ++ b) = a.
Proof.
  induction a as [|c a IH].
  - cbn [String.length]. rewrite append_nil_l. now destruct b.
  - rewrite append_cons. cbn [String.length String.substring]. now rewrite IH.
Qed.

Lemma drop_last_append (stem suffix : string) :
  Str2.drop_last (String.length suffix) (stem ++ suffix) = stem.
Proof.
  unfold Str2.drop_last. rewrite length_append.
  replace (String.length stem + String.length suffix - String.length suffix)
    with (String.length stem) by lia.
  apply substring_prefix.
Qed.

Lemma insert_before_log_stem (stem : string) :
  AnsiFileMap2.insert_before_log (stem ++ ".log") = stem ++ ".ansi.log".
Proof.
  unfold AnsiFileMap2.insert_before_log. rewrite endswith_append.
  change 4 with (String.length ".log"). now rewrite drop_last_append.
Qed.

(** X10.  [AnsiFileMap.insert_before_log] puts [.ansi]
    before a final [.log] and appends [.ansi.log] to any other path.  For
    this map and for [AnsiFileMap.append_ext] the mapped path is longer than
    the path, hence never the path itself: the handler that keeps the styles
    and the handler that strips them do not share a file.  But
    [insert_before_log] sends a path and the same path with [.log] appended
    to one file. *)
Theorem ansi_file_maps (file_path : string) :
  AnsiFileMap2.insert_before_log (file_path ++ ".log") = file_path ++ ".ansi.log"
  /\ (Str2.endswith ".log" file_path = false ->
      AnsiFileMap2.insert_before_log file_path = file_path ++ ".ansi.log"
      /\ AnsiFileMap2.insert_before_log (file_path ++ ".log")
         = AnsiFileMap2.insert_before_log file_path)
  /\ String.length file_path < String.length (AnsiFileMap2.insert_before_log file_path)
  /\ AnsiFileMap2.insert_before_log file_path <> file_path
  /\ prettier_log.AnsiFileMap.append_ext file_path <> file_path.
Proof.
  split; [apply insert_before_log_stem |].
  assert (Hlen : String.length file_path
                 < String.length (AnsiFileMap2.insert_before_log file_path)).
  { destruct (Str2.endswith ".log" file_path) eqn:He.
    - destruct (endswith_split _ _ He) as [stem ->].
      rewrite insert_before_log_stem, !length_append. cbn [String.length]. lia.
    - unfold AnsiFileMap2.insert_before_log. rewrite He, length_append.
      cbn [String.length]. lia. }
  split; [| split; [exact Hlen | split]].
  - intros He. split.
    + unfold AnsiFileMap2.insert_before_log. now rewrite He.
    + rewrite insert_before_log_stem.
      unfold AnsiFileMap2.insert_before_log. now rewrite He.
  - intros H. rewrite H in Hlen. lia.
  - unfold prettier_log.AnsiFileMap.append_ext. intros H.
    apply (f_equal String.length) in H. rewrite length_append in H.
    cbn [String.length] in H. lia.
Qed.

(** * Delivery of a record *)

Section Delivery.

Lemma call_each_offered (hs : list Handler) (record : LogRecord) (w : world) :
exists record', LoggerLog.call_each hs record w = (Ok record', offered hs record w).
Proof.
revert record w. induction hs as [|h hs IH]; intros record w.
- now exists record.
- cbn [LoggerLog.call_each offered]. unfold takes, bindM, Handler.handle.
  destruct (h_level h <=? r_levelno record)%Z; cbn [andb]; [| apply IH].
  destruct (Handler.filter h record); [| apply IH].
  unfold Handler.emit, Handler.emit_stream, written, passed_on,
    Handler.write_file, Handler.write_stdout, stripped.
  destruct (h_class h), (h_file h); cbn [bindM ret]; unfold bindM, ret; apply IH.
Qed.

(** A logger with a level of its own that does not propagate offers a
  record at or above that level to its handlers, and drops the others. *)
Lemma log_offered (key : string) (lg : Logger) (level : Z) (msg : string)
  (block : option value) (w : world) :
loggers w !! key = Some lg ->
lg_level lg <> NOTSET ->
lg_propagate lg = false ->
LoggerLog.log key level msg block w
= (Ok tt,
   if (lg_level lg <=? level)%Z
   then offered (lg_handlers lg)
          {| r_name := key; r_levelno := level; r_msg := msg; r_block := block |} w
   else w).
Proof.
intros Hlg Hlevel Hprop.
unfold LoggerLog.log, LoggerLog.getEffectiveLevel, LoggerLog.callHandlers,
  Logger.read, bindM, ret.
rewrite Hlg. cbn [default from_option id].
destruct (Z.eqb_spec (lg_level lg) NOTSET) as [E | _]; [contradiction |].
cbn [negb orb].
destruct (lg_level lg <=? level)%Z; [| reflexivity].
rewrite Hlg. cbn [default from_option id].
destruct (call_each_offered (lg_handlers lg)
            {| r_name := key; r_levelno := level; r_msg := msg; r_block := block |} w)
  as [r' ->].
rewrite Hprop. reflexivity.
Qed.

End Delivery.

(** * Handlers of prettier_log.py *)

Section NewHandlers.
Variable style_i : value -> string.
Variable removed_message : list Handler -> string.

(** What [get_logging_handler] builds for a base kind, when it returns. *)
Lemma handler_one_inv (kind : string) (fp : option string) (level : level_arg)
  (mode : string) (w w' : world) (h : Handler) :
prettier_log.get_logging_handler_one style_i kind fp level mode w = (Ok h, w') ->
loggers w' = loggers w /\ stdout w' = stdout w /\ next_id w' = S (next_id w)
/\ h_id h = next_id w
/\ h_filters h = [{| handler_name := Some kind |}]
/\ h_formatter h = Some (bool_decide (kind ∈ ["stdout"; "file-w/-ansi"]))
/\ handler_level kind level = Ok (h_level h)
/\ (if String.eqb kind "stdout"
    then h_class h = StreamHandler /\ h_file h = None
    else h_class h = (if String.eqb kind "file" then CleanAnsiFileHandler
                      else FileHandler)
         /\ h_file h = fp /\ path_missing fp = false).
Proof.
unfold prettier_log.get_logging_handler_one, handler_level.
set (created :=
       if String.eqb kind "stdout" then Handler.new_stream
       else _).
unfold bindM at 1.
destruct (created w) as [[h0 | e] w0] eqn:Hc; [| discriminate].
assert (H0 : loggers w0 = loggers w /\ stdout w0 = stdout w
             /\ next_id w0 = S (next_id w) /\ h_id h0 = next_id w
             /\ h_level h0 = NOTSET /\ h_formatter h0 = None /\ h_filters h0 = []
             /\ (if String.eqb kind "stdout"
                 then h_class h0 = StreamHandler /\ h_file h0 = None
                 else h_class h0 = (if String.eqb kind "file"
                                    then CleanAnsiFileHandler else FileHandler)
                      /\ h_file h0 = fp /\ path_missing fp = false)).
{ subst created. destruct (String.eqb kind "stdout").
  - revert Hc. run_unfold. intros [= <- <-]. repeat split.
  - revert Hc. unfold bindM at 1, assert.
    destruct (bool_decide (kind ∈ ["file"; "file-w/-ansi"])); [| discriminate].
    unfold ret at 1. destruct (path_missing fp) eqn:Hp; [discriminate |].
    destruct fp as [p |]; [| discriminate]. cbn [default from_option id].
    run_unfold.
    repeat match goal with
           | |- context [if ?c then _ else _] => destruct c eqn:?; run_simpl
           end; try discriminate; intros [= <- <-]; repeat split. }
destruct H0 as (Hl & Hs & Hn & Hid & Hlv & Hfm & Hfl & Hcls).
clear Hc created.
assert (Hlevel : forall lv (h1 : Handler) w1 ,
           (let! handler :=
              (if prettier_log.level_truthy lv
               then let! n := lift (prettier_log.set_level_value lv) in
                    ret (Handler.setLevel h0 n)
               else ret h0) in
            ret (Handler.addFilter
                   (Handler.setFormatter handler
                      (bool_decide (kind ∈ ["stdout"; "file-w/-ansi"])))
                   {| handler_name := Some kind |})) w0 = (Ok h1, w1) ->
           w1 = w0
           /\ h_id h1 = h_id h0 /\ h_class h1 = h_class h0 /\ h_file h1 = h_file h0
           /\ h_filters h1 = [{| handler_name := Some kind |}]
           /\ h_formatter h1 = Some (bool_decide (kind ∈ ["stdout"; "file-w/-ansi"]))
           /\ (if prettier_log.level_truthy lv then prettier_log.set_level_value lv
               else Ok NOTSET) = Ok (h_level h1)).
{ intros lv h1 w1. unfold bindM, ret, lift.
  destruct (prettier_log.level_truthy lv).
  - destruct (prettier_log.set_level_value lv) as [n | e]; unfold ret, raise;
      [| discriminate].
    intros [= <- <-]. cbn. rewrite Hfl. repeat split.
  - intros [= <- <-]. cbn. rewrite Hfl, Hlv. repeat split. }
intros H.
assert (exists lv, (match level with
                    | LvDict d =>
                        let* l := prettier_log.level_lookup
                                    (if String.eqb kind "stdout" then "stdout"
                                     else "file") d in
                        Ok (Lv l)
                    | _ => Ok level
                    end) = Ok lv
                   /\ (let! handler :=
                         (if prettier_log.level_truthy lv
                          then let! n := lift (prettier_log.set_level_value lv) in
                               ret (Handler.setLevel h0 n)
                          else ret h0) in
                       ret (Handler.addFilter
                              (Handler.setFormatter handler
                                 (bool_decide (kind ∈ ["stdout"; "file-w/-ansi"])))
                              {| handler_name := Some kind |})) w0 = (Ok h, w'))
  as (lv & Elv & Hrun).
{ revert H. unfold bindM at 1.
  destruct level as [| l | d].
  - unfold ret at 1. intros H. now exists LvNone.
  - unfold ret at 1. intros H. now exists (Lv l).
  - unfold bindM at 1, lift.
    destruct (prettier_log.level_lookup _ d) as [l | e]; unfold ret, raise;
      [| discriminate].
    intros H. exists (Lv l). split; [reflexivity | exact H]. }
apply Hlevel in Hrun as (-> & Hid1 & Hcls1 & Hfile1 & Hf1 & Hfm1 & Hlv1).
rewrite Elv. cbn [bind].
rewrite Hid1, Hcls1, Hfile1.
repeat (split; [assumption |]). exact Hcls.
Qed.

End NewHandlers.

(** * Loggers of prettier_log.py *)

Section NewLoggers.
Variable style_i : value -> string.
Variable removed_message : list Handler -> string.

(** A handler is determined by its fields. *)
Lemma handler_eta (h : Handler) :
h = {| h_id := h_id h; h_class := h_class h; h_file := h_file h;
       h_level := h_level h; h_formatter := h_formatter h;
       h_filters := h_filters h |}.
Proof. now destruct h. Qed.

Lemma stdout_handler_inv (fp : option string) (level : level_arg) (mode : string)
  (w w' : world) (h : Handler) :
prettier_log.get_logging_handler_one style_i "stdout" fp level mode w = (Ok h, w') ->
exists a, handler_level "stdout" level = Ok a
          /\ h = stdout_handler (next_id w) a
          /\ loggers w' = loggers w /\ stdout w' = stdout w
          /\ next_id w' = S (next_id w).
Proof.
intros H. apply handler_one_inv in H
  as (Hl & Hs & Hn & Hid & Hf & Hfm & Hlv & Hc & Hfile).
exists (h_level h). split; [exact Hlv |]. split; [| auto].
rewrite (handler_eta h), Hid, Hf, Hfm, Hc, Hfile. reflexivity.
Qed.

Lemma file_handler_inv (path : string) (level : level_arg) (mode : string)
  (w w' : world) (h : Handler) :
prettier_log.get_logging_handler_one style_i "file" (Some path) level mode w
= (Ok h, w') ->
exists b, handler_level "file" level = Ok b
          /\ h = file_handler (next_id w) b path
          /\ loggers w' = loggers w /\ stdout w' = stdout w
          /\ next_id w' = S (next_id w).
Proof.
intros H. apply handler_one_inv in H
  as (Hl & Hs & Hn & Hid & Hf & Hfm & Hlv & Hc & Hfile & _).
exists (h_level h). split; [exact Hlv |]. split; [| auto].
rewrite (handler_eta h), Hid, Hf, Hfm, Hc, Hfile. reflexivity.
Qed.

Lemma ansi_handler_inv (path : string) (level : level_arg) (mode : string)
  (w w' : world) (h : Handler) :
prettier_log.get_logging_handler_one style_i "file-w/-ansi" (Some path) level mode w
= (Ok h, w') ->
exists c, handler_level "file-w/-ansi" level = Ok c
          /\ h = ansi_file_handler (next_id w) c path
          /\ loggers w' = loggers w /\ stdout w' = stdout w
          /\ next_id w' = S (next_id w).
Proof.
intros H. apply handler_one_inv in H
  as (Hl & Hs & Hn & Hid & Hf & Hfm & Hlv & Hc & Hfile & _).
exists (h_level h). split; [exact Hlv |]. split; [| auto].
rewrite (handler_eta h), Hid, Hf, Hfm, Hc, Hfile. reflexivity.
Qed.


Lemma handlers_both_ansi_inv (path : string) (level : level_arg) (w w' : world)
  (r : handler_or_list) :
prettier_log.get_logging_handler style_i "both+ansi" (Some path) level "a"
  (Some prettier_log.AnsiFileMap.append_ext) w = (Ok r, w') ->
exists a b c,
  handler_level "stdout" level = Ok a /\ handler_level "file" level = Ok b
  /\ handler_level "file-w/-ansi" level = Ok c
  /\ r = Many [stdout_handler (S (next_id w)) a;
               ansi_file_handler (S (S (next_id w))) c (path ++ ".ansi");
               file_handler (next_id w) b path]
  /\ loggers w' = loggers w /\ stdout w' = stdout w.
Proof.
unfold prettier_log.get_logging_handler.
change (bool_decide ("both+ansi" ∈ ["both"; "both+ansi"; "file+ansi"])) with true.
change (bool_decide ("both+ansi" ∈ ["both"; "both+ansi"])) with true.
change (bool_decide ("both+ansi" ∈ ["both+ansi"; "file+ansi"])) with true.
change (String.eqb "both+ansi" "both") with false.
change (String.eqb "both+ansi" "both+ansi") with true. cbv iota.
unfold bindM at 1.
destruct (prettier_log.get_logging_handler_one style_i "file" (Some path) level "a" w)
  as [[fl | e] w0] eqn:Hfl; [| discriminate].
apply file_handler_inv in Hfl as (b & Hb & -> & Hl0 & Hs0 & Hn0).
unfold bindM at 1. unfold bindM at 1.
destruct (prettier_log.get_logging_handler_one style_i "stdout" None level "a" w0)
  as [[std | e] w1] eqn:Hstd; [| discriminate].
apply stdout_handler_inv in Hstd as (a & Ha & -> & Hl1 & Hs1 & Hn1).
unfold ret at 1. unfold bindM at 1. unfold bindM at 1.
cbn [default from_option id]. unfold prettier_log.AnsiFileMap.append_ext.
destruct (prettier_log.get_logging_handler_one style_i "file-w/-ansi"
            (Some (path ++ ".ansi")) level "a" w1)
  as [[fa | e] w2] eqn:Hfa; [| discriminate].
apply ansi_handler_inv in Hfa as (c & Hc & -> & Hl2 & Hs2 & Hn2).
unfold ret. cbn [option_list app].
intros [= <- <-]. exists a, b, c. rewrite Hn1, Hn0.
repeat split; auto; congruence.
Qed.

(** Handlers with fresh identities are attached one after the other. *)
Lemma addHandler_all (key : string) (hs hs0 : list Handler) (lg : Logger) (w : world) :
loggers w !! key = Some lg ->
lg_handlers lg = hs0 ->
NoDup (map h_id (hs0 ++ hs)) ->
forM (fun handler => Logger.addHandler key handler) hs w
= (Ok tt,
   World (<[key := {| lg_handlers := (hs0 ++ hs)%list; lg_level := lg_level lg;
                      lg_propagate := lg_propagate lg |}]> (loggers w))
     (dirs w) (files w) (stdout w) (next_id w)).
Proof.
revert hs0 lg w. induction hs as [|h hs IH]; intros hs0 lg w Hlg Hhs Hnd.
- cbn [forM]. unfold ret. rewrite app_nil_r, <- Hhs.
  replace {| lg_handlers := lg_handlers lg; lg_level := lg_level lg;
             lg_propagate := lg_propagate lg |} with lg by now destruct lg.
  rewrite (insert_id (loggers w) key lg Hlg). now destruct w.
- cbn [forM]. unfold bindM at 1.
  unfold Logger.addHandler at 1, Logger.update. rewrite Hlg.
  cbn [default from_option id].
  assert (Hnew : Logger.has_handler (lg_handlers lg) h = false).
  { rewrite Hhs. unfold Logger.has_handler.
    apply not_true_is_false. intros Hex. apply existsb_exists in Hex as (h' & Hin & He).
    apply Nat.eqb_eq in He.
    rewrite map_app in Hnd. apply NoDup_app in Hnd as (_ & Hdis & _).
    apply (Hdis (h_id h')).
    - apply list_elem_of_In, in_map, Hin.
    - rewrite He. cbn [map]. left. }
  rewrite Hnew.
  erewrite (IH (hs0 ++ [h])%list); cycle 1.
  + cbn [loggers]. apply lookup_insert_eq.
  + cbn [lg_handlers]. now rewrite Hhs.
  + now rewrite <- app_assoc.
  + cbn [loggers dirs files stdout next_id lg_level lg_propagate].
    rewrite insert_insert_eq, <- app_assoc. reflexivity.
Qed.

(** [add_log_handler] on a logger that has no handler yet. *)
Lemma add_log_handler_on_empty (key kind : string) (fp : option string)
  (hl : level_arg) (lg : Logger) (r : handler_or_list) (w w0 : world) :
loggers w !! key = Some lg ->
lg_handlers lg = [] ->
prettier_log.get_logging_handler style_i kind fp hl "a"
  (Some prettier_log.AnsiFileMap.append_ext) w = (Ok r, w0) ->
loggers w0 = loggers w ->
NoDup (map h_id (as_list r)) ->
prettier_log.add_log_handler style_i removed_message key hl fp kind true w
= (Ok key,
   World (<[key := {| lg_handlers := as_list r; lg_level := lg_level lg;
                      lg_propagate := lg_propagate lg |}]> (loggers w0))
     (dirs w0) (files w0) (stdout w0) (next_id w0)).
Proof.
intros Hlg Hempty Hget Hl Hnd.
unfold prettier_log.add_log_handler. unfold bindM at 1. rewrite Hget.
unfold bindM at 1. unfold bindM at 1.
unfold prettier_log.drop_file_handler. unfold bindM at 1.
unfold Logger.read at 1. rewrite Hl, Hlg. cbn [default from_option id].
rewrite Hempty. cbn [length prettier_log.drop_loop].
unfold bindM at 1. unfold ret at 1. cbn [length Nat.ltb Nat.leb].
unfold bindM at 1. unfold ret at 1. unfold ret at 1. unfold ret at 1.
unfold bindM.
rewrite (addHandler_all key (as_list r) [] lg w0);
  [rewrite Hl; reflexivity | | exact Hempty | exact Hnd].
now rewrite Hl.
Qed.

End NewLoggers.

Section NewLoggerRuns.
Variable style_i : value -> string.
Variable removed_message : list Handler -> string.

(** The logger as [get_logger] finds it once its handlers are cleared. *)
Lemma cleared_logger (key : string) (w : world) :
exists lg,
  (let! logger := Logger.getLogger key in
   let! _ := Logger.set_handlers logger [] in
   ret logger) w
  = (Ok (Logger.key_of key),
     World (<[Logger.key_of key := lg]> (loggers w)) (dirs w) (files w) (stdout w)
       (next_id w))
  /\ lg_handlers lg = [].
Proof.
run_unfold.
destruct (loggers w !! Logger.key_of key) as [lg0 |] eqn:E; run_simpl.
- rewrite E. run_simpl. eexists. split; [reflexivity | reflexivity].
- rewrite lookup_insert_eq. run_simpl. rewrite insert_insert_eq.
  eexists. split; [reflexivity | reflexivity].
Qed.

(** The end of [get_logger], once the level [n] of the logger and the
  levels [hl] handed on to the handlers are known: the handlers that
  [get_logging_handler] returns are attached to the cleared logger. *)
Lemma logger_tail_inv (key kind path : string) (n : Z) (hl : level_arg)
  (P : handler_or_list -> nat -> Prop) (w0 w1 : world) (lg : string) (lg0 : Logger) :
loggers w0 !! key = Some lg0 ->
lg_handlers lg0 = [] ->
(forall w r w',
    prettier_log.get_logging_handler style_i kind (Some path) hl "a"
      (Some prettier_log.AnsiFileMap.append_ext) w = (Ok r, w') ->
    loggers w' = loggers w /\ NoDup (map h_id (as_list r)) /\ P r (next_id w)) ->
(let! _ := Logger.setLevel key n in
 let! _ := prettier_log.add_log_handler style_i removed_message key hl
             (Some path) kind true in
 let! _ := Logger.set_propagate key false in
 ret key) w0 = (Ok lg, w1) ->
lg = key
/\ exists r,
     P r (next_id w0)
     /\ loggers w1 !! key
        = Some {| lg_handlers := as_list r; lg_level := n; lg_propagate := false |}.
Proof.
intros Hlg0 Hempty Hkind.
unfold bindM at 1. unfold Logger.setLevel at 1, Logger.update. rewrite Hlg0.
cbn [default from_option id]. rewrite Hempty.
set (wa := World _ _ _ _ _).
unfold bindM at 1.
destruct (prettier_log.get_logging_handler style_i kind (Some path) hl "a"
            (Some prettier_log.AnsiFileMap.append_ext) wa) as [[r | e] w'] eqn:Hget.
- destruct (Hkind _ _ _ Hget) as (Hl & Hnd & HP).
  rewrite (add_log_handler_on_empty style_i removed_message key kind (Some path) hl
             {| lg_handlers := []; lg_level := n; lg_propagate := lg_propagate lg0 |}
             r wa w' (lookup_insert_eq _ _ _) eq_refl Hget Hl Hnd).
  unfold bindM at 1. unfold Logger.set_propagate, Logger.update.
  cbn [loggers dirs files stdout next_id]. rewrite lookup_insert_eq.
  cbn [default from_option id lg_handlers lg_level lg_propagate].
  unfold ret. rewrite insert_insert_eq. intros [= <- <-].
  split; [reflexivity |]. exists r. split; [exact HP |].
  cbn [loggers]. now rewrite lookup_insert_eq.
- unfold prettier_log.add_log_handler. unfold bindM at 1. rewrite Hget.
  discriminate.
Qed.

(** [getLogger] followed by the clearing of the handlers. *)
Lemma get_logger_split (nm : string) (K : string -> M string) (w : world) :
exists lg0,
  lg_handlers lg0 = []
  /\ (let! logger := Logger.getLogger nm in
      let! _ := Logger.set_handlers logger [] in
      K logger) w
     = K (Logger.key_of nm)
         (World (<[Logger.key_of nm := lg0]> (loggers w)) (dirs w) (files w)
            (stdout w) (next_id w)).
Proof.
run_unfold.
destruct (loggers w !! Logger.key_of nm) as [lg0 |] eqn:E; run_simpl.
- rewrite E. run_simpl. eexists. split; [| reflexivity]. reflexivity.
- rewrite lookup_insert_eq. run_simpl. rewrite insert_insert_eq.
  eexists. split; [| reflexivity]. reflexivity.
Qed.

(** [get_logger] at one level for the logger: the handlers get no level
  of their own. *)
Lemma get_logger_one_level_inv (name kind path : string) (l : log_level) (n : Z)
  (P : handler_or_list -> nat -> Prop) (w w1 : world) (lg : string) :
bool_decide (kind ∈ ["stdout"; "file-write"; "both"; "both+ansi"]) = true ->
String.eqb kind "file-write" = false ->
prettier_log._level2int_level l = Ok n ->
(forall w r w',
    prettier_log.get_logging_handler style_i kind (Some path) LvNone "a"
      (Some prettier_log.AnsiFileMap.append_ext) w = (Ok r, w') ->
    loggers w' = loggers w /\ NoDup (map h_id (as_list r)) /\ P r (next_id w)) ->
prettier_log.get_logger style_i removed_message name kind (Lv l) (Some path) w
= (Ok lg, w1) ->
lg = Logger.key_of name
/\ exists r,
     P r (next_id w)
     /\ loggers w1 !! lg
        = Some {| lg_handlers := as_list r; lg_level := n; lg_propagate := false |}.
Proof.
intros Hkind Hfw Hn HP. unfold prettier_log.get_logger.
rewrite Hkind, Hfw. unfold assert at 1. unfold bindM at 1. unfold ret at 1.
destruct (get_logger_split name
            (fun logger =>
               let! (level, need_detailed_filtering) := ret (Lv l, false) in
               let! min_level :=
                 (if need_detailed_filtering
                  then match level with
                       | LvDict d =>
                           let! _ := assert (bool_decide
                                               (list_to_set (map fst d)
                                                =@{gset string} {["stdout"; "file"]})) in
                           let! n := lift (prettier_log.min_level_of d) in
                           ret (Lv (LInt n))
                       | _ => ret level
                       end
                  else ret level) in
               let! n := lift (prettier_log.set_level_value min_level) in
               let! _ := Logger.setLevel logger n in
               let! _ := prettier_log.add_log_handler style_i removed_message logger
                           (if need_detailed_filtering then level else LvNone)
                           (Some path) kind true in
               let! _ := Logger.set_propagate logger false in
               ret logger) w) as (lg0 & Hempty & ->).
unfold bindM at 1. unfold ret at 1. unfold bindM at 1. unfold ret at 1.
unfold bindM at 1. cbn [prettier_log.set_level_value]. rewrite Hn.
unfold lift, ret at 1.
intros H.
destruct (logger_tail_inv (Logger.key_of name) kind path n LvNone P _ w1 lg lg0
            (lookup_insert_eq _ _ _) Hempty HP H) as (-> & r & Hr & Hlg).
split; [reflexivity |]. exists r. split; [exact Hr | exact Hlg].
Qed.


End NewLoggerRuns.

(** * Levels and markers on the loggers of prettier_log.py *)





Lemma handler_level_none (kind : string) (a : Z) :
  handler_level kind LvNone = Ok a -> a = NOTSET.
Proof. cbv. congruence. Qed.

(** X12.  prettier_log.py: a logger that [get_logger] builds with
    kind ['both+ansi'] writes a record without a marker to the console and to
    the styled file ([file_path] followed by [.ansi]) as it was logged, and to
    the plain file stripped of escape sequences.  The marker [block='file']
    keeps the record out of the plain file only: the styled file still
    receives it, since its handler's filter is named ['file-w/-ansi'].  The
    marker [block='stdout'] keeps the record off the console, and both files
    receive it. *)
Theorem both_ansi_sinks_and_markers
    (style_i : value -> string) (removed_message : list Handler -> string)
    (name path msg lg : string) (l : log_level) (n : Z) (w w1 : world) :
  prettier_log._level2int_level l = Ok n ->
  (0 < n <= INFO)%Z ->
  prettier_log.get_logger style_i removed_message name "both+ansi" (Lv l) (Some path) w
  = (Ok lg, w1) ->
  LoggerLog.info lg msg None w1
  = (Ok tt,
     file_appended path (file_entry (plain_record lg INFO msg))
       (file_appended (path ++ ".ansi") (ansi_entry (plain_record lg INFO msg))
          (console_appended (console_entry (plain_record lg INFO msg)) w1)))
  /\ LoggerLog.info lg msg (Some (VAtom (AStr "file"))) w1
     = (Ok tt,
        file_appended (path ++ ".ansi") (ansi_entry (info_record lg msg "file"))
          (console_appended (console_entry (info_record lg msg "file")) w1))
  /\ LoggerLog.info lg msg (Some (VAtom (AStr "stdout"))) w1
     = (Ok tt,
        file_appended path (file_entry (info_record lg msg "stdout"))
          (file_appended (path ++ ".ansi") (ansi_entry (info_record lg msg "stdout")) w1)).
Proof.
  intros Hn Hrange H.
  apply (get_logger_one_level_inv style_i removed_message name "both+ansi" path l n
           (fun r i =>
              r = Many [stdout_handler (S i) NOTSET;
                        ansi_file_handler (S (S i)) NOTSET (path ++ ".ansi");
                        file_handler i NOTSET path]))
    in H as (-> & r & -> & Hlg); try reflexivity; try assumption.
  - unfold LoggerLog.info.
    rewrite !(log_offered _ _ _ _ _ _ Hlg);
      cbn [lg_level lg_propagate lg_handlers as_list];
      try reflexivity; try (unfold NOTSET; lia).
    destruct (Z.leb_spec n INFO); [| lia].
    repeat split.
  - intros w0 r w' Hget. apply handlers_both_ansi_inv in Hget
      as (a & b & c & Ha & Hb & Hc & -> & Hl & _).
    apply handler_level_none in Ha, Hb, Hc. subst a b c.
    split; [exact Hl |]. split; [| reflexivity].
    cbn [as_list map stdout_handler file_handler ansi_file_handler h_id].
    apply NoDup_cons_2;
      [intros Hin; apply elem_of_cons in Hin as [Hin | Hin];
       [lia | apply list_elem_of_singleton in Hin; lia] |].
    apply NoDup_cons_2; [rewrite list_elem_of_singleton; lia | apply NoDup_singleton].
Qed.

Lemma both_ansi_sinks_and_markers_witness :
  let w1 := snd (prettier_log.get_logger (fun _ => "") (fun _ => "") "run" "both+ansi"
                   (Lv (LStr "debug")) (Some "logs/run.log") empty_world) in
  LoggerLog.info "run" "step" None w1
  = (Ok tt,
     file_appended "logs/run.log" (file_entry (plain_record "run" INFO "step"))
       (file_appended ("logs/run.log" ++ ".ansi") (ansi_entry (plain_record "run" INFO "step"))
          (console_appended (console_entry (plain_record "run" INFO "step")) w1)))
  /\ LoggerLog.info "run" "step" (Some (VAtom (AStr "file"))) w1
     = (Ok tt,
        file_appended ("logs/run.log" ++ ".ansi") (ansi_entry (info_record "run" "step" "file"))
          (console_appended (console_entry (info_record "run" "step" "file")) w1))
  /\ LoggerLog.info "run" "step" (Some (VAtom (AStr "stdout"))) w1
     = (Ok tt,
        file_appended "logs/run.log" (file_entry (info_record "run" "step" "stdout"))
          (file_appended ("logs/run.log" ++ ".ansi")
             (ansi_entry (info_record "run" "step" "stdout")) w1)).
Proof.
  apply (both_ansi_sinks_and_markers (fun _ => "") (fun _ => "") "run" "logs/run.log"
           "step" "run" (LStr "debug") DEBUG empty_world).
  - vm_compute. reflexivity.
  - unfold DEBUG, INFO. lia.
  - vm_compute. reflexivity.
Defined.

(** * Dropping file handlers *)

Lemma offered_loggers (hs : list Handler) (record : LogRecord) (w : world) :
  loggers (offered hs record w) = loggers w.
Proof.
  revert record w. induction hs as [|h hs IH]; intros record w; [reflexivity |].
  cbn [offered]. destruct (takes h record); [| apply IH].
  rewrite IH. unfold written. now destruct (h_file h).
Qed.

Lemma callHandlers_keeps_loggers (key : string) (record : LogRecord) (w : world) :
  exists w', LoggerLog.callHandlers key record w = (Ok tt, w')
             /\ loggers w' = loggers w.
Proof.
  unfold LoggerLog.callHandlers. unfold bindM at 1, Logger.read at 1, ret at 1.
  set (lg := default (Logger.fresh key) (loggers w !! key)).
  unfold bindM at 1.
  destruct (call_each_offered (lg_handlers lg) record w) as [r1 ->].
  cbv beta iota.
  destruct (lg_propagate lg && negb (String.eqb key "root")).
  - unfold bindM at 1. unfold Logger.read at 1. cbv beta iota. unfold bindM at 1.
    destruct (call_each_offered
                (lg_handlers (default (Logger.fresh "root")
                                (loggers (offered (lg_handlers lg) record w) !! "root")))
                r1 (offered (lg_handlers lg) record w)) as [r2 ->].
    unfold ret. eexists. split; [reflexivity |]. now rewrite !offered_loggers.
  - unfold ret. eexists. split; [reflexivity |]. now rewrite offered_loggers.
Qed.

(** Logging returns and leaves the loggers as they are. *)
Lemma log_keeps_loggers (key : string) (level : Z) (msg : string)
    (block : option value) (w : world) :
  exists w', LoggerLog.log key level msg block w = (Ok tt, w')
             /\ loggers w' = loggers w.
Proof.
  unfold LoggerLog.log. unfold bindM at 1.
  assert (Heff : exists eff, LoggerLog.getEffectiveLevel key w = (Ok eff, w)).
  { unfold LoggerLog.getEffectiveLevel, bindM, Logger.read, ret.
    destruct (negb _ || _); eauto. }
  destruct Heff as [eff ->].
  destruct (eff <=? level)%Z; [apply callHandlers_keeps_loggers | now exists w].
Qed.

Lemma remove_first_at (h : Handler) (pre rest : list Handler) :
  h_id h ∉ map h_id pre ->
  Logger.remove_first h (pre ++ h :: rest) = (pre ++ rest)%list.
Proof.
  induction pre as [|p pre IH]; intros Hnot.
  - cbn [app Logger.remove_first]. now rewrite Nat.eqb_refl.
  - cbn [app Logger.remove_first map] in *.
    apply not_elem_of_cons in Hnot as [Hne Hnot].
    destruct (Nat.eqb_spec (h_id p) (h_id h)); [congruence |].
    now rewrite IH.
Qed.

(** The loop, from position [length pre] on. *)
Lemma drop_loop_kept (key : string) (lg : Logger) (steps : nat) :
  forall (pre suf rmv : list Handler) (w : world),
    loggers w !! key = Some (with_handlers lg (pre ++ suf)) ->
    NoDup (map h_id (pre ++ suf)) ->
    length suf <= steps ->
    exists rmv',
      prettier_log.drop_loop key steps (length pre) rmv w
      = (Ok (rmv ++ rmv')%list,
         World (<[key := with_handlers lg (pre ++ kept suf)]> (loggers w))
           (dirs w) (files w) (stdout w) (next_id w))
      /\ (rmv' = [] <-> forallb (fun h => negb (is_file h)) suf = true).
Proof.
  induction steps as [steps IH] using lt_wf_ind.
  intros pre suf rmv w Hlg Hnd Hlen.
  assert (Hsame : forall l, loggers w !! key = Some (with_handlers lg l) ->
                            World (<[key := with_handlers lg l]> (loggers w))
                              (dirs w) (files w) (stdout w) (next_id w) = w).
  { intros l Hl. rewrite (insert_id _ _ _ Hl). now destruct w. }
  destruct suf as [|h rest].
  - exists []. rewrite !app_nil_r in *. cbn [kept]. rewrite ?app_nil_r.
    split; [| easy]. rewrite (Hsame _ Hlg).
    destruct steps as [|s]; [reflexivity |].
    cbn [prettier_log.drop_loop]. unfold bindM, Logger.read, ret. rewrite Hlg.
    cbn [default from_option id with_handlers lg_handlers].
    now rewrite lookup_ge_None_2 by lia.
  - destruct steps as [|s]; [cbn [length] in Hlen; lia |].
    cbn [prettier_log.drop_loop]. unfold bindM at 1, Logger.read at 1, ret at 1.
    rewrite Hlg. cbn [default from_option id with_handlers lg_handlers].
    rewrite lookup_app_r by lia. rewrite Nat.sub_diag. cbn [lookup list_lookup].
    fold (is_file h). cbn [kept]. destruct (is_file h) eqn:Hfile.
    + unfold bindM at 1. unfold Logger.removeHandler, Logger.update. rewrite Hlg.
      cbn [default from_option id with_handlers lg_handlers lg_level lg_propagate].
      rewrite remove_first_at; cycle 1.
      { rewrite map_app in Hnd. apply NoDup_app in Hnd as (_ & Hdis & _).
        intros Hin. apply (Hdis _ Hin). cbn [map]. left. }
      fold (with_handlers lg (pre ++ rest)).
      set (w1 := World _ _ _ _ _).
      assert (Hnd' : NoDup (map h_id (pre ++ rest))).
      { rewrite map_app in *. apply NoDup_app in Hnd as (Hp & Hdis & Hr).
        apply NoDup_app. split; [exact Hp |]. cbn [map] in *.
        apply NoDup_cons in Hr as [_ Hr]. split; [| exact Hr].
        intros x Hx Hx'. apply (Hdis x Hx). now right. }
      destruct rest as [|h' rest'].
      * subst w1. rewrite !app_nil_r in *.
        exists [h]. split; [| split; [discriminate | cbn [forallb]; rewrite Hfile; discriminate]].
        destruct s as [|s]; [reflexivity |].
        cbn [prettier_log.drop_loop]. unfold bindM, Logger.read, ret.
        cbn [loggers]. rewrite lookup_insert_eq.
        cbn [default from_option id with_handlers lg_handlers].
        now rewrite lookup_ge_None_2 by (cbn [length]; lia).
      * destruct (IH s ltac:(lia) (pre ++ [h'])%list rest' (rmv ++ [h])%list w1)
          as (rmv' & Hrun & _).
        -- subst w1. cbn [loggers]. rewrite lookup_insert_eq. now rewrite <- app_assoc.
        -- now rewrite <- app_assoc.
        -- cbn [length] in Hlen. lia.
        -- exists (h :: rmv'). split;
             [| split; [discriminate | cbn [forallb]; rewrite Hfile; discriminate]].
           rewrite length_app in Hrun. cbn [length] in Hrun.
           rewrite Nat.add_1_r in Hrun. rewrite Hrun.
           subst w1. cbn [loggers dirs files stdout next_id].
           rewrite insert_insert_eq, <- !app_assoc. reflexivity.
    + destruct (IH s ltac:(lia) (pre ++ [h])%list rest rmv w) as (rmv' & Hrun & Hiff).
      * now rewrite <- app_assoc.
      * now rewrite <- app_assoc.
      * cbn [length] in Hlen. lia.
      * exists rmv'. split.
        -- rewrite length_app in Hrun. cbn [length] in Hrun.
           rewrite Nat.add_1_r in Hrun. rewrite Hrun.
           rewrite <- !app_assoc. reflexivity.
        -- cbn [forallb]. rewrite Hfile. exact Hiff.
Qed.

Lemma kept_files_apart (hs : list Handler) :
  files_apart hs = true -> kept hs = List.filter (fun h => negb (is_file h)) hs.
Proof.
  induction hs as [|h rest IH]; [reflexivity |].
  cbn [files_apart kept List.filter].
  destruct rest as [|h' rest'].
  - intros _. destruct (is_file h); reflexivity.
  - intros H. apply andb_true_iff in H as [Hadj Hrest].
    specialize (IH Hrest).
    destruct (is_file h) eqn:Hh; cbn [negb].
    + cbn [andb] in Hadj. apply negb_true_iff in Hadj.
      cbn [kept List.filter] in IH. rewrite Hadj in IH. cbn [negb] in IH.
      cbn [List.filter]. rewrite Hadj. cbn [negb]. f_equal.
      destruct rest' as [|h'' rest'']; [reflexivity |].
      now injection IH.
    + now rewrite IH.
Qed.

(** X13.  prettier_log.py: [drop_file_handler] walks the
    list of handlers while it removes from it, so the handler that follows a
    removed file handler is passed over.  The call returns, with every file
    handler removed when no two file handlers are next to each other; of two
    file handlers next to each other the second stays attached, as the plain
    file handler does among the three handlers of kind ['both+ansi']. *)
Theorem drop_file_handler_passes_over
    (removed_message : list Handler -> string)
    (key : string) (lg : Logger) (w : world) :
  loggers w !! key = Some lg ->
  NoDup (map h_id (lg_handlers lg)) ->
  (exists w',
      prettier_log.drop_file_handler removed_message key w = (Ok key, w')
      /\ loggers w' = <[key := with_handlers lg (kept (lg_handlers lg))]> (loggers w))
  /\ (files_apart (lg_handlers lg) = true ->
      kept (lg_handlers lg) = List.filter (fun h => negb (is_file h)) (lg_handlers lg))
  /\ (forall n1 n2 n3 a b c p,
         lg_handlers lg = [stdout_handler n1 a; ansi_file_handler n2 b (p ++ ".ansi");
                           file_handler n3 c p] ->
         kept (lg_handlers lg) = [stdout_handler n1 a; file_handler n3 c p]).
Proof.
  intros Hlg Hnd. split; [| split].
  - unfold prettier_log.drop_file_handler. unfold bindM at 1, Logger.read at 1, ret at 1.
    rewrite Hlg. cbn [default from_option id].
    destruct (drop_loop_kept key lg (length (lg_handlers lg)) [] (lg_handlers lg) [] w)
      as (rmv & Hrun & _); [| exact Hnd | lia |].
    { rewrite Hlg. f_equal. now destruct lg. }
    cbn [length app] in Hrun. unfold bindM at 1. rewrite Hrun.
    unfold bindM at 1.
    destruct (0 <? length rmv)%nat.
    + unfold LoggerLog.info.
      destruct (log_keeps_loggers key INFO (removed_message rmv) None
                  (World (<[key := with_handlers lg (kept (lg_handlers lg))]> (loggers w))
                     (dirs w) (files w) (stdout w) (next_id w))) as (w' & -> & Hl).
      exists w'. split; [reflexivity | exact Hl].
    + eexists. split; [reflexivity | reflexivity].
  - apply kept_files_apart.
  - intros n1 n2 n3 a b c p ->. reflexivity.
Qed.

Lemma drop_file_handler_passes_over_witness :
  let lg := {| lg_handlers := [stdout_handler 1 NOTSET;
                               ansi_file_handler 2 NOTSET ("run.log" ++ ".ansi");
                               file_handler 0 NOTSET "run.log"];
               lg_level := DEBUG; lg_propagate := false |} in
  let w := World {["run" := lg]} ∅ ∅ [] 3 in
  (exists w',
      prettier_log.drop_file_handler (fun _ => "") "run" w = (Ok "run", w')
      /\ loggers w' = <["run" := with_handlers lg (kept (lg_handlers lg))]> (loggers w))
  /\ (files_apart (lg_handlers lg) = true ->
      kept (lg_handlers lg) = List.filter (fun h => negb (is_file h)) (lg_handlers lg))
  /\ (forall n1 n2 n3 a b c p,
         lg_handlers lg = [stdout_handler n1 a; ansi_file_handler n2 b (p ++ ".ansi");
                           file_handler n3 c p] ->
         kept (lg_handlers lg) = [stdout_handler n1 a; file_handler n3 c p]).
Proof.
  apply (drop_file_handler_passes_over (fun _ => "") "run"
           {| lg_handlers := [stdout_handler 1 NOTSET;
                              ansi_file_handler 2 NOTSET ("run.log" ++ ".ansi");
                              file_handler 0 NOTSET "run.log"];
              lg_level := DEBUG; lg_propagate := false |}
           (World {["run" := {| lg_handlers := [stdout_handler 1 NOTSET;
                                                ansi_file_handler 2 NOTSET ("run.log" ++ ".ansi");
                                                file_handler 0 NOTSET "run.log"];
                                lg_level := DEBUG; lg_propagate := false |}]} ∅ ∅ [] 3)).
  - apply lookup_singleton_eq.
  - apply (bool_decide_unpack _). vm_compute. exact I.
Defined.

(** * The kinds of logger that write to a file only *)

Lemma never_returns_bind {A B} (m : M A) (k : A -> M B) :
  (forall a, never_returns (k a)) -> never_returns (bindM m k).
Proof.
  intros Hk w. unfold bindM. destruct (m w) as [[a | e] w0]; [apply Hk | eauto].
Qed.

Lemma never_returns_bind_l {A B} (m : M A) (k : A -> M B) :
  never_returns m -> never_returns (bindM m k).
Proof.
  intros Hm w. unfold bindM. destruct (Hm w) as (e & w' & ->). eauto.
Qed.

Section FileKinds.
Variable style_i : value -> string.
Variable removed_message : list Handler -> string.

Lemma add_log_handler_file_write (key : string) (hl : level_arg) (fp : option string)
  (drop : bool) (w : world) :
prettier_log.add_log_handler style_i removed_message key hl fp "file-write" drop w
= (Raise AssertionError, w).
Proof. reflexivity. Qed.

Lemma old_file_write_handler_inv (path : string) (w w' : world) (h : Handler) :
prettier.get_logging_handler_one "file-write" (Some path) w = (Ok h, w') ->
h = file_write_handler (next_id w) path
/\ loggers w' = loggers w /\ stdout w' = stdout w.
Proof.
unfold prettier.get_logging_handler_one.
change (String.eqb "file-write" "stdout") with false. cbv iota.
unfold prettier.missing_path_message.
invert_run; intros [= <- <-]; run_simpl; (split; [reflexivity | split; reflexivity]).
Qed.

(** X14.  prettier.py: [get_logger] refuses the kind
  ['file'] with an [AssertionError] and changes nothing.  The kind it
  accepts for a logger that writes to a file only is ['file-write']: when
  the call returns, the logger has one handler, which strips escape
  sequences and whose filter is named ['file-write'], so that a record
  marked [block='file'] is not held back: it is written to the file. *)
Theorem old_get_logger_file_kinds (name path msg : string) (file_path : option string)
  (w w1 : world) (lg : string) :
prettier.get_logger name "file-write" (Some path) w = (Ok lg, w1) ->
prettier.get_logger name "file" file_path w = (Raise AssertionError, w)
/\ lg = Logger.key_of name
/\ loggers w1 !! lg
   = Some {| lg_handlers := [file_write_handler (next_id w) path];
             lg_level := DEBUG; lg_propagate := false |}
/\ LoggerLog.info lg msg (Some (VAtom (AStr "file"))) w1
   = (Ok tt, file_appended path (file_entry (info_record lg msg "file")) w1).
Proof.
intros H. split; [reflexivity |]. revert H.
unfold prettier.get_logger, prettier.get_logging_handler.
change (bool_decide ("file-write" ∈ ["stdout"; "file-write"; "both"])) with true.
change (String.eqb "file-write" "file") with false.
change (String.eqb "file-write" "both") with false. cbv iota.
unfold assert at 1. unfold bindM at 1. unfold ret at 1.
destruct (get_logger_split name
            (fun logger =>
               let! _ := Logger.setLevel logger DEBUG in
               let! handlers :=
                 (let! h := prettier.get_logging_handler_one "file-write" (Some path) in
                  ret (One h)) in
               let! _ := forM (fun handler => Logger.addHandler logger handler)
                           (as_list handlers) in
               let! _ := Logger.set_propagate logger false in
               ret logger) w) as (lg0 & Hempty & ->).
unfold bindM at 1. unfold Logger.setLevel at 1, Logger.update.
cbn [loggers dirs files stdout next_id]. rewrite lookup_insert_eq.
cbn [default from_option id]. rewrite insert_insert_eq, Hempty.
set (wa := World _ _ _ _ _).
unfold bindM at 1. unfold bindM at 1.
destruct (prettier.get_logging_handler_one "file-write" (Some path) wa)
  as [[h | e] w'] eqn:Hh; [| discriminate].
apply old_file_write_handler_inv in Hh as (-> & Hl & Hs).
unfold ret at 1. cbn [as_list].
unfold bindM at 1.
rewrite (addHandler_all (Logger.key_of name) [file_write_handler (next_id wa) path] []
           {| lg_handlers := []; lg_level := DEBUG; lg_propagate := lg_propagate lg0 |} w');
  [| rewrite Hl; apply lookup_insert_eq | reflexivity
   | apply NoDup_singleton].
unfold bindM at 1. unfold Logger.set_propagate, Logger.update.
cbn [loggers dirs files stdout next_id]. rewrite lookup_insert_eq.
cbn [default from_option id lg_handlers lg_level lg_propagate app].
rewrite insert_insert_eq. unfold ret. intros [= <- <-].
split; [reflexivity |].
assert (Hlg : loggers
                (World (<[Logger.key_of name :=
                            {| lg_handlers := [file_write_handler (next_id wa) path];
                               lg_level := DEBUG; lg_propagate := false |}]> (loggers w'))
                   (dirs w') (files w') (stdout w') (next_id w'))
              !! Logger.key_of name
              = Some {| lg_handlers := [file_write_handler (next_id w) path];
                        lg_level := DEBUG; lg_propagate := false |}).
{ cbn [loggers]. now rewrite lookup_insert_eq. }
split; [exact Hlg |].
unfold LoggerLog.info.
rewrite (log_offered _ _ _ _ _ _ Hlg); [reflexivity | discriminate | reflexivity].
Qed.

Lemma old_get_logger_file_kinds_witness :
let w1 := snd (prettier.get_logger "run" "file-write" (Some "logs/run.log")
                 empty_world) in
prettier.get_logger "run" "file" (Some "logs/run.log") empty_world
= (Raise AssertionError, empty_world)
/\ "run" = Logger.key_of "run"
/\ loggers w1 !! "run"
   = Some {| lg_handlers := [file_write_handler (next_id empty_world) "logs/run.log"];
             lg_level := DEBUG; lg_propagate := false |}
/\ LoggerLog.info "run" "step" (Some (VAtom (AStr "file"))) w1
   = (Ok tt,
      file_appended "logs/run.log" (file_entry (info_record "run" "step" "file")) w1).
Proof.
apply (old_get_logger_file_kinds "run" "logs/run.log" "step" (Some "logs/run.log")
         empty_world).
vm_compute. reflexivity.
Defined.

(** X15.  prettier_log.py: [get_logger] lets the kind
  ['file-write'] pass its own assertion, but [get_logging_handler] knows no
  such kind, so the call never returns: whatever the other arguments, it
  raises.  With a valid level it raises an [AssertionError], and by then the
  logger named [name] followed by [' file'] has been created or cleared:
  it is left without handlers, at the level asked for. *)
Theorem new_get_logger_file_write_never_returns
  (name : string) (level : level_arg) (file_path : option string)
  (l : log_level) (n : Z) (w : world) :
prettier_log._level2int_level l = Ok n ->
never_returns (prettier_log.get_logger style_i removed_message name "file-write"
                 level file_path)
/\ exists w' lg,
     prettier_log.get_logger style_i removed_message name "file-write" (Lv l)
       file_path w = (Raise AssertionError, w')
     /\ loggers w' !! Logger.key_of (name ++ " file") = Some lg
     /\ lg_handlers lg = [] /\ lg_level lg = n.
Proof.
intros Hn0. split.
- unfold prettier_log.get_logger.
  do 4 (apply never_returns_bind; intros ?).
  match goal with a : level_arg * bool |- _ => destruct a end.
  do 3 (apply never_returns_bind; intros ?).
  apply never_returns_bind_l.
  intros w0. rewrite add_log_handler_file_write. eauto.
- pose proof Hn0 as Hn. unfold prettier_log.get_logger.
  change (bool_decide ("file-write" ∈ ["stdout"; "file-write"; "both"; "both+ansi"]))
    with true.
  change (String.eqb "file-write" "file-write") with true. cbv iota.
  unfold assert at 1. unfold bindM at 1. unfold ret at 1.
  match goal with
  | |- context [bindM (Logger.getLogger ?nm) (fun logger => bindM _ (fun _ => @?K logger))] =>
      destruct (get_logger_split nm K w) as (lg0 & Hempty & ->)
  end.
  unfold bindM at 1. unfold ret at 1. unfold bindM at 1. unfold ret at 1.
  unfold bindM at 1. cbn [prettier_log.set_level_value]. rewrite Hn.
  unfold lift, ret at 1.
  unfold bindM at 1. unfold Logger.setLevel at 1, Logger.update.
  cbn [loggers dirs files stdout next_id]. rewrite lookup_insert_eq.
  cbn [default from_option id]. rewrite insert_insert_eq.
  unfold bindM at 1. rewrite add_log_handler_file_write.
  eexists _, _. split; [reflexivity |]. cbn [loggers]. rewrite lookup_insert_eq.
  split; [reflexivity |]. cbn [lg_handlers lg_level]. split; [exact Hempty | reflexivity].
Qed.

End FileKinds.

Lemma new_get_logger_file_write_never_returns_witness :
  never_returns (prettier_log.get_logger (fun _ => "") (fun _ => "") "run" "file-write"
                   (Lv (LStr "debug")) (Some "logs/run.log"))
  /\ exists w' lg,
       prettier_log.get_logger (fun _ => "") (fun _ => "") "run" "file-write"
         (Lv (LStr "info")) (Some "logs/run.log") empty_world
       = (Raise AssertionError, w')
       /\ loggers w' !! Logger.key_of ("run" ++ " file") = Some lg
       /\ lg_handlers lg = [] /\ lg_level lg = INFO.
Proof.
  apply (new_get_logger_file_write_never_returns (fun _ => "") (fun _ => "") "run"
           (Lv (LStr "debug")) (Some "logs/run.log") (LStr "info") INFO empty_world).
  vm_compute. reflexivity.
Defined.

(** * Stripping a coloured rendering *)

Section Stripping.

Lemma ansi_end_not_esc (c : ascii) (u : string) :
Ascii.eqb Str.ESC c = false -> ansi_end (String c u) = None.
Proof. intros H. unfold ansi_end. destruct u; [reflexivity | now rewrite H]. Qed.

Lemma filter_text (t s : string) :
Str.mem Str.ESC t = false -> _filter_ansi (t ++ s) = t ++ _filter_ansi s.
Proof.
induction t as [|c t IH]; [reflexivity |].
cbn [Str.mem]. intros H. apply orb_false_iff in H as [Hc Ht].
rewrite !append_cons. unfold _filter_ansi, Re.sub in *. cbn [Re.sub_from].
rewrite match_prefix_ansi, (ansi_end_not_esc c _ Hc). f_equal. now apply IH.
Qed.

Lemma filter_reset (s : string) : _filter_ansi (PrettyLogger.reset ++ s) = _filter_ansi s.
Proof.
unfold PrettyLogger.reset, colorama.Fore.RESET, colorama.Back.RESET,
  colorama.Style.RESET_ALL, colorama.code_to_chars.
rewrite !append_assoc.
etransitivity; [apply (sub_match_head _ansi_escape ""); reflexivity |].
rewrite append_nil_l.
etransitivity; [apply (sub_match_head _ansi_escape ""); reflexivity |].
rewrite append_nil_l.
etransitivity; [apply (sub_match_head _ansi_escape ""); reflexivity |].
reflexivity.
Qed.

Lemma strips_to_filter (a b : string) :
strips_to a b -> forall s, _filter_ansi (a ++ s) = b ++ _filter_ansi s.
Proof.
induction 1 as [| t a b Ht _ IH | c a b Hc _ IH]; intros s.
- reflexivity.
- rewrite !append_assoc, filter_text by exact Ht. now rewrite IH.
- rewrite append_assoc. destruct Hc as [Hc | ->].
  + rewrite filter_ansi_code by exact Hc. apply IH.
  + rewrite filter_reset. apply IH.
Qed.

Lemma strips_to_filter_all (a b : string) : strips_to a b -> _filter_ansi a = b.
Proof.
intros H. pose proof (strips_to_filter a b H "") as Hs.
now rewrite !append_nil_r in Hs.
Qed.

Lemma strips_to_app (a b a' b' : string) :
strips_to a b -> strips_to a' b' -> strips_to (a ++ a') (b ++ b').
Proof.
induction 1 as [| t a b Ht _ IH | c a b Hc _ IH]; intros H'.
- exact H'.
- rewrite !append_assoc. apply strips_text; [exact Ht | now apply IH].
- rewrite append_assoc. apply strips_code; [exact Hc | now apply IH].
Qed.

Lemma strips_to_plain (t : string) : Str.mem Str.ESC t = false -> strips_to t t.
Proof.
intros H. rewrite <- (append_nil_r t). apply strips_text; [exact H | constructor].
Qed.

Lemma strips_to_code (c : string) :
c ∈ style_codes \/ c = PrettyLogger.reset -> strips_to c "".
Proof.
intros H. rewrite <- (append_nil_r c). apply strips_code; [exact H | constructor].
Qed.

(** A text between a style code and the reset sequence. *)
Lemma strips_to_styled (code a b : string) :
code ∈ style_codes -> strips_to a b ->
strips_to (code ++ a ++ PrettyLogger.reset) b.
Proof.
intros Hc H. apply strips_code; [now left |].
rewrite <- (append_nil_r b). apply strips_to_app; [exact H |].
apply strips_to_code. now right.
Qed.

Lemma blue_code : colorama.Fore.BLUE ∈ style_codes.
Proof. unfold style_codes. set_solver. Qed.

Lemma magenta_code : colorama.Fore.MAGENTA ∈ style_codes.
Proof. unfold style_codes. set_solver. Qed.

Lemma strips_to_join (sc sp : string) (xs ys : list string) :
strips_to sc sp -> Forall2 strips_to xs ys ->
strips_to (Str.join sc xs) (Str.join sp ys).
Proof.
intros Hsep H. induction H as [| x y xs ys Hxy Hrest IH]; [constructor |].
destruct Hrest as [| x' y' xs' ys' Hx' Hrest'].
- exact Hxy.
- change (strips_to (x ++ sc ++ Str.join sc (x' :: xs'))
            (y ++ sp ++ Str.join sp (y' :: ys'))).
  apply strips_to_app; [exact Hxy |]. apply strips_to_app; [exact Hsep | exact IH].
Qed.

Lemma mapR_Forall2 {A} (f g : A -> result string) (l : list A) :
Forall (fun x => exists a b, f x = Ok a /\ g x = Ok b /\ strips_to a b) l ->
exists xs ys, mapR f l = Ok xs /\ mapR g l = Ok ys /\ Forall2 strips_to xs ys.
Proof.
induction 1 as [| x rest (a & b & Ha & Hb & Hab) _ (xs & ys & Hxs & Hys & Hall)].
- exists [], []. repeat split. constructor.
- exists (a :: xs), (b :: ys). cbn [mapR]. rewrite Ha, Hb. cbn [bind].
  rewrite Hxs, Hys. repeat split. now constructor.
Qed.

End Stripping.

(** * The coloured rendering against the plain one *)

Section ColourAndPlain.

Lemma esc_foreign : foreign Str.ESC.
Proof. now left. Qed.

Lemma sep_present (x y : option string) :
sep_strips_to x y -> is_present y = is_present x.
Proof. destruct x, y; cbn; tauto. Qed.

Lemma sep_default (x y : option string) (lit : string) :
Str.mem Str.ESC lit = false ->
sep_strips_to x y -> strips_to (default lit x) (default lit y).
Proof.
intros Hlit. destruct x, y; cbn; try tauto. intros _. now apply strips_to_plain.
Qed.

Lemma accepts_plain_of (v : value) (kwc kwp : kwargs) :
plain_of kwc kwp -> accepts v kwp = accepts v kwc.
Proof.
intros (_ & _ & Hpf & Hfp & _ & Homit & Hk & Hp).
apply sep_present in Hk, Hp.
destruct v; cbn [accepts]; now rewrite ?Hpf, ?Hfp, ?Homit, ?Hk, ?Hp.
Qed.

Lemma magenta_styled (lit : string) :
PrettyLogger.s (AStr lit) (Some "m") false true
= Ok (colorama.Fore.MAGENTA ++ lit ++ PrettyLogger.reset).
Proof. apply (s_styled (AStr lit) "m" _ key2c_m). Qed.

(** The last branch of [i], with and without colour. *)
Lemma i_else_strips (a : atom) (kwc kwp : kwargs) :
Str.mem Str.ESC (format_atom a) = false ->
plain_of kwc kwp -> accepts (VAtom a) kwc = true ->
exists x y, PrettyLogger.i_else a kwc = Ok x /\ PrettyLogger.i_else a kwp = Ok y
            /\ strips_to x y.
Proof.
intros Ha Hrel Hacc.
pose proof (accepts_plain_of (VAtom a) _ _ Hrel) as Hacc'. rewrite Hacc in Hacc'.
destruct Hrel as (Hwc & Hwp & _).
exists (colorama.Fore.BLUE ++ format_atom a ++ PrettyLogger.reset), (format_atom a).
split; [| split].
- unfold PrettyLogger.i_else. cbn [accepts] in Hacc. apply negb_true_iff in Hacc.
  rewrite Hacc, Hwc. apply (s_styled a "i" _ key2c_i).
- now apply i_else_plain.
- apply strips_to_styled; [apply blue_code | now apply strips_to_plain].
Qed.

Lemma plain_of_elements :
plain_of (Kwargs (Some true) None None None None None)
  (Kwargs (Some false) None None None None None).
Proof. repeat split. Qed.

(** [_iter], with and without colour. *)
Lemma iter_strips (l : list value) (pref post : string) (fp : for_path_t) :
Str.mem Str.ESC pref = false -> Str.mem Str.ESC post = false ->
Forall (fun e => forall kwc kwp, plain_of kwc kwp -> accepts e kwc = true ->
                   exists a b, PrettyLogger.i e kwc = Ok a /\ PrettyLogger.i e kwp = Ok b
                               /\ strips_to a b) l ->
exists x y,
  PrettyLogger._iter PrettyLogger.i l true pref post fp = Ok x
  /\ PrettyLogger._iter PrettyLogger.i l false pref post fp = Ok y
  /\ strips_to x y.
Proof.
intros Hpref Hpost Hall. unfold PrettyLogger._iter.
rewrite !magenta_styled. cbn [bind].
destruct (mapR_Forall2
            (fun e => PrettyLogger.i e (Kwargs (Some true) None None None None None))
            (fun e => PrettyLogger.i e (Kwargs (Some false) None None None None None))
            l) as (xs & ys & -> & -> & Hxy).
{ eapply Forall_impl; [exact Hall |]. intros e He.
  apply He; [apply plain_of_elements | apply keywords_none_accepted]. }
cbn [bind]. eexists _, _. split; [reflexivity |]. split; [reflexivity |].
apply strips_to_app;
  [apply strips_to_styled; [apply magenta_code | now apply strips_to_plain] |].
apply strips_to_app;
  [| apply strips_to_styled; [apply magenta_code | now apply strips_to_plain]].
apply strips_to_join; [| exact Hxy].
apply strips_to_plain. now destruct (fp_truthy fp).
Qed.

Lemma lacks_list (l : list value) (P : value -> Prop) :
Forall (fun e => lacks Str.ESC e = true -> P e) l ->
forallb (lacks Str.ESC) l = true -> Forall P l.
Proof.
intros H Hl. induction H as [| e rest He _ IH]; [constructor |].
cbn [forallb] in Hl. apply andb_true_iff in Hl as [H1 H2].
constructor; [now apply He | now apply IH].
Qed.

(** Rendering with colour and rendering without differ by style codes
  and reset sequences only. *)
Lemma colour_strips (v : value) :
lacks Str.ESC v = true ->
forall kwc kwp,
  plain_of kwc kwp -> accepts v kwc = true ->
  exists a b, PrettyLogger.i v kwc = Ok a /\ PrettyLogger.i v kwp = Ok b
              /\ strips_to a b.
Proof.
induction v as [a | r | l IH | l IH | d IH] using value_rect';
  intros Hv kwc kwp Hrel Hacc.
- cbn [PrettyLogger.i]. apply i_else_strips; [| exact Hrel | exact Hacc].
  apply mem_format_atom; [apply esc_foreign | exact Hv].
- cbn [PrettyLogger.i].
  assert (Hpf : pad_float kwp = pad_float kwc) by apply Hrel. rewrite Hpf.
  apply i_else_strips.
  + cbn [format_atom]. apply mem_float; [apply esc_foreign |].
    cbn [lacks] in Hv. now apply negb_true_iff in Hv.
  + destruct Hrel as (H1 & H2 & H3 & H4 & H5 & H6 & H7 & H8). repeat split; assumption.
  + exact Hacc.
- pose proof (accepts_plain_of (VList l) _ _ Hrel) as Hacc'. rewrite Hacc in Hacc'.
  cbn [PrettyLogger.i]. cbn [accepts] in Hacc, Hacc'.
  apply negb_true_iff in Hacc, Hacc'. rewrite Hacc, Hacc'.
  destruct Hrel as (Hwc & Hwp & _ & Hfp & _). rewrite Hwc, Hwp, Hfp.
  change (default true (Some false)) with false.
  unfold PrettyLogger._list. apply iter_strips; [reflexivity | reflexivity |].
  now apply lacks_list.
- pose proof (accepts_plain_of (VTuple l) _ _ Hrel) as Hacc'. rewrite Hacc in Hacc'.
  cbn [PrettyLogger.i]. cbn [accepts] in Hacc, Hacc'.
  apply negb_true_iff in Hacc, Hacc'. rewrite Hacc, Hacc'.
  destruct Hrel as (Hwc & Hwp & _ & Hfp & _). rewrite Hwc, Hwp, Hfp.
  change (default true (Some false)) with false.
  unfold PrettyLogger._tuple. apply iter_strips; [reflexivity | reflexivity |].
  now apply lacks_list.
- destruct Hrel as (Hwc & Hwp & Hpf & Hfp & Hfalsy & Homit & Hk & Hp).
  cbn [PrettyLogger.i]. rewrite Hwc, Hwp, Hpf, Hfp, Homit.
  change (default true (Some false)) with false.
  set (pf := default None (pad_float kwc)).
  set (fp := default (FPBool false) (for_path kwc)) in *.
  set (omit := default false (omit_none_val kwc)).
  pose proof (sep_default _ _ ": " eq_refl Hk) as Hkvs.
  pose proof (sep_default _ _ ", " eq_refl Hp) as Hps.
  set (kc := default ": " (key_value_sep kwc)) in *.
  set (kp := default ": " (key_value_sep kwp)) in *.
  set (pc := default ", " (pairs_sep kwc)) in *.
  set (pp := default ", " (pairs_sep kwp)) in *.
  unfold PrettyLogger._dict. rewrite Hfalsy. cbn [andb bind].
  rewrite !magenta_styled. cbn [bind].
  set (kc' := colorama.Fore.MAGENTA ++ kc ++ PrettyLogger.reset).
  assert (Hkvs' : strips_to kc' kp)
    by (apply strips_to_styled; [apply magenta_code | exact Hkvs]).
  assert (Hpairs :
            exists xs ys,
              mapR (fun kv : string * value =>
                      let (k, v) := kv in
                      match omit, v with
                      | true, VAtom ANone => Ok k
                      | _, _ =>
                          let* t := PrettyLogger._log_val PrettyLogger.i true pf kc' pc
                                      fp omit v in
                          Ok (k ++ kc' ++ t)
                      end) d = Ok xs
              /\ mapR (fun kv : string * value =>
                         let (k, v) := kv in
                         match omit, v with
                         | true, VAtom ANone => Ok k
                         | _, _ =>
                             let* t := PrettyLogger._log_val PrettyLogger.i false pf kp pp
                                         fp omit v in
                             Ok (k ++ kp ++ t)
                         end) d = Ok ys
              /\ Forall2 strips_to xs ys).
  { apply mapR_Forall2. cbn [lacks] in Hv.
    apply (Forall_forallb_impl _ _ _ _ IH Hv). intros [k v] Hkv Hb.
    cbn [fst snd] in *. apply andb_true_iff in Hb as [Hkey Hlv].
    apply negb_true_iff in Hkey. specialize (Hkv Hlv).
    assert (Hval : exists x y,
               PrettyLogger._log_val PrettyLogger.i true pf kc' pc fp omit v = Ok x
               /\ PrettyLogger._log_val PrettyLogger.i false pf kp pp fp omit v = Ok y
               /\ strips_to x y).
    { unfold PrettyLogger._log_val.
      assert (Hshort : fp_is_shorter_bool fp = false)
        by (destruct fp as [[|] |]; [discriminate | reflexivity | discriminate]).
      destruct v as [a | r | l | l | d'].
      - destruct a as [| b | n | s]; rewrite ?Hshort;
          apply Hkv; repeat split; reflexivity.
      - apply Hkv; repeat split; reflexivity.
      - apply Hkv; [| reflexivity]. repeat split; try reflexivity. exact Hfalsy.
      - apply Hkv; [| reflexivity]. repeat split; try reflexivity. exact Hfalsy.
      - apply Hkv; [| reflexivity]. repeat split; try reflexivity;
          [exact Hfalsy | exact Hkvs' | exact Hps]. }
    destruct Hval as (x & y & Hx & Hy & Hxy).
    destruct omit; [destruct v as [[| | |] | | | |] |];
      try (rewrite Hx, Hy; cbn [bind]; eexists _, _;
           split; [reflexivity |]; split; [reflexivity |];
           apply strips_to_app; [now apply strips_to_plain |];
           apply strips_to_app; [exact Hkvs' | exact Hxy]).
    eexists _, _. split; [reflexivity |]. split; [reflexivity |].
    now apply strips_to_plain. }
  destruct Hpairs as (xs & ys & Hxs & Hys & Hxy).
  fold kc'. rewrite Hxs, Hys. cbn [bind].
  eexists _, _. split; [reflexivity |]. split; [reflexivity |].
  apply strips_to_app;
    [apply strips_to_styled; [apply magenta_code | now apply strips_to_plain] |].
  apply strips_to_app;
    [| apply strips_to_styled; [apply magenta_code | now apply strips_to_plain]].
  now apply strips_to_join.
Qed.

End ColourAndPlain.

(** X16.  For every value none of whose texts holds the
    escape character, and keywords that leave colour at its default, carry no
    [for_path] that is true and no separator with an escape character, the
    coloured rendering [pl.i(v, **kwargs)] and the rendering without colour
    [pl.nc(v, **kwargs)] both return, and [_filter_ansi] turns the first into
    the second: colour adds escape sequences and nothing else.  This holds
    for nested dicts too, whose separators are styled twice. *)
Theorem strip_of_coloured_is_plain (v : value) (kw : kwargs) :
  lacks Str.ESC v = true ->
  with_color kw = None ->
  accepts v kw = true ->
  fp_truthy (default (FPBool false) (for_path kw)) = false ->
  seps_lack Str.ESC kw = true ->
  exists coloured plain,
    PrettyLogger.i v kw = Ok coloured
    /\ PrettyLogger.nc v kw = Ok plain
    /\ _filter_ansi coloured = plain.
Proof.
  intros Hv Hwc Hacc Hfp Hseps.
  unfold seps_lack in Hseps. apply andb_true_iff in Hseps as [Hk Hp].
  apply negb_true_iff in Hk, Hp.
  destruct (colour_strips v Hv kw (without_color kw)) as (a & b & Ha & Hb & Hab).
  - unfold plain_of, without_color. cbn [with_color pad_float for_path omit_none_val
      key_value_sep pairs_sep]. rewrite Hwc.
    repeat (split; [first [reflexivity | assumption] |]).
    split.
    + destruct (key_value_sep kw) as [x |]; cbn [sep_strips_to]; [| exact I].
      now apply strips_to_plain.
    + destruct (pairs_sep kw) as [x |]; cbn [sep_strips_to]; [| exact I].
      now apply strips_to_plain.
  - exact Hacc.
  - exists a, b. split; [exact Ha |]. split.
    + unfold PrettyLogger.nc. rewrite Hwc. exact Hb.
    + now apply strips_to_filter_all.
Qed.

Lemma strip_of_coloured_is_plain_witness :
  exists coloured plain,
    PrettyLogger.i (VDict [("step", VAtom (AInt 3));
                           ("opt", VDict [("lr", VFloat "0.5");
                                          ("tags", VList [VAtom (AStr "a"); VAtom ANone])])])
      no_kwargs = Ok coloured
    /\ PrettyLogger.nc (VDict [("step", VAtom (AInt 3));
                               ("opt", VDict [("lr", VFloat "0.5");
                                              ("tags", VList [VAtom (AStr "a");
                                                              VAtom ANone])])])
         no_kwargs = Ok plain
    /\ _filter_ansi coloured = plain.
Proof.
  apply (strip_of_coloured_is_plain
           (VDict [("step", VAtom (AInt 3));
                   ("opt", VDict [("lr", VFloat "0.5");
                                  ("tags", VList [VAtom (AStr "a"); VAtom ANone])])])
           no_kwargs); reflexivity.
Defined.

(** * What stripping does to a text *)

Lemma filter_ansi_shorter (s : string) :
  has_ansi s = true -> String.length (_filter_ansi s) < String.length s.
Proof.
  induction s as [|c s IH]; [discriminate |].
  unfold has_ansi, _filter_ansi, Re.sub. cbn [Re.search Re.sub_from].
  rewrite match_prefix_ansi.
  destruct (ansi_end (String c s)) as [rest|] eqn:E.
  - intros _. apply ansi_end_shorter in E.
    destruct (String.length (String c s) - String.length rest) as [|n] eqn:En.
    + cbn [String.length] in *. lia.
    + rewrite append_nil_l. pose proof (sub_from_length n s). cbn [String.length]. lia.
  - intros H. specialize (IH H). unfold _filter_ansi, Re.sub in IH.
    cbn [String.length]. lia.
Qed.

(** X17.  [_filter_ansi] never makes a text longer; it leaves
    a text unchanged exactly when no escape sequence occurs in it, and makes
    it shorter otherwise.  One pass is not always enough: when removing a
    sequence brings an escape character next to the rest of another sequence,
    the result holds an escape sequence again, so stripping twice can differ
    from stripping once. *)
Theorem filter_ansi_one_pass (s t : string) :
  String.length (_filter_ansi s) <= String.length s
  /\ (_filter_ansi s = s <-> has_ansi s = false)
  /\ (has_ansi s = true -> String.length (_filter_ansi s) < String.length s)
  /\ has_ansi (_filter_ansi (nested_sequence t)) = true
  /\ _filter_ansi (_filter_ansi (nested_sequence t)) <> _filter_ansi (nested_sequence t).
Proof.
  split; [apply (sub_from_length 0) |].
  split; [apply filter_ansi_fixed_iff |].
  split; [apply filter_ansi_shorter |].
  assert (Hf : _filter_ansi (nested_sequence t)
               = String Str.ESC ("[0m" ++ _filter_ansi t)).
  { unfold nested_sequence, colorama.Style.RESET_ALL, colorama.code_to_chars.
    transitivity (String Str.ESC (_filter_ansi (String Str.ESC ("[" ++ "0" ++ "m")
                                                 ++ "[0m" ++ t))).
    - unfold _filter_ansi, Re.sub. cbn [Re.sub_from]. rewrite match_prefix_ansi.
      reflexivity.
    - f_equal.
      etransitivity; [apply (sub_match_head _ansi_escape ""); reflexivity |].
      rewrite append_nil_l. fold (_filter_ansi ("[0m" ++ t)).
      now apply filter_text. }
  assert (H : has_ansi (_filter_ansi (nested_sequence t)) = true).
  { rewrite Hf. unfold has_ansi. cbn [Re.search].
    replace (Re.match_prefix _ansi_escape (String Str.ESC ("[0m" ++ _filter_ansi t)))
      with (Some (_filter_ansi t)) by reflexivity.
    reflexivity. }
  split; [exact H | now apply filter_ansi_changes].
Qed.

(** * Checking arguments *)

Section Checks.

Lemma i_atom_default (a : atom) :
PrettyLogger.i (VAtom a) no_kwargs
= Ok (colorama.Fore.BLUE ++ format_atom a ++ PrettyLogger.reset).
Proof. cbn [PrettyLogger.i]. unfold PrettyLogger.i_else. apply (s_styled a "i" _ key2c_i). Qed.

Lemma pl_i_atom (a : atom) (w : world) :
CheckArg_.pl_i (VAtom a) w
= (Ok (colorama.Fore.BLUE ++ format_atom a ++ PrettyLogger.reset), w).
Proof. unfold CheckArg_.pl_i. now rewrite i_atom_default. Qed.

Lemma mapR_atoms (kw : kwargs) (l : list string) :
default true (with_color kw) = true ->
accepts (VAtom ANone) kw = true ->
exists ys, mapR (fun e => PrettyLogger.i e kw) (map (fun s => VAtom (AStr s)) l) = Ok ys.
Proof.
intros Hwc Hacc. induction l as [|x l [ys IH]]; [now exists [] |].
cbn [map mapR PrettyLogger.i]. unfold PrettyLogger.i_else.
cbn [accepts] in Hacc. apply negb_true_iff in Hacc. rewrite Hacc, Hwc.
rewrite (s_styled _ "i" _ key2c_i). cbn [bind]. rewrite IH. cbn [bind]. eauto.
Qed.

Lemma i_list_value (l : list string) (kw : kwargs) :
default true (with_color kw) = true ->
accepts (CheckArg_.list_value l) kw = true ->
exists t, PrettyLogger.i (CheckArg_.list_value l) kw = Ok t.
Proof.
intros Hwc Hacc. unfold CheckArg_.list_value in *. cbn [PrettyLogger.i].
cbn [accepts] in Hacc. apply negb_true_iff in Hacc. rewrite Hacc, Hwc.
unfold PrettyLogger._list, PrettyLogger._iter.
rewrite !magenta_styled. cbn [bind].
destruct (mapR_atoms (Kwargs (Some true) None None None None None) l eq_refl eq_refl)
  as [ys ->].
cbn [bind]. eauto.
Qed.

Lemma pl_i_list (l : list string) (w : world) :
exists t, CheckArg_.pl_i (CheckArg_.list_value l) w = (Ok t, w).
Proof.
unfold CheckArg_.pl_i.
destruct (i_list_value l no_kwargs eq_refl eq_refl) as [t ->]. now exists t.
Qed.

Lemma pl_i_value_of (val : option string) (w : world) :
exists t, CheckArg_.pl_i (CheckArg_.value_of val) w = (Ok t, w).
Proof. destruct val; cbn [CheckArg_.value_of]; rewrite pl_i_atom; eauto. Qed.

Lemma pl_i_d_log (val : option string) (l : list string) (w : world) :
exists t,
  CheckArg_.pl_i (VDict [("val", CheckArg_.value_of val);
                         ("accepted_values", CheckArg_.list_value l)]) w = (Ok t, w).
Proof.
unfold CheckArg_.pl_i. cbn [PrettyLogger.i no_kwargs with_color pad_float key_value_sep
  pairs_sep for_path omit_none_val].
change (default true None) with true. change (default None None) with (@None nat).
change (default (FPBool false) None) with (FPBool false).
change (default false None) with false.
change (default ": " None) with ": ". change (default ", " None) with ", ".
unfold PrettyLogger._dict. cbn [fp_truthy andb bind].
rewrite !magenta_styled. cbn [bind mapR].
assert (Hval : exists t,
           PrettyLogger._log_val PrettyLogger.i true None
             (colorama.Fore.MAGENTA ++ ": " ++ PrettyLogger.reset) ", " (FPBool false)
             false (CheckArg_.value_of val) = Ok t).
{ destruct val; cbn [CheckArg_.value_of PrettyLogger._log_val PrettyLogger.i];
    unfold PrettyLogger.i_else; cbn [is_present key_value_sep pairs_sep for_path
      omit_none_val orb with_color];
    change (default true (Some true)) with true;
    rewrite (s_styled _ "i" _ key2c_i); eauto. }
destruct Hval as [t1 Ht1].
assert (Hlist : exists t,
           PrettyLogger._log_val PrettyLogger.i true None
             (colorama.Fore.MAGENTA ++ ": " ++ PrettyLogger.reset) ", " (FPBool false)
             false (CheckArg_.list_value l) = Ok t).
{ unfold CheckArg_.list_value at 1. cbn [PrettyLogger._log_val].
  fold (CheckArg_.list_value l). now apply i_list_value. }
destruct Hlist as [t2 Ht2].
assert (Hnone : forall (A : Type) (x y : A),
           match CheckArg_.value_of val with
           | VAtom ANone => x | _ => y end = match val with None => x | Some _ => y end).
{ intros A x y. now destruct val. }
rewrite Ht1, Ht2. cbn [bind]. eauto.
Qed.

Lemma log_runs (key : string) (level : Z) (msg : string) (w : world) :
exists w', LoggerLog.log key level msg None w = (Ok tt, w') /\ loggers w' = loggers w.
Proof. apply log_keeps_loggers. Qed.

End Checks.

(** X18.  prettier.py: [CheckArg.check_mismatch] returns
    normally exactly when the value is one of the accepted values, or is
    [None] on an object that ignores [None]; otherwise it raises a
    [ValueError].  A [None] that is not ignored is a mismatch.  The call
    leaves the loggers as they are, and on an object that is not verbose it
    changes nothing at all; being verbose adds log records and never changes
    the outcome. *)
Theorem check_mismatch_outcome (self : prettier.CheckArg) (display_name : string)
    (val : option string) (accepted_values : list string)
    (attribute_name : option string) (w : world) :
  exists w',
    loggers w' = loggers w
    /\ (prettier.verbose self = false -> w' = w)
    /\ if passes self val accepted_values
       then CheckArg_.check_mismatch self display_name val accepted_values
              attribute_name w = (Ok tt, w')
       else exists msg,
              CheckArg_.check_mismatch self display_name val accepted_values
                attribute_name w = (Raise (ValueError msg), w').
Proof.
  assert (Hrun : exists r w',
             CheckArg_.check_mismatch self display_name val accepted_values
               attribute_name w = (r, w')
             /\ loggers w' = loggers w
             /\ (prettier.verbose self = false -> w' = w)
             /\ if passes self val accepted_values then r = Ok tt
                else exists msg, r = Raise (ValueError msg)).
  { unfold passes, CheckArg_.check_mismatch.
    destruct (prettier.ignore_none self && negb (is_present val)) eqn:Hnone; cbn [orb].
    - destruct (prettier.verbose self) eqn:Hv.
      + unfold bindM at 1.
        assert (Hs : exists s,
                   (if negb (path_missing attribute_name)
                    then
                      let! a := CheckArg_.pl_i (VAtom (AStr display_name)) in
                      let! b := CheckArg_.pl_i (CheckArg_.value_of attribute_name) in
                      ret (a ++ "::" ++ b)
                    else CheckArg_.pl_i (VAtom (AStr display_name))) w = (Ok s, w)).
        { destruct (negb (path_missing attribute_name)).
          - unfold bindM at 1. rewrite pl_i_atom. unfold bindM at 1.
            destruct (pl_i_value_of attribute_name w) as [b ->]. unfold ret. eauto.
          - rewrite pl_i_atom. eauto. }
        destruct Hs as [s ->]. unfold bindM at 1. rewrite pl_i_atom.
        destruct (log_runs CheckArg_.logger WARNING
                    ("Argument " ++ s ++ " is "
                     ++ (colorama.Fore.BLUE ++ format_atom (AStr "None")
                         ++ PrettyLogger.reset)
                     ++ " and ignored") w) as (w' & Hlog & Hl).
        exists (Ok tt), w'. split; [exact Hlog |]. split; [exact Hl |].
        split; [discriminate | reflexivity].
      + exists (Ok tt), w. repeat split.
    - assert (Htail : forall w0,
                 exists r,
                   (if negb (CheckArg_.member val accepted_values)
                    then
                      let! a := CheckArg_.pl_i (VAtom (AStr display_name)) in
                      let! b := CheckArg_.pl_i (CheckArg_.list_value accepted_values) in
                      let! c := CheckArg_.pl_i (CheckArg_.value_of val) in
                      raise (ValueError ("Unexpected " ++ a ++ ": expect one of " ++ b
                                         ++ ", got " ++ c))
                    else ret tt) w0 = (r, w0)
                   /\ if CheckArg_.member val accepted_values then r = Ok tt
                      else exists msg, r = Raise (ValueError msg)).
      { intros w0. destruct (CheckArg_.member val accepted_values); cbn [negb].
        - now exists (Ok tt).
        - unfold bindM at 1. rewrite pl_i_atom. unfold bindM at 1.
          destruct (pl_i_list accepted_values w0) as [b ->]. unfold bindM at 1.
          destruct (pl_i_value_of val w0) as [c ->]. unfold raise. eauto. }
      destruct (prettier.verbose self) eqn:Hv.
      + unfold bindM at 1. cbv zeta. unfold bindM at 1. rewrite pl_i_atom.
        unfold bindM at 1.
        destruct (pl_i_d_log val accepted_values w) as [b ->].
        unfold LoggerLog.info.
        destruct (log_runs CheckArg_.logger INFO
                    ("Checking "
                     ++ (colorama.Fore.BLUE ++ format_atom (AStr display_name)
                         ++ PrettyLogger.reset)
                     ++ " w/ " ++ b ++ "... ") w) as (w' & -> & Hl).
        destruct (Htail w') as (r & -> & Hr).
        exists r, w'. split; [reflexivity |]. split; [exact Hl |].
        split; [discriminate | exact Hr].
      + unfold bindM at 1. unfold ret at 1.
        destruct (Htail w) as (r & -> & Hr).
        exists r, w. repeat split. exact Hr. }
  destruct Hrun as (r & w' & Hrun & Hl & Hsame & Hr).
  exists w'. split; [exact Hl |]. split; [exact Hsame |].
  rewrite Hrun. destruct (passes self val accepted_values).
  - now rewrite Hr.
  - destruct Hr as [msg ->]. now exists msg.
Qed.

(** X19.  prettier.py: once [cache_mismatch] has registered
    a check under an attribute name, calling the object with that name as
    keyword runs [check_mismatch] with the display name and the accepted
    values registered, on the value given, before the keywords that follow;
    a registration made later under the same name is the one that counts.
    A keyword that is not registered raises a [KeyError] and changes
    nothing. *)
Theorem registered_check_is_called (self : prettier.CheckArg)
    (display_name attr_name : string) (accepted_values : list string)
    (val : option string) (rest : list (string * option string)) (w : world) :
  CheckArg_.call (registered self display_name attr_name accepted_values)
    ((attr_name, val) :: rest) w
  = (let! _ := CheckArg_.check_mismatch
                 (registered self display_name attr_name accepted_values)
                 display_name val accepted_values (Some attr_name) in
     CheckArg_.call (registered self display_name attr_name accepted_values) rest) w
  /\ (forall display_name' accepted_values',
         CheckArg_.call
           (registered (registered self display_name' attr_name accepted_values')
              display_name attr_name accepted_values)
           [(attr_name, val)] w
         = (let! _ := CheckArg_.check_mismatch
                        (registered (registered self display_name' attr_name
                                       accepted_values')
                           display_name attr_name accepted_values)
                        display_name val accepted_values (Some attr_name) in
            ret tt) w)
  /\ (forall k,
         prettier.d_name2func (registered self display_name attr_name accepted_values)
           !! k = None ->
         CheckArg_.call (registered self display_name attr_name accepted_values)
           ((k, val) :: rest) w = (Raise (KeyError k), w)).
Proof.
  unfold registered, prettier.cache_mismatch. cbn [snd].
  split; [| split].
  - cbn [CheckArg_.call forM]. cbn [prettier.d_name2func].
    rewrite lookup_insert_eq. reflexivity.
  - intros dn' acc'. cbn [CheckArg_.call forM prettier.d_name2func].
    rewrite lookup_insert_eq. reflexivity.
  - intros k Hk. cbn [CheckArg_.call forM]. unfold bindM at 1. rewrite Hk. reflexivity.
Qed.

(** * Styling one text *)

Lemma filter_bright (s : string) :
  _filter_ansi (colorama.Style.BRIGHT ++ s) = _filter_ansi s.
Proof.
  unfold colorama.Style.BRIGHT, colorama.code_to_chars.
  etransitivity; [apply (sub_match_head _ansi_escape ""); reflexivity |].
  reflexivity.
Qed.

(** X20.  [PrettyLogger.s(text, c=key, bold=bold)] outside the
    plain case of a known key: with [bold] set and a key of the style table
    the result is the key's code, the code for bright, the text and the reset
    sequence, and stripping it gives the text back when the text holds no
    escape sequence.  A key that is not in the table is written in front of
    the text as it is, and no reset follows.  With [c] left out the result is
    ['None'] followed by the text, and [bold] then raises a [TypeError].
    With [with_color=False] the text is returned plain, unless [bold] is set:
    then it is still set bright. *)
Theorem s_bold_and_unknown_keys (text : string) :
  (forall key code, PrettyLogger.key2c !! key = Some code ->
     PrettyLogger.s (AStr text) (Some key) true true
     = Ok (code ++ colorama.Style.BRIGHT ++ text ++ PrettyLogger.reset)
     /\ (has_ansi text = false ->
         _filter_ansi (code ++ colorama.Style.BRIGHT ++ text ++ PrettyLogger.reset)
         = text))
  /\ (forall other, PrettyLogger.key2c !! other = None ->
        PrettyLogger.s (AStr text) (Some other) false true = Ok (other ++ text))
  /\ PrettyLogger.s (AStr text) None false true = Ok ("None" ++ text)
  /\ PrettyLogger.s (AStr text) None true true = Raise TypeError
  /\ (forall c, PrettyLogger.s (AStr text) c false false = Ok text)
  /\ (forall c, PrettyLogger.s (AStr text) c true false
                = Ok (colorama.Style.BRIGHT ++ text ++ PrettyLogger.reset)).
Proof.
  assert (Hempty : PrettyLogger.key2c !! "" = None) by (vm_compute; reflexivity).
  split; [| split; [| split; [| split; [| split]]]].
  - intros key code Hkey. split.
    + unfold PrettyLogger.s, PrettyLogger.log. rewrite Hkey.
      cbn [bind orb pad_truthy format_atom]. now rewrite append_assoc.
    + intros Htext.
      assert (Hbody : _filter_ansi (text ++ PrettyLogger.reset) = text).
      { destruct reset_head as [t Ht]. rewrite Ht.
        rewrite (filter_ansi_text_then_esc text t Htext), <- Ht, filter_ansi_reset.
        apply append_nil_r. }
      destruct (key2c_codes key code Hkey) as [-> | Hcode].
      * rewrite append_nil_l, filter_bright. exact Hbody.
      * rewrite (filter_ansi_code code _ Hcode), filter_bright. exact Hbody.
  - intros other Hother. unfold PrettyLogger.s, PrettyLogger.log. rewrite Hother.
    cbn [bind orb pad_truthy format_atom]. now rewrite append_nil_r.
  - unfold PrettyLogger.s, PrettyLogger.log.
    cbn [bind orb pad_truthy format_atom]. now rewrite append_nil_r.
  - reflexivity.
  - intros c. unfold PrettyLogger.s, PrettyLogger.log. rewrite Hempty.
    cbn [bind orb pad_truthy format_atom]. now rewrite append_nil_l, append_nil_r.
  - intros c. unfold PrettyLogger.s, PrettyLogger.log. rewrite Hempty.
    cbn [bind orb pad_truthy format_atom]. now rewrite !append_nil_l.
Qed.

(** * A level dict with one key *)

(** X21.  prettier_log.py: [get_logger] given a level dict
    with a single key behaves exactly as when given that key's level alone:
    the key is not looked at, so [level={'stdout': l}] sets the level [l] for
    the logger as a whole and the file receives no more than the console.
    An empty dict raises [StopIteration] once the logger has been created or
    cleared. *)
Theorem get_logger_single_level_dict
    (style_i : value -> string) (removed_message : list Handler -> string)
    (name kind key : string) (l : log_level) (file_path : option string) (w : world) :
  prettier_log.get_logger style_i removed_message name kind (LvDict [(key, l)])
    file_path w
  = prettier_log.get_logger style_i removed_message name kind (Lv l) file_path w
  /\ (bool_decide (kind ∈ ["stdout"; "file-write"; "both"; "both+ansi"]) = true ->
      exists w',
        prettier_log.get_logger style_i removed_message name kind (LvDict [])
          file_path w = (Raise StopIteration, w')
        /\ (lg_handlers <$> loggers w' !! Logger.key_of
                                          (if String.eqb kind "file-write"
                                           then name ++ " file" else name))
           = Some []).
Proof.
  split.
  - unfold prettier_log.get_logger.
    cbn [map fst remove_dups length Nat.ltb Nat.leb prettier_log.level_lookup].
    replace (remove_dups [key]) with [key] by reflexivity.
    cbn [length Nat.ltb Nat.leb]. rewrite String.eqb_refl. reflexivity.
  - intros Hkind. unfold prettier_log.get_logger. rewrite Hkind.
    unfold assert at 1. unfold bindM at 1. unfold ret at 1.
    match goal with
    | |- context [bindM (Logger.getLogger ?nm) (fun logger => bindM _ (fun _ => @?K logger))] =>
        destruct (get_logger_split nm K w) as (lg0 & Hempty & ->)
    end.
    cbn [map fst remove_dups length Nat.ltb Nat.leb].
    unfold bindM at 1. unfold raise at 1.
    eexists. split; [reflexivity |]. cbn [loggers].
    rewrite lookup_insert_eq. cbn [fmap option_fmap option_map]. now rewrite Hempty.
Qed.

(** * The current time as text *)

Section NowFacts.

Lemma join_empty_cons (x : string) (l : list string) :
Str.join "" (x :: l) = x ++ Str.join "" l.
Proof. destruct l; [now rewrite append_nil_r | reflexivity]. Qed.

Lemma split_length (rs : Re.cls) (s : string) :
length (now_.split rs s) = (length (now_.findall rs s) + 1)%nat.
Proof.
induction s as [|c s IH]; [reflexivity |].
cbn [now_.split now_.findall]. destruct (Re.in_cls c rs).
- cbn [length]. now rewrite IH.
- destruct (now_.split rs s) as [|p ps]; [cbn in IH; lia | exact IH].
Qed.

Lemma weave_cons (n p : string) (nums puncs : list string) :
nums <> [] -> weave (n :: nums) (p :: puncs) = n ++ p ++ weave nums puncs.
Proof.
intros Hne. unfold weave. cbn [now_.zip_add]. rewrite join_empty_cons.
destruct nums as [|n' nums']; [contradiction |].
cbn [List.last]. now rewrite !append_assoc.
Qed.

Lemma weave_single (n : string) : weave [n] [] = n.
Proof. unfold weave. cbn [now_.zip_add Str.join List.last]. apply append_nil_l. Qed.

Lemma weave_split (rs : Re.cls) (s : string) :
weave (now_.split rs s) (now_.findall rs s) = s.
Proof.
induction s as [|c s IH]; [reflexivity |].
pose proof (split_length rs s) as Hlen.
cbn [now_.split now_.findall]. destruct (Re.in_cls c rs).
- rewrite weave_cons.
  + rewrite IH. reflexivity.
  + intros E. rewrite E in Hlen. cbn in Hlen. lia.
- destruct (now_.split rs s) as [|p ps]; [cbn in Hlen; lia |].
  destruct ps as [|p' ps'].
  + destruct (now_.findall rs s); [| cbn in Hlen; lia].
    rewrite weave_single in *. now rewrite IH.
  + destruct (now_.findall rs s) as [|q qs]; [cbn in Hlen; lia |].
    rewrite weave_cons in * by discriminate.
    rewrite append_cons. now rewrite IH.
Qed.

Lemma split_lacks (rs : Re.cls) (s : string) :
Str.mem Str.ESC s = false ->
Forall (fun p => Str.mem Str.ESC p = false) (now_.split rs s)
/\ Forall (fun p => Str.mem Str.ESC p = false) (now_.findall rs s).
Proof.
induction s as [|c s IH]; [now repeat constructor |].
cbn [Str.mem]. intros H. apply orb_false_iff in H as [Hc Hs].
destruct (IH Hs) as [Hp Hq]. cbn [now_.split now_.findall].
destruct (Re.in_cls c rs).
- split; constructor; try assumption; [reflexivity |].
  cbn [Str.mem]. now rewrite Hc.
- split; [| exact Hq]. destruct (now_.split rs s) as [|p ps].
  + constructor; [| constructor]. cbn [Str.mem]. now rewrite Hc.
  + inversion Hp; subst. constructor; [| assumption].
    cbn [Str.mem]. rewrite Hc. assumption.
Qed.

Lemma weave_strips (f : string -> string) (nums puncs : list string) :
(forall p, Str.mem Str.ESC p = false -> strips_to (f p) p) ->
Forall (fun p => Str.mem Str.ESC p = false) nums ->
Forall (fun p => Str.mem Str.ESC p = false) puncs ->
length nums = (length puncs + 1)%nat ->
strips_to (weave (map f nums) puncs) (weave nums puncs).
Proof.
intros Hf Hn. revert puncs.
induction Hn as [|n nums Hn0 Hn IH]; intros puncs Hp Hlen; [cbn in Hlen; lia |].
destruct Hp as [|p puncs Hp0 Hp].
- destruct nums; [| cbn in Hlen; lia]. cbn [map]. rewrite !weave_single.
  now apply Hf.
- cbn [map]. rewrite !weave_cons.
  + apply strips_to_app; [now apply Hf |].
    apply strips_to_app; [now apply strips_to_plain |].
    apply IH; [assumption | cbn in Hlen; lia].
  + intros E. subst. cbn in Hlen. lia.
  + intros E. apply map_eq_nil in E. subst. cbn in Hlen. lia.
Qed.

Lemma mapR_total {A B} (f : A -> result B) (g : A -> B) (l : list A) :
(forall x, f x = Ok (g x)) -> mapR f l = Ok (map g l).
Proof.
intros H. induction l as [|x l IH]; [reflexivity |].
cbn [mapR map]. rewrite H. cbn [bind]. rewrite IH. reflexivity.
Qed.

Lemma s_wrap (c num : string) :
PrettyLogger.s (AStr num) (Some c) false true = Ok (wrap c num).
Proof.
unfold wrap. destruct (PrettyLogger.key2c !! c) as [code|] eqn:Hc.
- now apply (s_styled (AStr num)).
- unfold PrettyLogger.s, PrettyLogger.log. rewrite Hc.
  cbn [bind orb pad_truthy format_atom]. now rewrite append_nil_r.
Qed.

Lemma wrap_strips (c code p : string) :
PrettyLogger.key2c !! c = Some code ->
Str.mem Str.ESC p = false -> strips_to (wrap c p) p.
Proof.
intros Hc Hp. unfold wrap. rewrite Hc.
destruct (key2c_codes c code Hc) as [-> | Hcode].
- rewrite append_nil_l.
  replace (strips_to (p ++ PrettyLogger.reset) p)
    with (strips_to (p ++ PrettyLogger.reset) (p ++ "")) by now rewrite append_nil_r.
  apply strips_to_app; [now apply strips_to_plain |].
  apply strips_to_code. now right.
- apply strips_to_styled; [exact Hcode | now apply strips_to_plain].
Qed.

Lemma key2c_green : PrettyLogger.key2c !! "green" = Some colorama.Fore.GREEN.
Proof. vm_compute. reflexivity. Qed.

Lemma check_format (fmt : string) (w : world) :
CheckArg_.check_mismatch now_.ca "Date Format" (Some fmt)
  ["full"; "short-full"; "date"; "short-date"] None w
= if bool_decide (fmt ∈ ["full"; "short-full"; "date"; "short-date"])
  then (Ok tt, w)
  else
    (let! a := CheckArg_.pl_i (VAtom (AStr "Date Format")) in
     let! b := CheckArg_.pl_i
                 (CheckArg_.list_value ["full"; "short-full"; "date"; "short-date"]) in
     let! c := CheckArg_.pl_i (CheckArg_.value_of (Some fmt)) in
     raise (ValueError ("Unexpected " ++ a ++ ": expect one of " ++ b
                        ++ ", got " ++ c))) w.
Proof.
unfold CheckArg_.check_mismatch, now_.ca, prettier.cache_mismatch.
cbn [snd prettier.ignore_none prettier.verbose prettier.CheckArg_init is_present
     negb andb CheckArg_.member].
unfold bindM at 1. unfold ret at 1.
destruct (bool_decide (fmt ∈ ["full"; "short-full"; "date"; "short-date"]));
  reflexivity.
Qed.

End NowFacts.

(** X22.  prettier.py: for each of the four accepted formats,
    [now(fmt=fmt, for_path=..., color=color)] with a true [color] returns a
    text and changes nothing: the assertion on the numbers of pieces and
    separators never fails, whatever [strftime] gives.  When [color] is
    [True] or a key of the style table and the text without colour holds no
    escape character, stripping the coloured text gives what [now] returns
    without colour.  A format that is not accepted raises a [ValueError], and
    [fmt=None] passes the check and raises a [TypeError]. *)
Theorem now_colour_round_trip (datetime : Type) (strftime : datetime -> string -> string)
    (d : datetime) (as_path : bool) (fmt : string) (color : now_.color_arg)
    (w : world) :
  fmt ∈ ["full"; "short-full"; "date"; "short-date"] ->
  now_.color_truthy color = true ->
  (exists plain coloured,
     now_.now datetime strftime d true as_path (Some fmt) (now_.ColorBool false) w
     = (Ok (inl plain), w)
     /\ now_.now datetime strftime d true as_path (Some fmt) color w
        = (Ok (inl coloured), w)
     /\ (known_color color -> Str.mem Str.ESC plain = false ->
         _filter_ansi coloured = plain))
  /\ (forall other, other ∉ ["full"; "short-full"; "date"; "short-date"] ->
        exists msg,
          now_.now datetime strftime d true as_path (Some other) color w
          = (Raise (ValueError msg), w))
  /\ now_.now datetime strftime d true as_path None color w = (Raise TypeError, w).
Proof.
  intros Hfmt Hcolor. split; [| split].
  - set (fmt_tm := if Str.contains "full" fmt
                   then if as_path then "%Y-%m-%d_%H-%M-%S" else "%Y-%m-%d %H:%M:%S.%f"
                   else "%Y-%m-%d").
    set (plain := if Str.contains "short" fmt then slice_from 2 (strftime d fmt_tm)
                  else strftime d fmt_tm).
    set (c := match color with now_.ColorStr s => s | now_.ColorBool _ => "green" end).
    assert (Hrun : forall color0,
               now_.now datetime strftime d true as_path (Some fmt) color0 w
               = (if now_.color_truthy color0
                  then
                    let c := match color0 with
                             | now_.ColorStr s => s
                             | now_.ColorBool _ => "green"
                             end in
                    let! nums :=
                      lift (mapR (fun num => PrettyLogger.s (AStr num) (Some c) false true)
                              (now_.split now_.cls_punc plain)) in
                    let puncs := now_.findall now_.cls_punc plain in
                    let! _ := assert (length nums =? length puncs + 1)%nat in
                    ret (inl (Str.join "" (now_.zip_add nums puncs) ++ List.last nums ""))
                  else ret (inl plain)) w).
    { intros color0. unfold now_.now. unfold bindM at 1. rewrite check_format.
      rewrite (bool_decide_eq_true_2 _ Hfmt). reflexivity. }
    exists plain, (weave (map (wrap c) (now_.split now_.cls_punc plain))
                     (now_.findall now_.cls_punc plain)).
    split; [now rewrite Hrun |]. split.
    + rewrite Hrun, Hcolor. cbv zeta. fold c.
      rewrite (mapR_total _ (wrap c) _ (s_wrap c)). cbn [lift].
      unfold bindM at 1. unfold ret at 1. unfold bindM at 1.
      rewrite length_map, split_length, Nat.eqb_refl. reflexivity.
    + intros Hknown Hplain.
      assert (Hc : exists code, PrettyLogger.key2c !! c = Some code).
      { subst c. destruct color as [b | key]; [exists colorama.Fore.GREEN; apply key2c_green |].
        exact Hknown. }
      destruct Hc as [code Hc].
      destruct (split_lacks now_.cls_punc plain Hplain) as [Hp Hq].
      apply strips_to_filter_all.
      rewrite <- (weave_split now_.cls_punc plain) at 3.
      apply weave_strips; try assumption.
      * intros p Hpp. now apply (wrap_strips c code).
      * apply split_length.
  - intros other Hother. unfold now_.now. unfold bindM at 1. rewrite check_format.
    rewrite (bool_decide_eq_false_2 _ Hother).
    unfold bindM at 1. unfold CheckArg_.pl_i at 1.
    change (PrettyLogger.i (VAtom (AStr "Date Format")) no_kwargs)
      with (PrettyLogger.i_else (AStr "Date Format") no_kwargs).
    unfold PrettyLogger.i_else. cbn [is_present key_value_sep pairs_sep for_path
      omit_none_val orb no_kwargs with_color default].
    rewrite (s_styled _ "i" _ key2c_i). cbn [lift]. unfold ret at 1.
    unfold bindM at 1.
    assert (Hl : exists t,
               CheckArg_.pl_i
                 (CheckArg_.list_value ["full"; "short-full"; "date"; "short-date"]) w
               = (Ok t, w)) by (eexists; vm_compute; reflexivity).
    destruct Hl as [t ->]. unfold bindM at 1.
    unfold CheckArg_.pl_i, CheckArg_.value_of.
    change (PrettyLogger.i (VAtom (AStr other)) no_kwargs)
      with (PrettyLogger.i_else (AStr other) no_kwargs).
    unfold PrettyLogger.i_else. cbn [is_present key_value_sep pairs_sep for_path
      omit_none_val orb no_kwargs with_color default].
    rewrite (s_styled _ "i" _ key2c_i). cbn [lift]. unfold ret at 1.
    unfold raise. eauto.
  - unfold now_.now. unfold bindM at 1.
    unfold CheckArg_.check_mismatch, now_.ca, prettier.cache_mismatch.
    cbn [snd prettier.ignore_none prettier.verbose prettier.CheckArg_init is_present
         negb andb]. reflexivity.
Qed.

Lemma now_colour_round_trip_witness :
  (exists plain coloured,
     now_.now unit (fun _ _ => "2024-05-06 07:08:09.000010") tt true false
       (Some "short-full") (now_.ColorBool false) empty_world
     = (Ok (inl plain), empty_world)
     /\ now_.now unit (fun _ _ => "2024-05-06 07:08:09.000010") tt true false
          (Some "short-full") (now_.ColorStr "b") empty_world
        = (Ok (inl coloured), empty_world)
     /\ (known_color (now_.ColorStr "b") -> Str.mem Str.ESC plain = false ->
         _filter_ansi coloured = plain))
  /\ (forall other, other ∉ ["full"; "short-full"; "date"; "short-date"] ->
        exists msg,
          now_.now unit (fun _ _ => "2024-05-06 07:08:09.000010") tt true false
            (Some other) (now_.ColorStr "b") empty_world
          = (Raise (ValueError msg), empty_world))
  /\ now_.now unit (fun _ _ => "2024-05-06 07:08:09.000010") tt true false None
       (now_.ColorStr "b") empty_world = (Raise TypeError, empty_world).
Proof.
  apply (now_colour_round_trip unit (fun _ _ => "2024-05-06 07:08:09.000010") tt false
           "short-full" (now_.ColorStr "b") empty_world).
  - apply (bool_decide_unpack _). vm_compute. exact I.
  - reflexivity.
Defined.

(** * Seconds as minutes and seconds *)

Section Seconds.

Lemma below_cases (n : Z) (k : nat) (P : Z -> Prop) :
(0 <= n < Z.of_nat k)%Z ->
Forall P (map Z.of_nat (seq 0 k)) -> P n.
Proof.
intros Hn HP. rewrite Forall_forall in HP. apply HP.
apply list_elem_of_In, in_map_iff. exists (Z.to_nat n). split; [lia |].
apply in_seq. lia.
Qed.

Lemma fmt_02d_two_digits (n : Z) :
(0 <= n < 60)%Z -> timedelta.fmt_02d n = two_digits n.
Proof.
intros Hn. apply (below_cases n 60 (fun n => timedelta.fmt_02d n = two_digits n));
  [exact Hn |].
repeat (constructor; [vm_compute; reflexivity |]). constructor.
Qed.

Lemma hours_one_digit (h : Z) :
(0 <= h < 10)%Z -> int_str h = String (digit_char h) "".
Proof.
intros Hh. apply (below_cases h 10 (fun h => int_str h = String (digit_char h) ""));
  [exact Hh |].
repeat (constructor; [vm_compute; reflexivity |]). constructor.
Qed.

Lemma hours_two_digits (h : Z) :
(10 <= h < 24)%Z -> exists a b, int_str h = String a (String b "").
Proof.
intros Hh.
assert (Hex : exists a b, int_str (h - 10 + 10) = String a (String b "")).
{ apply (below_cases (h - 10) 14
           (fun k => exists a b, int_str (k + 10) = String a (String b ""))); [lia |].
  repeat (constructor; [do 2 eexists; vm_compute; reflexivity |]). constructor. }
now replace (h - 10 + 10)%Z with h in Hex by lia.
Qed.

Lemma of_seconds_day (sec : Z) :
(0 <= sec < 86400)%Z ->
timedelta.of_seconds sec = timedelta.Val {| timedelta.days := 0; timedelta.seconds := sec |}.
Proof.
intros H. unfold timedelta.of_seconds.
rewrite (Z.div_small sec 86400 H), (Z.mod_small sec 86400 H). reflexivity.
Qed.

Lemma sec2mmss_day (sec : Z) :
(0 <= sec < 86400)%Z ->
sec2mmss sec
= timedelta.Val
    (slice_from 2 (int_str (sec / 60 / 60) ++ ":" ++ two_digits (sec / 60 mod 60)
                   ++ ":" ++ two_digits (sec mod 60))).
Proof.
intros H. unfold sec2mmss. rewrite (of_seconds_day sec H).
unfold timedelta.str. cbn [timedelta.days timedelta.seconds Z.eqb].
rewrite !fmt_02d_two_digits; [reflexivity | |].
- apply Z.mod_pos_bound. lia.
- apply Z.mod_pos_bound. lia.
Qed.

End Seconds.

(** X23.  [sec2mmss(sec)] for an [int] of less than ten hours is
    the minutes within the hour and the seconds within the minute, two
    digits each: the hours are dropped, so [sec] and [sec % 3600] give the
    same text.  From ten hours to a day the text starts with a colon, the
    second digit of the hours being cut off with the first.  When the days
    exceed 999999999 either way the call raises [OverflowError]. *)
Theorem sec2mmss_drops_hours (sec : Z) :
  ((0 <= sec < 36000)%Z ->
     sec2mmss sec
     = timedelta.Val (two_digits (sec / 60 mod 60) ++ ":" ++ two_digits (sec mod 60))
     /\ sec2mmss sec = sec2mmss (sec mod 3600))
  /\ ((36000 <= sec < 86400)%Z ->
      sec2mmss sec
      = timedelta.Val (":" ++ two_digits (sec / 60 mod 60) ++ ":"
                       ++ two_digits (sec mod 60)))
  /\ ((999999999 < Z.abs (sec / 86400))%Z -> sec2mmss sec = timedelta.OverflowError).
Proof.
  assert (Hexact : forall s, (0 <= s < 36000)%Z ->
             sec2mmss s
             = timedelta.Val (two_digits (s / 60 mod 60) ++ ":" ++ two_digits (s mod 60))).
  { intros s Hs. rewrite sec2mmss_day by lia.
    rewrite hours_one_digit; [reflexivity |].
    split.
    - apply Z.div_pos; [apply Z.div_pos |]; lia.
    - apply Z.div_lt_upper_bound; [lia |]. apply Z.div_lt_upper_bound; lia. }
  split; [| split].
  - intros H. split; [now apply Hexact |].
    rewrite (Hexact sec H).
    assert (Hm : (0 <= Z.modulo sec 3600 < 3600)%Z) by (apply Z.mod_pos_bound; lia).
    rewrite (Hexact (Z.modulo sec 3600)) by lia.
    assert (Hs : Z.modulo (Z.modulo sec 3600) 60 = Z.modulo sec 60).
    { apply Z.mod_mod_divide. exists 60%Z. reflexivity. }
    assert (Hq : Z.modulo (Z.div (Z.modulo sec 3600) 60) 60 = Z.modulo (Z.div sec 60) 60).
    { pose proof (Z.div_mod sec 3600 ltac:(lia)) as Hd.
      assert (Hsec : sec = (Z.modulo sec 3600 + (Z.div sec 3600 * 60) * 60)%Z) by lia.
      rewrite Hsec at 2. rewrite Z.div_add by lia.
      rewrite Z.add_mod by lia. rewrite Z.mod_mul by lia.
      rewrite Z.add_0_r. rewrite Z.mod_mod by lia. reflexivity. }
    now rewrite Hs, Hq.
  - intros H. rewrite sec2mmss_day by lia.
    destruct (hours_two_digits (sec / 60 / 60)) as (a & b & ->); [| reflexivity].
    split.
    + apply Z.div_le_lower_bound; [lia |]. apply Z.div_le_lower_bound; lia.
    + apply Z.div_lt_upper_bound; [lia |]. apply Z.div_lt_upper_bound; lia.
  - intros H. unfold sec2mmss, timedelta.of_seconds.
    destruct (Z.leb_spec (Z.abs (sec / 86400)) 999999999); [lia | reflexivity].
Qed.

(** * Timing *)

Section TimerFacts.
Variable datetime : Type.
Variable fmt_elapsed : datetime -> datetime -> string.

Lemma timer_after_ended (calls : list (timer_call datetime)) (self : Timer.t datetime)
  (e : datetime) :
Timer.time_end datetime self = Some e ->
is_Some (Timer.time_start datetime self) ->
Timer.time_end datetime (timer_after fmt_elapsed calls self) = Some e
/\ is_Some (Timer.time_start datetime (timer_after fmt_elapsed calls self)).
Proof.
revert self. induction calls as [|call calls IH]; intros self He Hs; [now split |].
cbn [timer_after fold_left]. apply IH.
- destruct call as [now | now]; [exact He |].
  unfold Timer.end_. destruct Hs as [t0 Ht0]. rewrite Ht0, He. exact He.
- destruct call as [now | now]; [now eexists |].
  unfold Timer.end_. destruct Hs as [t0 Ht0]. rewrite Ht0.
  destruct (Timer.time_end datetime self); cbn [snd]; rewrite ?Ht0; now eexists.
Qed.

End TimerFacts.

(** X24.  [Timer.end()] returns at most once in the life of a
    [Timer]: once it has returned, every later [end()] raises the
    [ValueError] ['Counter already ended'] and changes nothing, whatever
    calls of [start()] and [end()] came in between, and the end time stays
    the one of the call that returned.  The text returned is that of the
    time since the latest [start()].  On [Timer(start=False)] the first
    [end()] raises ['Counter not started']. *)
Theorem timer_ends_once (datetime : Type) (fmt_elapsed : datetime -> datetime -> string)
    (self : Timer.t datetime) (t1 : datetime) (text : string) :
  fst (Timer.end_ datetime fmt_elapsed t1 self) = Ok text ->
  (exists t0, Timer.time_start datetime self = Some t0 /\ text = fmt_elapsed t0 t1)
  /\ (forall calls t2,
        let later :=
          timer_after fmt_elapsed calls (snd (Timer.end_ datetime fmt_elapsed t1 self)) in
        Timer.end_ datetime fmt_elapsed t2 later
        = (Raise (ValueError "Counter already ended"), later)
        /\ Timer.time_end datetime later = Some t1)
  /\ (forall t0 t0',
        fst (Timer.end_ datetime fmt_elapsed t1
               (Timer.start datetime t0' (Timer.init datetime t0 true)))
        = Ok (fmt_elapsed t0' t1))
  /\ (forall t0,
        Timer.end_ datetime fmt_elapsed t1 (Timer.init datetime t0 false)
        = (Raise (ValueError "Counter not started"), Timer.init datetime t0 false)).
Proof.
  intros Hend. unfold Timer.end_ in Hend.
  destruct (Timer.time_start datetime self) as [t0|] eqn:Hs; [| discriminate].
  destruct (Timer.time_end datetime self) as [e|] eqn:He; [discriminate |].
  cbn [fst] in Hend. injection Hend as <-.
  split; [now exists t0 |]. split; [| split].
  - intros calls t2 later.
    assert (Hnow : snd (Timer.end_ datetime fmt_elapsed t1 self)
                   = {| Timer.time_start := Some t0; Timer.time_end := Some t1 |}).
    { unfold Timer.end_. now rewrite Hs, He. }
    destruct (timer_after_ended datetime fmt_elapsed calls
                (snd (Timer.end_ datetime fmt_elapsed t1 self)) t1) as [Hend' [s Hstart']].
    + now rewrite Hnow.
    + rewrite Hnow. now eexists.
    + fold later in Hend', Hstart'. split; [| exact Hend'].
      unfold Timer.end_. now rewrite Hstart', Hend'.
  - reflexivity.
  - reflexivity.
Qed.

Lemma timer_ends_once_witness :
  let self := Timer.init Z 100%Z true in
  (exists t0, Timer.time_start Z self = Some t0
              /\ "1m15s" = (fun a b => fmt_delta (b - a)) t0 175%Z)
  /\ (forall calls t2,
        let later :=
          timer_after (fun a b => fmt_delta (b - a)) calls
            (snd (Timer.end_ Z (fun a b => fmt_delta (b - a)) 175%Z self)) in
        Timer.end_ Z (fun a b => fmt_delta (b - a)) t2 later
        = (Raise (ValueError "Counter already ended"), later)
        /\ Timer.time_end Z later = Some 175%Z)
  /\ (forall t0 t0',
        fst (Timer.end_ Z (fun a b => fmt_delta (b - a)) 175%Z
               (Timer.start Z t0' (Timer.init Z t0 true)))
        = Ok ((fun a b => fmt_delta (b - a)) t0' 175%Z))
  /\ (forall t0,
        Timer.end_ Z (fun a b => fmt_delta (b - a)) 175%Z (Timer.init Z t0 false)
        = (Raise (ValueError "Counter not started"), Timer.init Z t0 false)).
Proof.
  apply (timer_ends_once Z (fun a b => fmt_delta (b - a)) (Timer.init Z 100%Z true)
           175%Z "1m15s").
  vm_compute. reflexivity.
Defined.

(** X25.  prettier_log.py: [CheckArg.assert_options]
    returns [True] exactly when the value is one of the options, or is
    [None] on an object that ignores [None].  Otherwise it returns [False]
    when [silent] is set and raises a [ValueError] naming the display name,
    the options and the value when it is not.  It never changes the loggers
    and changes nothing on an object that is not verbose. *)
Theorem assert_options_outcome (style_i : value -> string)
    (self : prettier_log.CheckArg) (display_name : string) (val : option string)
    (options : list string) (attribute_name : option string) (silent : bool)
    (w : world) :
  exists w',
     loggers w' = loggers w
     /\ (prettier_log.verbose self = false -> w' = w)
     /\ CheckArgLog.assert_options style_i self display_name val options
          attribute_name silent w
        = (if let_through self val options then Ok true
           else if silent then Ok false
           else Raise (ValueError
                         ("Unexpected " ++ style_i (VAtom (AStr display_name))
                          ++ ": expect one of "
                          ++ style_i (CheckArg_.list_value options)
                          ++ ", got " ++ style_i (CheckArg_.value_of val))),
           w').
Proof.
  unfold let_through, CheckArgLog.assert_options.
  destruct (prettier_log.ignore_none self && negb (is_present val)) eqn:Hnone;
    cbn [orb].
  - destruct (prettier_log.verbose self) eqn:Hv.
    + unfold bindM at 1.
      match goal with
      | |- context [LoggerLog.log ?k ?l ?m None w] =>
          destruct (log_keeps_loggers k l m None w) as (w' & -> & Hl)
      end.
      exists w'. split; [exact Hl |]. split; [discriminate | reflexivity].
    + exists w. repeat split.
  - destruct (prettier_log.verbose self) eqn:Hv.
    + unfold bindM at 1. unfold LoggerLog.info.
      match goal with
      | |- context [LoggerLog.log ?k ?l ?m None w] =>
          destruct (log_keeps_loggers k l m None w) as (w' & -> & Hl)
      end.
      exists w'. split; [exact Hl |]. split; [discriminate |].
      destruct (CheckArg_.member val options), silent; reflexivity.
    + exists w. split; [reflexivity |]. split; [reflexivity |].
      unfold bindM at 1. unfold ret at 1.
      destruct (CheckArg_.member val options), silent; reflexivity.
Qed.

(** * Replacing the file handler *)

Section Replacing.
Variable handler_text : Handler -> string.

Lemma kept_subset_upto (n : nat) :
forall (hs : list Handler) (h : Handler), length hs <= n -> h ∈ kept hs -> h ∈ hs.
Proof.
induction n as [|n IH]; intros hs h Hlen.
- destruct hs; [easy | cbn [length] in Hlen; lia].
- destruct hs as [|x rest]; [easy |]. cbn [length] in Hlen.
  cbn [kept]. destruct (is_file x).
  + destruct rest as [|x' rest']; [easy |]. cbn [length] in Hlen.
    intros Hin. apply elem_of_cons in Hin as [-> | Hin].
    * apply elem_of_cons. right. apply elem_of_cons. now left.
    * apply elem_of_cons. right. apply elem_of_cons. right.
      apply IH; [lia | exact Hin].
  + intros Hin. apply elem_of_cons in Hin as [-> | Hin];
      [apply elem_of_cons; now left |].
    apply elem_of_cons. right. apply IH; [lia | exact Hin].
Qed.

Lemma kept_subset (hs : list Handler) (h : Handler) : h ∈ kept hs -> h ∈ hs.
Proof. apply (kept_subset_upto (length hs)). lia. Qed.

(** The loop, from position [length pre] on. *)
Lemma remove_loop_kept (key : string) (lg : Logger) (steps : nat) :
forall (pre suf : list Handler) (w : world),
  loggers w !! key = Some (with_handlers lg (pre ++ suf)) ->
  NoDup (map h_id (pre ++ suf)) ->
  length suf <= steps ->
  exists w',
    prettier_handlers.remove_loop handler_text key steps (length pre) w = (Ok tt, w')
    /\ loggers w' = <[key := with_handlers lg (pre ++ kept suf)]> (loggers w).
Proof.
induction steps as [steps IH] using lt_wf_ind.
intros pre suf w Hlg Hnd Hlen.
destruct suf as [|h rest].
- exists w. rewrite !app_nil_r in *. cbn [kept]. rewrite ?app_nil_r.
  split; [| now rewrite (insert_id _ _ _ Hlg)].
  destruct steps as [|s]; [reflexivity |].
  cbn [prettier_handlers.remove_loop]. unfold bindM, Logger.read, ret. rewrite Hlg.
  cbn [default from_option id with_handlers lg_handlers].
  now rewrite lookup_ge_None_2 by lia.
- destruct steps as [|s]; [cbn [length] in Hlen; lia |].
  cbn [prettier_handlers.remove_loop]. unfold bindM at 1, Logger.read at 1, ret at 1.
  rewrite Hlg. cbn [default from_option id with_handlers lg_handlers].
  rewrite lookup_app_r by lia. rewrite Nat.sub_diag. cbn [lookup list_lookup].
  fold (is_file h). cbn [kept]. destruct (is_file h) eqn:Hfile.
  + unfold bindM at 1. unfold bindM at 1.
    unfold Logger.removeHandler, Logger.update. rewrite Hlg.
    cbn [default from_option id with_handlers lg_handlers lg_level lg_propagate].
    rewrite remove_first_at; cycle 1.
    { rewrite map_app in Hnd. apply NoDup_app in Hnd as (_ & Hdis & _).
      intros Hin. apply (Hdis _ Hin). cbn [map]. left. }
    fold (with_handlers lg (pre ++ rest)).
    set (w1 := World _ _ _ _ _).
    unfold bindM at 1. rewrite i_atom_default. cbn [lift]. unfold ret at 1.
    unfold LoggerLog.info.
    match goal with
    | |- context [LoggerLog.log key INFO ?m None w1] =>
        destruct (log_keeps_loggers key INFO m None w1) as (w2 & -> & Hl2)
    end.
    assert (Hnd' : NoDup (map h_id (pre ++ rest))).
    { rewrite map_app in *. apply NoDup_app in Hnd as (Hp & Hdis & Hr).
      apply NoDup_app. split; [exact Hp |]. cbn [map] in *.
      apply NoDup_cons in Hr as [_ Hr]. split; [| exact Hr].
      intros x Hx Hx'. apply (Hdis x Hx). now right. }
    assert (Hlg2 : loggers w2 !! key = Some (with_handlers lg (pre ++ rest))).
    { rewrite Hl2. subst w1. cbn [loggers]. apply lookup_insert_eq. }
    assert (Hins : forall l,
               <[key := with_handlers lg l]> (loggers w2)
               = <[key := with_handlers lg l]> (loggers w)).
    { intros l. rewrite Hl2. subst w1. cbn [loggers]. apply insert_insert_eq. }
    destruct rest as [|h' rest'].
    * rewrite !app_nil_r in *.
      exists w2. split; [| now rewrite <- Hins, (insert_id _ _ _ Hlg2)].
      destruct s as [|s]; [reflexivity |].
      cbn [prettier_handlers.remove_loop]. unfold bindM, Logger.read, ret.
      rewrite Hlg2. cbn [default from_option id with_handlers lg_handlers].
      now rewrite lookup_ge_None_2 by (cbn [length]; lia).
    * destruct (IH s ltac:(lia) (pre ++ [h'])%list rest' w2) as (w' & Hrun & Hl).
      -- now rewrite <- app_assoc.
      -- now rewrite <- app_assoc.
      -- cbn [length] in Hlen. lia.
      -- exists w'. rewrite length_app in Hrun. cbn [length] in Hrun.
         rewrite Nat.add_1_r in Hrun. split; [exact Hrun |].
         rewrite Hl, Hins, <- !app_assoc. reflexivity.
  + unfold bindM at 1. change (ret tt w) with (Ok tt, w). cbv beta iota.
    destruct (IH s ltac:(lia) (pre ++ [h])%list rest w) as (w' & Hrun & Hl).
    * now rewrite <- app_assoc.
    * now rewrite <- app_assoc.
    * cbn [length] in Hlen. lia.
    * exists w'. rewrite length_app in Hrun. cbn [length] in Hrun.
      rewrite Nat.add_1_r in Hrun. split; [exact Hrun |].
      rewrite Hl, <- !app_assoc. reflexivity.
Qed.

End Replacing.

(** X26.  prettier.py: when the new file can be
    opened, [add_file_handler(logger, file_path)] returns the logger with the
    new handler attached last, after the handlers that its loop leaves: a
    file handler is removed, and the handler that follows a removed one is
    passed over, so of two file handlers next to each other the second stays.
    On a logger as [get_logger(kind='both')] leaves it, the old file handler
    is replaced, and the message that tells of the removal reaches the
    console and neither file. *)
Theorem old_add_file_handler_replaces (handler_text : Handler -> string)
    (key path : string) (lg : Logger) (h : Handler) (w w1 : world) :
  prettier.get_logging_handler_one "file" (Some path) w = (Ok h, w1) ->
  loggers w !! key = Some lg ->
  NoDup (map h_id (lg_handlers lg)) ->
  Forall (fun x => h_id x < next_id w) (lg_handlers lg) ->
  h = file_handler (next_id w) DEBUG path
  /\ exists w',
       prettier_handlers.add_file_handler handler_text key (Some path) w = (Ok key, w')
       /\ loggers w'
          = <[key := with_handlers lg (kept (lg_handlers lg) ++ [h])]> (loggers w)
       /\ (forall x y, lg_handlers lg = [x; y] -> is_file x = true ->
             lg_handlers <$> loggers w' !! key = Some [y; h])
       /\ (forall n1 n2 p,
             lg = {| lg_handlers := [stdout_handler n1 DEBUG; file_handler n2 DEBUG p];
                     lg_level := DEBUG; lg_propagate := false |} ->
             lg_handlers <$> loggers w' !! key = Some [stdout_handler n1 DEBUG; h]
             /\ stdout w'
                = (stdout w
                   ++ [console_entry
                         (plain_record key INFO
                            ("Prior Handler " ++ colorama.Fore.BLUE
                             ++ handler_text (file_handler n2 DEBUG p)
                             ++ PrettyLogger.reset ++ " removed"))])%list
             /\ files w' = files w1).
Proof.
  intros Hone Hlg Hnd Hids.
  pose proof (old_file_handler_inv path w w1 h Hone) as (Hh & Hl1 & Hs1 & Hn1 & Hf1 & _).
  split; [exact Hh |].
  assert (Hlg1 : loggers w1 !! key = Some (with_handlers lg ([] ++ lg_handlers lg))).
  { rewrite Hl1, Hlg. f_equal. now destruct lg. }
  destruct (remove_loop_kept handler_text key lg (length (lg_handlers lg)) []
              (lg_handlers lg) w1 Hlg1 Hnd ltac:(lia)) as (w2 & Hloop & Hl2).
  cbn [length app] in Hloop, Hl2.
  assert (Hfresh : Logger.has_handler (kept (lg_handlers lg)) h = false).
  { unfold Logger.has_handler. apply not_true_iff_false. intros Hex.
    apply existsb_exists in Hex as (x & Hx & Heq).
    apply list_elem_of_In, kept_subset in Hx.
    rewrite Forall_forall in Hids. specialize (Hids x Hx).
    apply Nat.eqb_eq in Heq. rewrite Hh in Heq. cbn [h_id file_handler] in Heq. lia. }
  assert (Hrun : prettier_handlers.add_file_handler handler_text key (Some path) w
                 = (Ok key,
                    World (<[key := with_handlers lg (kept (lg_handlers lg) ++ [h])]>
                             (loggers w2))
                      (dirs w2) (files w2) (stdout w2) (next_id w2))).
  { unfold prettier_handlers.add_file_handler. unfold bindM at 1. rewrite Hone.
    unfold bindM at 1, Logger.read at 1, ret at 1. rewrite Hl1, Hlg.
    cbn [default from_option id]. unfold bindM at 1. rewrite Hloop.
    unfold bindM at 1. unfold Logger.addHandler, Logger.update.
    rewrite Hl2, lookup_insert_eq.
    cbn [default from_option id with_handlers lg_handlers lg_level lg_propagate].
    rewrite Hfresh. unfold ret. reflexivity. }
  eexists. split; [exact Hrun |]. cbn [loggers stdout files].
  split; [| split].
  - rewrite Hl2, insert_insert_eq, Hl1. reflexivity.
  - intros x y Hxy Hx. rewrite lookup_insert_eq. cbn [fmap option_fmap option_map].
    cbn [with_handlers lg_handlers]. rewrite Hxy. cbn [kept]. rewrite Hx. reflexivity.
  - intros n1 n2 p Hshape. rewrite lookup_insert_eq. cbn [fmap option_fmap option_map].
    cbn [with_handlers lg_handlers]. subst lg. cbn [lg_handlers kept].
    change (is_file (stdout_handler n1 DEBUG)) with false.
    change (is_file (file_handler n2 DEBUG p)) with true. cbv iota.
    split; [reflexivity |].
    revert Hloop. cbn [lg_handlers length prettier_handlers.remove_loop].
    unfold bindM at 1, Logger.read at 1, ret at 1. rewrite Hl1, Hlg.
    cbn [default from_option id lg_handlers lookup list_lookup].
    change (is_FileHandler (h_class (stdout_handler n1 DEBUG))) with false. cbv iota.
    unfold bindM at 1. change (ret tt w1) with (Ok tt, w1). cbv beta iota.
    unfold bindM at 1, Logger.read at 1, ret at 1. rewrite Hl1, Hlg.
    cbn [default from_option id lg_handlers lookup list_lookup].
    change (is_FileHandler (h_class (file_handler n2 DEBUG p))) with true. cbv iota.
    unfold bindM at 1. unfold bindM at 1.
    unfold Logger.removeHandler, Logger.update. rewrite Hl1, Hlg.
    cbn [default from_option id lg_handlers lg_level lg_propagate].
    assert (Hne : Nat.eqb n1 n2 = false).
    { apply Nat.eqb_neq. intros ->. cbn [map lg_handlers h_id stdout_handler
        file_handler] in Hnd. apply NoDup_cons in Hnd as [Hnot _].
      apply Hnot. apply elem_of_cons. now left. }
    cbn [Logger.remove_first h_id stdout_handler file_handler].
    rewrite Hne, Nat.eqb_refl.
    set (wa := World _ _ _ _ _).
    unfold bindM at 1. rewrite i_atom_default. cbn [lift format_atom]. unfold ret at 1.
    unfold LoggerLog.info.
    rewrite (log_offered key
               {| lg_handlers := [stdout_handler n1 DEBUG]; lg_level := DEBUG;
                  lg_propagate := false |} INFO _ None wa);
      [| subst wa; cbn [loggers]; apply lookup_insert_eq | discriminate | reflexivity].
    cbn [lg_level lg_handlers]. change (DEBUG <=? INFO)%Z with true. cbv iota.
    unfold ret. intros [= <-]. subst wa.
    rewrite <- Hs1, !append_assoc. split; reflexivity.
Qed.

Lemma old_add_file_handler_replaces_witness :
  let lg := {| lg_handlers := [stdout_handler 0 DEBUG; file_handler 1 DEBUG "run.log"];
               lg_level := DEBUG; lg_propagate := false |} in
  let w := World {["run" := lg]} ∅ ∅ [] 2 in
  let w1 := snd (prettier.get_logging_handler_one "file" (Some "new.log") w) in
  let h := file_handler 2 DEBUG "new.log" in
  h = file_handler (next_id w) DEBUG "new.log"
  /\ exists w',
       prettier_handlers.add_file_handler (fun _ => "<handler>") "run" (Some "new.log") w
       = (Ok "run", w')
       /\ loggers w'
          = <["run" := with_handlers lg (kept (lg_handlers lg) ++ [h])]> (loggers w)
       /\ (forall x y, lg_handlers lg = [x; y] -> is_file x = true ->
             lg_handlers <$> loggers w' !! "run" = Some [y; h])
       /\ (forall n1 n2 p,
             lg = {| lg_handlers := [stdout_handler n1 DEBUG; file_handler n2 DEBUG p];
                     lg_level := DEBUG; lg_propagate := false |} ->
             lg_handlers <$> loggers w' !! "run" = Some [stdout_handler n1 DEBUG; h]
             /\ stdout w'
                = (stdout w
                   ++ [console_entry
                         (plain_record "run" INFO
                            ("Prior Handler " ++ colorama.Fore.BLUE
                             ++ (fun _ : Handler => "<handler>") (file_handler n2 DEBUG p)
                             ++ PrettyLogger.reset ++ " removed"))])%list
             /\ files w' = files w1).
Proof.
  apply (old_add_file_handler_replaces (fun _ => "<handler>") "run" "new.log"
           {| lg_handlers := [stdout_handler 0 DEBUG; file_handler 1 DEBUG "run.log"];
              lg_level := DEBUG; lg_propagate := false |}
           (file_handler 2 DEBUG "new.log")
           (World {["run" := {| lg_handlers := [stdout_handler 0 DEBUG;
                                                file_handler 1 DEBUG "run.log"];
                                lg_level := DEBUG; lg_propagate := false |}]} ∅ ∅ [] 2)).
  - vm_compute. reflexivity.
  - apply lookup_singleton_eq.
  - apply (bool_decide_unpack _). vm_compute. exact I.
  - repeat constructor.
Defined.
